(** * Couple-counselling scoring service: a shallow embedding of [service.py]

    The development follows the Python module function by function.

    Numbers.  Questionnaire answers are Python integers and are kept in [Z].
    Every quantity the service computes with [/] is a Python float; floats are
    idealised as exact rationals ([Q]), compared up to [==]; the rounding of
    IEEE doubles is not modelled.

    Exceptions.  Python raises [ZeroDivisionError] on a zero divisor; a
    computation that can raise lives in [option], [None] standing for the
    raised exception.

    Dictionaries are [gmap string _]; [d.get(k, v)] is [get k v d]. *)

From Stdlib Require Import ZArith QArith Qabs Qminmax Qround Lqa Lia List String Ascii.
From Stdlib Require Import DecimalString Sorted.
From stdpp Require Import base option list gmap strings.

Local Open Scope Q_scope.

(** ** Python arithmetic *)

Module Py.

(** [a / b] on numbers: raises on a zero divisor. *)
Definition div (a b : Q) : option Q :=
  if Qeq_bool b 0 then None else Some (a / b).

(** Strict comparisons, as booleans. *)
Definition gt (a b : Q) : bool := negb (Qle_bool a b).
Definition lt (a b : Q) : bool := negb (Qle_bool b a).
Definition ge (a b : Q) : bool := Qle_bool b a.
Definition le (a b : Q) : bool := Qle_bool a b.

(** [len(l)] as a number. *)
Definition len {A} (l : list A) : Q := inject_Z (Z.of_nat (length l)).

(** [sum(l)] over integers. *)
Definition sum (l : list Z) : Z := foldr Z.add 0%Z l.

(** [sum(l)] over floats. *)
Definition fsum (l : list Q) : Q := foldr Qplus 0 l.

(** [d.get(k, v)]. *)
Definition get {V} (k : string) (v : V) (d : gmap string V) : V :=
  default v (d !! k).

End Py.

(** ** Personalised dynamics: [calculate_personalized_features_flask] *)

(** The fallback of lines 29-46: when one partner's list is empty the combined
    questionnaire is split in half (or shared when it has fewer than two
    entries).  Returns [(all_responses, male_responses, female_responses)]. *)
Definition split_responses (questionnaire_responses male_responses female_responses : list Z)
  : list Z * list Z * list Z :=
  if bool_decide (male_responses ≠ []) && bool_decide (female_responses ≠ [])
     && (0 <? length male_responses)%nat && (0 <? length female_responses)%nat
  then (male_responses ++ female_responses, male_responses, female_responses)
  else
    if (2 <=? length questionnaire_responses)%nat then
      let mid_point := (length questionnaire_responses / 2)%nat in
      (questionnaire_responses,
       take mid_point questionnaire_responses,
       drop mid_point questionnaire_responses)
    else (questionnaire_responses, questionnaire_responses, questionnaire_responses).

(** The accumulators of the comparison loop (lines 49-51). *)
Record loop_state := {
  acc_alignment : Q;
  acc_conflict_count : Z;
  acc_weighted_conflict : Q
}.

Definition loop_init : loop_state :=
  {| acc_alignment := 0; acc_conflict_count := 0; acc_weighted_conflict := 0 |}.

(** The conflict weight one index adds (lines 67-78). *)
Definition conflict_weight (male_resp female_resp : Z) : Q :=
  let difference := Z.abs (male_resp - female_resp) in
  if (2 <=? difference)%Z then 1
  else if (difference =? 1)%Z then
    if ((male_resp =? 3) && (female_resp =? 2) || (male_resp =? 2) && (female_resp =? 3))%Z
    then 0.6
    else if ((male_resp =? 4) && (female_resp =? 3) || (male_resp =? 3) && (female_resp =? 4))%Z
    then 0.4
    else 0.5
  else 0.

(** One iteration of the loop body (lines 55-78) at index [i]. *)
Definition loop_body (male_responses female_responses : list Z)
  (st : loop_state) (i : nat) : loop_state :=
  let male_resp := nth i male_responses 3%Z in
  let female_resp := nth i female_responses 3%Z in
  let difference := Z.abs (male_resp - female_resp) in
  {| acc_alignment := acc_alignment st + (4 - inject_Z difference) / 4;
     acc_conflict_count :=
       if (2 <=? difference)%Z then (acc_conflict_count st + 1)%Z
       else acc_conflict_count st;
     acc_weighted_conflict :=
       acc_weighted_conflict st + conflict_weight male_resp female_resp |}.

Definition total_questions_of (male_responses female_responses : list Z) : nat :=
  Nat.min (length male_responses) (length female_responses).

Definition compare_loop (male_responses female_responses : list Z) : loop_state :=
  fold_left (loop_body male_responses female_responses)
            (seq 0 (total_questions_of male_responses female_responses))
            loop_init.

(** Population variance of a list around its mean, as written twice in the
    source (lines 91-92 and 104-105); raises on the empty list. *)
Definition mean_of (responses : list Z) : option Q :=
  Py.div (inject_Z (Py.sum responses)) (Py.len responses).

Definition variance_of (responses : list Z) : option Q :=
  mean ← mean_of responses;
  Py.div (Py.fsum (map (fun r => (inject_Z r - mean) ^ 2) responses))
         (Py.len responses).

(** [calculate_consistency], the inner function of lines 88-93. *)
Definition calculate_consistency (responses : list Z) : option Q :=
  if (length responses <? 2)%nat then Some 1
  else
    variance ← variance_of responses;
    Some (Qmax 0 (1 - variance / 4)).

Definition partner_avg (responses : list Z) : option Q :=
  if bool_decide (responses ≠ []) then mean_of responses else Some 3.

(** The whole function; the result is the dictionary of lines 107-117. *)
Definition calculate_personalized_features_flask
  (questionnaire_responses male_responses female_responses : list Z)
  : option (gmap string Q) :=
  let '(all_responses, male_responses, female_responses) :=
    split_responses questionnaire_responses male_responses female_responses in
  let total_questions := total_questions_of male_responses female_responses in
  let st := compare_loop male_responses female_responses in
  alignment_score ←
    (if (0 <? total_questions)%nat
     then Py.div (acc_alignment st) (inject_Z (Z.of_nat total_questions))
     else Some 0.5);
  conflict_ratio ←
    (if (0 <? total_questions)%nat
     then Py.div (acc_weighted_conflict st) (inject_Z (Z.of_nat total_questions))
     else Some 0);
  male_avg ← partner_avg male_responses;
  female_avg ← partner_avg female_responses;
  male_consistency ← calculate_consistency male_responses;
  female_consistency ← calculate_consistency female_responses;
  power_balance ←
    (if Py.gt female_avg 0 then Py.div male_avg female_avg else Some 1);
  response_variance ←
    (if (1 <? length all_responses)%nat then variance_of all_responses else Some 0);
  Some (<["alignment_score" := alignment_score]>
       (<["conflict_ratio" := conflict_ratio]>
       (<["male_avg_response" := male_avg]>
       (<["female_avg_response" := female_avg]>
       (<["male_consistency" := male_consistency]>
       (<["female_consistency" := female_consistency]>
       (<["power_balance" := power_balance]>
       (<["response_variance" := response_variance]>
       (<["total_conflicts" := inject_Z (acc_conflict_count st)]> ∅))))))))).

(** ** Synthetic population: the risk label of a generated couple *)

(** [sum(1 for r in questionnaire_responses if r == 2)]. *)
Definition disagree_count (questionnaire_responses : list Z) : Z :=
  Py.sum (map (fun _ => 1%Z) (filter (fun r => r = 2%Z) questionnaire_responses)).

(** [disagree_count / len(questionnaire_responses)]: raises on no responses. *)
Definition disagree_ratio (questionnaire_responses : list Z) : option Q :=
  Py.div (inject_Z (disagree_count questionnaire_responses))
         (Py.len questionnaire_responses).

(** Generic mode, [generate_synthetic_data] lines 581-590. *)
Definition generic_risk_level (questionnaire_responses : list Z) : option string :=
  disagree_ratio ← disagree_ratio questionnaire_responses;
  Some (if Py.gt disagree_ratio 0.35 then "High"
        else if Py.gt disagree_ratio 0.15 then "Medium"
        else "Low")%string.

(** Patterned mode, [generate_synthetic_data_based_on_real_couples]
    lines 372-381. *)
Definition patterned_risk_level (questionnaire_responses : list Z) : option string :=
  disagree_ratio ← disagree_ratio questionnaire_responses;
  Some (if Py.gt disagree_ratio 0.3 then "High"
        else if Py.gt disagree_ratio 0.15 then "Medium"
        else "Low")%string.

(** Patterned mode perturbs the answers of a real couple (lines 366-370);
    [variation j] is the draw of [np.random.choice([-1, 0, 1])] made at
    index [j]. *)
Definition perturb_responses (base_responses : list Z) (variation : nat -> Z) : list Z :=
  imap (fun j base_response => Z.max 2 (Z.min 4 (base_response + variation j)))
       base_responses.

(** The demographic part of a couple, as stored in a generated row and as
    rebuilt by [analyze]. *)
Record couple_profile := {
  male_age : Z;
  female_age : Z;
  civil_status : string;
  years_living_together : Z;
  past_children : bool;
  children : Z;
  education_level : Z;
  income_level : Z
}.

(** A generated training row (the dictionaries of lines 412-424 and 621-633;
    the category scores are not used by what follows and are left out). *)
Record couple_row := {
  row_profile : couple_profile;
  row_questionnaire_responses : list Z;
  row_risk_level : string
}.

(** One couple of generic mode, from its demographic draws and from the
    answers drawn by [np.random.choice([2, 3, 4], total_questions, p)]. *)
Definition generic_couple (profile : couple_profile) (questionnaire_responses : list Z)
  : option couple_row :=
  risk_level ← generic_risk_level questionnaire_responses;
  Some {| row_profile := profile;
          row_questionnaire_responses := questionnaire_responses;
          row_risk_level := risk_level |}.

(** One couple of patterned mode, from its demographic draws, the answers of
    the sampled real couple and the variation draws. *)
Definition patterned_couple (profile : couple_profile) (base_responses : list Z)
  (variation : nat -> Z) : option couple_row :=
  let questionnaire_responses := perturb_responses base_responses variation in
  risk_level ← patterned_risk_level questionnaire_responses;
  Some {| row_profile := profile;
          row_questionnaire_responses := questionnaire_responses;
          row_risk_level := risk_level |}.

(** [load_real_couples_for_training] lines 713-715: right-pad with neutral,
    then truncate, to the catalogue size. *)
Definition pad_or_truncate (total_expected_responses : nat) (questionnaire_responses : list Z)
  : list Z :=
  take total_expected_responses
       (questionnaire_responses ++
        replicate (total_expected_responses - length questionnaire_responses) 3%Z).

(** ** Feature vector *)

Definition demographic_features (p : couple_profile) : list Q :=
  [ inject_Z (male_age p); inject_Z (female_age p);
    inject_Z (years_living_together p); inject_Z (children p);
    inject_Z (education_level p); inject_Z (income_level p) ].

(** The eight values drawn per row at training time (lines 828-854). *)
Record synthetic_features := {
  syn_alignment_score : Q;
  syn_conflict_ratio : Q;
  syn_male_avg_response : Q;
  syn_female_avg_response : Q;
  syn_male_consistency : Q;
  syn_female_consistency : Q;
  syn_power_balance : Q;
  syn_response_variance : Q
}.

(** Training time, [train_ml_models] lines 810-856. *)
Definition train_features (row : couple_row) (drawn : synthetic_features) : list Q :=
  let features := demographic_features (row_profile row) in
  let features := features ++ map inject_Z (row_questionnaire_responses row) in
  let personalized_features :=
    [ syn_alignment_score drawn; syn_conflict_ratio drawn;
      syn_male_avg_response drawn; syn_female_avg_response drawn;
      syn_male_consistency drawn; syn_female_consistency drawn;
      syn_power_balance drawn; syn_response_variance drawn ] in
  features ++ personalized_features.

(** Inference time, [analyze] lines 1105-1126. *)
Definition personalized_feature_values (personalized_features : gmap string Q) : list Q :=
  [ Py.get "alignment_score" 0.5 personalized_features;
    Py.get "conflict_ratio" 0 personalized_features;
    Py.get "male_avg_response" 3 personalized_features;
    Py.get "female_avg_response" 3 personalized_features;
    Py.get "male_consistency" 0.5 personalized_features;
    Py.get "female_consistency" 0.5 personalized_features;
    Py.get "power_balance" 0 personalized_features;
    Py.get "response_variance" 0 personalized_features ].

Definition analyze_features (p : couple_profile) (questionnaire_responses : list Z)
  (personalized_features : gmap string Q) : list Q :=
  let features := demographic_features p ++ map inject_Z questionnaire_responses in
  features ++ personalized_feature_values personalized_features.

(** ** Text *)

Module Text.

Definition of_Z (z : Z) : string := NilZero.string_of_int (Z.to_int z).

(** [int(x)]: truncation toward zero. *)
Definition int (x : Q) : Z := Z.quot (Qnum x) (Z.pos (Qden x)).

(** [int(x * 100)], the percentage shown in the messages. *)
Definition percent (x : Q) : string := of_Z (int (x * 100)).

Definition round_half_even (x : Q) : Z :=
  let f := Qfloor x in
  let r := x - inject_Z f in
  if Py.lt r 0.5 then f
  else if Py.gt r 0.5 then (f + 1)%Z
  else if Z.even f then f else (f + 1)%Z.

(** The format [{x:.1f}]. *)
Definition fixed1 (x : Q) : string :=
  let n := round_half_even (Qabs x * 10) in
  (if Py.lt x 0 then "-" else "") +:+ of_Z (n / 10) +:+ "." +:+ of_Z (n mod 10).

(** [sub in s]. *)
Fixpoint contains (sub s : string) : bool :=
  String.prefix sub s ||
  match s with
  | EmptyString => false
  | String _ s' => contains sub s'
  end.

(** [s.lower()], on ASCII letters. *)
Definition lower_ascii (c : ascii) : ascii :=
  let n := nat_of_ascii c in
  if ((65 <=? n) && (n <=? 90))%nat then ascii_of_nat (n + 32) else c.

Fixpoint lower (s : string) : string :=
  match s with
  | EmptyString => EmptyString
  | String c s' => String (lower_ascii c) (lower s')
  end.

(** [sep.join(parts)]. *)
Fixpoint join (sep : string) (parts : list string) : string :=
  match parts with
  | [] => ""
  | [p] => p
  | p :: rest => p +:+ sep +:+ join sep rest
  end.

End Text.

(** ** Priority tiers and focus categories *)

(** An entry of a [focus_categories] list. *)
Record focus_category := {
  fc_name : string;
  fc_score : Q;
  fc_priority : string
}.

(** The three-level system of [analyze] (lines 1168-1173). *)
Definition display_priority (score : Q) : string :=
  if Py.gt score 0.6 then "High"
  else if Py.gt score 0.3 then "Moderate"
  else "Low".

(** The four-level system of [generate_ml_recommendations] (lines 957-966);
    a category at or below 20% gets no entry at all. *)
Definition narrative_priority (score : Q) : option string :=
  if Py.gt score 0.2 then
    Some (if Py.gt score 0.7 then "Critical"
          else if Py.gt score 0.4 then "High"
          else if Py.gt score 0.2 then "Moderate"
          else "Low")
  else None.

(** [sorted(l, key=..., reverse=True)]: stable, descending. *)
Fixpoint insert_desc {A} (key : A -> Q) (x : A) (l : list A) : list A :=
  match l with
  | [] => [x]
  | y :: l' => if Py.le (key y) (key x) then x :: l else y :: insert_desc key x l'
  end.

Definition sorted_desc {A} (key : A -> Q) (l : list A) : list A :=
  foldr (insert_desc key) [] l.

(** [for cat, score in zip(MEAI_CATEGORIES, category_scores)] of [analyze]. *)
Definition display_focus_categories (MEAI_CATEGORIES : list string) (category_scores : list Q)
  : list focus_category :=
  map (fun '(cat, score) =>
         {| fc_name := cat; fc_score := score; fc_priority := display_priority score |})
      (zip MEAI_CATEGORIES category_scores).

(** ** [generate_ml_recommendations] *)

Record ml_recommendations := {
  ml_recs : list string;
  ml_focus_categories : list focus_category;
  ml_model_type : string;
  (** [np.mean] of no score is [nan], here [None] *)
  ml_prediction_confidence : option Q;
  ml_analysis_method : string
}.

(** What one category adds (lines 957-997): at most one focus entry and its
    recommendation texts. *)
Definition ml_category_step (has_children : bool) (children_count : Z)
  (category : string) (score : Q) : list focus_category * list string :=
  match narrative_priority score with
  | None => ([], [])
  | Some priority_level =>
    let category_lower := Text.lower category in
    ([ {| fc_name := category; fc_score := score; fc_priority := priority_level |} ],
     if Text.contains "marriage" category_lower && Text.contains "relationship" category_lower
     then
       (if Py.gt score 0.7
        then ["High priority: Strengthen marriage expectations and relationship foundations - ML analysis indicates significant development needs"]
        else []) ++
       ["Focus on partnership quality, mutual understanding, and marriage preparation based on MEAI assessment"]
     else if Text.contains "responsible" category_lower && Text.contains "parenthood" category_lower
     then
       (if has_children
        then ["Address responsible parenting with " +:+ Text.of_Z children_count +:+ " "
              +:+ (if (children_count =? 1)%Z then "child" else "children")
              +:+ " - ML analysis suggests focused attention needed"]
        else []) ++
       ["Strengthen family planning knowledge, shared parental responsibilities, and informed decision-making - ML-identified priority"]
     else if Text.contains "planning" category_lower && Text.contains "family" category_lower
     then
       ["Develop comprehensive family planning strategy and reproductive health awareness - ML model indicates this requires attention";
        "Focus on family size decisions, spacing, and contraceptive knowledge based on ML predictions"]
     else if Text.contains "maternal" category_lower || Text.contains "neonatal" category_lower
             || Text.contains "child health" category_lower
     then
       ["Prioritize maternal and child health education - ML analysis highlights importance for your family's wellbeing";
        if has_children
        then "Address nutrition and health needs for existing children while planning for future"
        else "Prepare knowledge on prenatal care, newborn health, and child nutrition for future family planning"]
     else [])
  end.

Definition ml_risk_headline (risk_level : string) : string :=
  if String.eqb risk_level "High"
  then "URGENT: ML risk assessment indicates high priority intervention needed - recommend immediate counseling"
  else if String.eqb risk_level "Medium"
  then "ML analysis suggests moderate intervention - proactive counseling recommended"
  else "ML prediction shows positive relationship indicators - continue strengthening current patterns".

Definition generate_ml_recommendations (MEAI_CATEGORIES : list string)
  (profile : couple_profile) (risk_level : string) (category_scores : list Q)
  : ml_recommendations :=
  let category_priorities := sorted_desc snd (zip MEAI_CATEGORIES category_scores) in
  let steps :=
    map (fun '(category, score) =>
           ml_category_step (past_children profile) (children profile) category score)
        category_priorities in
  let focus_categories := concat (map fst steps) in
  let recommendations := concat (map snd steps) in
  let recommendations := ml_risk_headline risk_level :: recommendations in
  let age_gap := Z.abs (male_age profile - female_age profile) in
  let recommendations :=
    recommendations ++
    (if (10 <? age_gap)%Z
     then ["Consider age difference dynamics (" +:+ Text.of_Z age_gap
           +:+ " years) in relationship planning - ML factor analysis"]
     else []) in
  let recommendations :=
    recommendations ++
    (if String.eqb (civil_status profile) "Living In" && (5 <? years_living_together profile)%Z
     then ["Long-term cohabitation (" +:+ Text.of_Z (years_living_together profile)
           +:+ " years) - ML suggests discussing future commitment clarity"]
     else if bool_decide (civil_status profile ∈ ["Widowed"; "Separated"; "Divorced"])
     then ["Previous relationship experience (" +:+ civil_status profile
           +:+ ") - ML indicates importance of healing and fresh start focus"]
     else []) in
  let top := map snd (take 3 category_priorities) in
  {| ml_recs := take 8 recommendations;
     ml_focus_categories := focus_categories;
     ml_model_type := "Machine Learning";
     ml_prediction_confidence := Py.div (Py.fsum top) (Py.len top);
     ml_analysis_method := "Random Forest Counseling Topics Model" |}.

(** ** [generate_rule_based_recommendations] *)

(** One constructor per message template of the generator, carrying the values
    the template prints; [render] gives the text. *)
Inductive recommendation :=
  (* 1. alignment *)
  | CriticalAlignment (alignment_score : Q)
  | SignificantDisagreement (alignment_score : Q)
  | ModerateAlignment (alignment_score : Q)
  | StrongAlignment (alignment_score : Q)
  (* 1.5. couple optimism *)
  | ExcellentHarmony (couple_optimism : Q)
  | GoodHarmony (couple_optimism : Q)
  | ModerateHarmony (couple_optimism : Q)
  | ConcerningHarmony (couple_optimism : Q)
  (* 2. conflict *)
  | HighConflict (conflict_ratio : Q)
  | ModerateConflict (conflict_ratio : Q)
  | MinorConflicts (conflict_ratio : Q)
  | LowConflict (conflict_ratio : Q)
  (* 3. power balance *)
  | MaleDominance (male_avg female_avg : Q)
  | FemaleDominance (female_avg male_avg : Q)
  | BalancedPartnership (power_balance : Q)
  (* 4. consistency *)
  | MaleInconsistency (male_consistency : Q)
  | MaleUncertainty (male_consistency : Q)
  | MaleClarity (male_consistency : Q)
  | FemaleInconsistency (female_consistency : Q)
  | FemaleUncertainty (female_consistency : Q)
  | FemaleClarity (female_consistency : Q)
  (* 4.5. positivity *)
  | MalePositive (male_positive_ratio : Q)
  | MaleConcerns (male_positive_ratio : Q)
  | FemalePositive (female_positive_ratio : Q)
  | FemaleConcerns (female_positive_ratio : Q)
  (* 5. risk level *)
  | HighRiskProfile
  | CrisisIntervention (conflict_ratio : Q)
  | MediumRiskProfile
  | LowRiskProfile
  (* 6. categories *)
  | CriticalMarriageFocus (name : string) (score : Q)
  | CriticalFamilyPlanning (name : string) (score : Q)
  | CriticalHealthFocus (name : string) (score : Q)
  | HighMarriagePriority (name : string) (score : Q)
  | HighFamilyPriority (name : string) (score : Q)
  | HighHealthPriority (name : string) (score : Q)
  | ModerateMarriageFocus (name : string) (score : Q)
  | ModerateFamilyFocus (name : string) (score : Q)
  | ModerateHealthFocus (name : string) (score : Q)
  (* 7. response variance *)
  | ComplexDynamics (response_variance : Q)
  | VariedResponses (response_variance : Q)
  | BalancedDiversity (response_variance : Q)
  | ConsistentPatterns (response_variance : Q).

Definition alignment_block (alignment_score : Q) : list recommendation :=
  if Py.lt alignment_score 0.3 then [CriticalAlignment alignment_score]
  else if Py.lt alignment_score 0.5 then [SignificantDisagreement alignment_score]
  else if Py.lt alignment_score 0.7 then [ModerateAlignment alignment_score]
  else [StrongAlignment alignment_score].

Definition optimism_block (couple_optimism : Q) : list recommendation :=
  if Py.gt couple_optimism 0.7 then [ExcellentHarmony couple_optimism]
  else if Py.gt couple_optimism 0.5 then [GoodHarmony couple_optimism]
  else if Py.gt couple_optimism 0.3 then [ModerateHarmony couple_optimism]
  else [ConcerningHarmony couple_optimism].

Definition conflict_block (conflict_ratio : Q) : list recommendation :=
  if Py.gt conflict_ratio 0.5 then [HighConflict conflict_ratio]
  else if Py.gt conflict_ratio 0.3 then [ModerateConflict conflict_ratio]
  else if Py.gt conflict_ratio 0.1 then [MinorConflicts conflict_ratio]
  else [LowConflict conflict_ratio].

Definition power_block (power_balance alignment_score male_avg female_avg : Q)
  : list recommendation :=
  if (Py.gt power_balance 1.5 || Py.lt power_balance 0.3) && Py.lt alignment_score 0.8 then
    if Py.gt male_avg female_avg then [MaleDominance male_avg female_avg]
    else [FemaleDominance female_avg male_avg]
  else if Py.ge power_balance 0.7 && Py.le power_balance 1.3
  then [BalancedPartnership power_balance]
  else [].

Definition male_consistency_block (male_consistency : Q) : list recommendation :=
  if Py.lt male_consistency 0.3 then [MaleInconsistency male_consistency]
  else if Py.lt male_consistency 0.6 then [MaleUncertainty male_consistency]
  else [MaleClarity male_consistency].

Definition female_consistency_block (female_consistency : Q) : list recommendation :=
  if Py.lt female_consistency 0.3 then [FemaleInconsistency female_consistency]
  else if Py.lt female_consistency 0.6 then [FemaleUncertainty female_consistency]
  else [FemaleClarity female_consistency].

Definition male_positivity_block (male_positive_ratio : Q) : list recommendation :=
  if Py.gt male_positive_ratio 0.7 then [MalePositive male_positive_ratio]
  else if Py.lt male_positive_ratio 0.3 then [MaleConcerns male_positive_ratio]
  else [].

Definition female_positivity_block (female_positive_ratio : Q) : list recommendation :=
  if Py.gt female_positive_ratio 0.7 then [FemalePositive female_positive_ratio]
  else if Py.lt female_positive_ratio 0.3 then [FemaleConcerns female_positive_ratio]
  else [].

Definition risk_block (risk_level : string) (conflict_ratio : Q) : list recommendation :=
  if String.eqb risk_level "High" then
    HighRiskProfile ::
    (if Py.gt conflict_ratio 0.4 then [CrisisIntervention conflict_ratio] else [])
  else if String.eqb risk_level "Medium" then [MediumRiskProfile]
  else [LowRiskProfile].

(** The body of [for category in focus_categories] (lines 1361-1384). *)
Definition category_block (category : focus_category) : list recommendation :=
  let score := fc_score category in
  let name := fc_name category in
  if Py.gt score 0.7 then
    if Text.contains "Marriage" name then [CriticalMarriageFocus name score]
    else if Text.contains "Family" name then [CriticalFamilyPlanning name score]
    else if Text.contains "Health" name then [CriticalHealthFocus name score]
    else []
  else if Py.gt score 0.5 then
    if Text.contains "Marriage" name then [HighMarriagePriority name score]
    else if Text.contains "Family" name then [HighFamilyPriority name score]
    else if Text.contains "Health" name then [HighHealthPriority name score]
    else []
  else if Py.gt score 0.3 then
    if Text.contains "Marriage" name then [ModerateMarriageFocus name score]
    else if Text.contains "Family" name then [ModerateFamilyFocus name score]
    else if Text.contains "Health" name then [ModerateHealthFocus name score]
    else []
  else [].

Definition variance_block (response_variance : Q) : list recommendation :=
  if Py.gt response_variance 2.5 then [ComplexDynamics response_variance]
  else if Py.gt response_variance 1.5 then [VariedResponses response_variance]
  else if Py.gt response_variance 0.5 then [BalancedDiversity response_variance]
  else [ConsistentPatterns response_variance].

(** [sum(1 for r in responses if r >= 4)] and [... if r <= 2]. *)
Definition agree_count (responses : list Z) : Z :=
  Py.sum (map (fun _ => 1%Z) (filter (fun r => (4 <= r)%Z) responses)).

Definition low_count (responses : list Z) : Z :=
  Py.sum (map (fun _ => 1%Z) (filter (fun r => (r <= 2)%Z) responses)).

(** [count / total_responses if total_responses > 0 else 0]
    (lines 1275-1277; both partners are divided by the male length). *)
Definition positive_ratio (count : Z) (total_responses : nat) : option Q :=
  if (0 <? total_responses)%nat
  then Py.div (inject_Z count) (inject_Z (Z.of_nat total_responses))
  else Some 0.

(** The list the generator builds, before the templates are filled in. *)
Definition rule_based_recommendations (risk_level : string) (category_scores : list Q)
  (focus_categories : list focus_category) (personalized_features : gmap string Q)
  (male_responses female_responses : list Z) : option (list recommendation) :=
  let alignment_score := Py.get "alignment_score" 0.5 personalized_features in
  let conflict_ratio := Py.get "conflict_ratio" 0 personalized_features in
  let male_avg := Py.get "male_avg_response" 3 personalized_features in
  let female_avg := Py.get "female_avg_response" 3 personalized_features in
  let male_consistency := Py.get "male_consistency" 0.5 personalized_features in
  let female_consistency := Py.get "female_consistency" 0.5 personalized_features in
  let power_balance := Py.get "power_balance" 0 personalized_features in
  let response_variance := Py.get "response_variance" 0 personalized_features in
  let male_agree_count := agree_count male_responses in
  let female_agree_count := agree_count female_responses in
  let male_disagree_count := low_count male_responses in
  let female_disagree_count := low_count female_responses in
  let total_responses := length male_responses in
  male_positive_ratio ← positive_ratio male_agree_count total_responses;
  female_positive_ratio ← positive_ratio female_agree_count total_responses;
  let couple_optimism := (male_positive_ratio + female_positive_ratio) / 2 in
  Some (alignment_block alignment_score
        ++ optimism_block couple_optimism
        ++ conflict_block conflict_ratio
        ++ power_block power_balance alignment_score male_avg female_avg
        ++ male_consistency_block male_consistency
        ++ female_consistency_block female_consistency
        ++ male_positivity_block male_positive_ratio
        ++ female_positivity_block female_positive_ratio
        ++ risk_block risk_level conflict_ratio
        ++ concat (map category_block focus_categories)
        ++ variance_block response_variance).

(** The f-strings of lines 1282-1394. *)
Definition render (r : recommendation) : string :=
  match r with
  | CriticalAlignment a =>
      " CRITICAL ALIGNMENT: Only " +:+ Text.percent a
      +:+ "% agreement detected - immediate relationship counseling required"
  | SignificantDisagreement a =>
      " SIGNIFICANT DISAGREEMENT: " +:+ Text.percent (1 - a)
      +:+ "% disagreement on key issues - structured communication therapy needed"
  | ModerateAlignment a =>
      " MODERATE ALIGNMENT: " +:+ Text.percent a
      +:+ "% agreement - focus on understanding different perspectives"
  | StrongAlignment a =>
      " STRONG ALIGNMENT: " +:+ Text.percent a
      +:+ "% agreement - continue building on shared values and goals"
  | ExcellentHarmony o =>
      " EXCELLENT HARMONY: " +:+ Text.percent o
      +:+ "% positive responses - maintain current healthy communication patterns"
  | GoodHarmony o =>
      " GOOD HARMONY: " +:+ Text.percent o
      +:+ "% positive responses - good foundation with room for growth"
  | ModerateHarmony o =>
      " MODERATE HARMONY: " +:+ Text.percent o
      +:+ "% positive responses - focus on building shared positive perspectives"
  | ConcerningHarmony o =>
      " CONCERNING HARMONY: Only " +:+ Text.percent o
      +:+ "% positive responses - intensive counseling needed to address underlying concerns"
  | HighConflict c =>
      " HIGH CONFLICT: " +:+ Text.percent c
      +:+ "% of responses show major disagreement - intensive conflict resolution counseling required"
  | ModerateConflict c =>
      " MODERATE CONFLICT: " +:+ Text.percent c
      +:+ "% disagreement detected - mediation and communication skills training recommended"
  | MinorConflicts c =>
      " MINOR CONFLICTS: " +:+ Text.percent c
      +:+ "% disagreement - focus on conflict prevention strategies"
  | LowConflict c =>
      " EXCELLENT HARMONY: Only " +:+ Text.percent c
      +:+ "% disagreement - maintain current healthy communication patterns"
  | MaleDominance m f =>
      " MALE DOMINANCE: Male partner shows " +:+ Text.fixed1 m +:+ " vs female "
      +:+ Text.fixed1 f +:+ " average - ensure balanced decision-making and equal voice"
  | FemaleDominance f m =>
      " FEMALE DOMINANCE: Female partner shows " +:+ Text.fixed1 f +:+ " vs male "
      +:+ Text.fixed1 m +:+ " average - ensure balanced decision-making and equal voice"
  | BalancedPartnership p =>
      " BALANCED PARTNERSHIP: " +:+ Text.fixed1 p
      +:+ " power balance - excellent relationship equality"
  | MaleInconsistency c =>
      " MALE INCONSISTENCY: " +:+ Text.percent c
      +:+ "% consistency - male partner needs individual counseling to clarify values and goals"
  | MaleUncertainty c =>
      " MALE UNCERTAINTY: " +:+ Text.percent c
      +:+ "% consistency - male partner may benefit from values clarification sessions"
  | MaleClarity c =>
      " MALE CLARITY: " +:+ Text.percent c
      +:+ "% consistency - male partner shows clear values and goals"
  | FemaleInconsistency c =>
      " FEMALE INCONSISTENCY: " +:+ Text.percent c
      +:+ "% consistency - female partner needs individual counseling to clarify values and goals"
  | FemaleUncertainty c =>
      " FEMALE UNCERTAINTY: " +:+ Text.percent c
      +:+ "% consistency - female partner may benefit from values clarification sessions"
  | FemaleClarity c =>
      " FEMALE CLARITY: " +:+ Text.percent c
      +:+ "% consistency - female partner shows clear values and goals"
  | MalePositive p =>
      " MALE POSITIVE: Male partner shows " +:+ Text.percent p
      +:+ "% positive responses - excellent engagement and optimism"
  | MaleConcerns p =>
      " MALE CONCERNS: Male partner shows only " +:+ Text.percent p
      +:+ "% positive responses - individual counseling recommended"
  | FemalePositive p =>
      " FEMALE POSITIVE: Female partner shows " +:+ Text.percent p
      +:+ "% positive responses - excellent engagement and optimism"
  | FemaleConcerns p =>
      " FEMALE CONCERNS: Female partner shows only " +:+ Text.percent p
      +:+ "% positive responses - individual counseling recommended"
  | HighRiskProfile =>
      " HIGH RISK PROFILE: Intensive counseling required - focus on core relationship issues, communication, and conflict resolution"
  | CrisisIntervention c =>
      " CRISIS INTERVENTION: " +:+ Text.percent c
      +:+ "% conflict rate - immediate mediation or specialized counseling required"
  | MediumRiskProfile =>
      " MEDIUM RISK PROFILE: Proactive counseling recommended - address identified issues before they escalate into major problems"
  | LowRiskProfile =>
      " LOW RISK PROFILE: Preventive counseling - maintain healthy relationship patterns and continue building strong foundations"
  | CriticalMarriageFocus name score =>
      " CRITICAL MARRIAGE FOCUS: " +:+ name +:+ " at " +:+ Text.percent score
      +:+ "% - immediate relationship foundation counseling required"
  | CriticalFamilyPlanning name score =>
      " CRITICAL FAMILY PLANNING: " +:+ name +:+ " at " +:+ Text.percent score
      +:+ "% - intensive family planning and parenting preparation needed"
  | CriticalHealthFocus name score =>
      " CRITICAL HEALTH FOCUS: " +:+ name +:+ " at " +:+ Text.percent score
      +:+ "% - immediate health and wellness counseling required"
  | HighMarriagePriority name score =>
      " HIGH MARRIAGE PRIORITY: " +:+ name +:+ " at " +:+ Text.percent score
      +:+ "% - relationship foundation counseling recommended"
  | HighFamilyPriority name score =>
      " HIGH FAMILY PRIORITY: " +:+ name +:+ " at " +:+ Text.percent score
      +:+ "% - family planning counseling recommended"
  | HighHealthPriority name score =>
      " HIGH HEALTH PRIORITY: " +:+ name +:+ " at " +:+ Text.percent score
      +:+ "% - health and wellness counseling recommended"
  | ModerateMarriageFocus name score =>
      " MODERATE MARRIAGE FOCUS: " +:+ name +:+ " at " +:+ Text.percent score
      +:+ "% - relationship development sessions"
  | ModerateFamilyFocus name score =>
      " MODERATE FAMILY FOCUS: " +:+ name +:+ " at " +:+ Text.percent score
      +:+ "% - family planning education"
  | ModerateHealthFocus name score =>
      " MODERATE HEALTH FOCUS: " +:+ name +:+ " at " +:+ Text.percent score
      +:+ "% - health awareness sessions"
  | ComplexDynamics v =>
      " COMPLEX DYNAMICS: High variance (" +:+ Text.fixed1 v
      +:+ ") suggests complex relationship patterns - comprehensive assessment and specialized counseling needed"
  | VariedResponses v =>
      " VARIED RESPONSES: Moderate variance (" +:+ Text.fixed1 v
      +:+ ") indicates diverse perspectives - structured communication training recommended"
  | BalancedDiversity v =>
      " BALANCED DIVERSITY: Healthy variance (" +:+ Text.fixed1 v
      +:+ ") shows good relationship complexity - continue current approach"
  | ConsistentPatterns v =>
      " CONSISTENT PATTERNS: Low variance (" +:+ Text.fixed1 v
      +:+ ") indicates stable relationship dynamics - maintain current healthy patterns"
  end.

Definition generate_rule_based_recommendations (risk_level : string) (category_scores : list Q)
  (focus_categories : list focus_category) (personalized_features : gmap string Q)
  (male_responses female_responses : list Z) : option (list string) :=
  recommendations ← rule_based_recommendations risk_level category_scores focus_categories
                      personalized_features male_responses female_responses;
  Some (map render recommendations).

(** The stage of the generator a message belongs to, in source order. *)
Inductive stage :=
  | Alignment | Harmony | Conflict | PowerBalance
  | MaleConsistency | FemaleConsistency | MalePositivity | FemalePositivity
  | RiskHeadline | Crisis | CategorySeverity | ResponseVariance.

Definition stage_of (r : recommendation) : stage :=
  match r with
  | CriticalAlignment _ | SignificantDisagreement _
  | ModerateAlignment _ | StrongAlignment _ => Alignment
  | ExcellentHarmony _ | GoodHarmony _ | ModerateHarmony _ | ConcerningHarmony _ => Harmony
  | HighConflict _ | ModerateConflict _ | MinorConflicts _ | LowConflict _ => Conflict
  | MaleDominance _ _ | FemaleDominance _ _ | BalancedPartnership _ => PowerBalance
  | MaleInconsistency _ | MaleUncertainty _ | MaleClarity _ => MaleConsistency
  | FemaleInconsistency _ | FemaleUncertainty _ | FemaleClarity _ => FemaleConsistency
  | MalePositive _ | MaleConcerns _ => MalePositivity
  | FemalePositive _ | FemaleConcerns _ => FemalePositivity
  | HighRiskProfile | MediumRiskProfile | LowRiskProfile => RiskHeadline
  | CrisisIntervention _ => Crisis
  | CriticalMarriageFocus _ _ | CriticalFamilyPlanning _ _ | CriticalHealthFocus _ _
  | HighMarriagePriority _ _ | HighFamilyPriority _ _ | HighHealthPriority _ _
  | ModerateMarriageFocus _ _ | ModerateFamilyFocus _ _ | ModerateHealthFocus _ _ =>
      CategorySeverity
  | ComplexDynamics _ | VariedResponses _ | BalancedDiversity _
  | ConsistentPatterns _ => ResponseVariance
  end.

(** ** [generate_personalized_recommendations] *)

(** What the import and call of the external narrative engine
    ([nlg_recommendation_engine], not part of this module) can do. *)
Inductive nlg_outcome :=
  | NlgImportError
  | NlgRaised (message : string)
  | NlgReturned (recommendations : list string).

(** The argument bundle handed to the engine. *)
Record nlg_args := {
  nlg_risk_level : string;
  nlg_category_scores : list Q;
  nlg_focus_categories : list focus_category;
  nlg_personalized_features : gmap string Q;
  nlg_male_responses : list Z;
  nlg_female_responses : list Z;
  nlg_couple_profile : option couple_profile
}.

Definition generate_personalized_recommendations (nlg : nlg_args -> nlg_outcome)
  (risk_level : string) (category_scores : list Q)
  (focus_categories : list focus_category) (personalized_features : gmap string Q)
  (male_responses female_responses : list Z) (profile : option couple_profile)
  : option (list string) :=
  match nlg {| nlg_risk_level := risk_level;
               nlg_category_scores := category_scores;
               nlg_focus_categories := focus_categories;
               nlg_personalized_features := personalized_features;
               nlg_male_responses := male_responses;
               nlg_female_responses := female_responses;
               nlg_couple_profile := profile |} with
  | NlgReturned recommendations => Some recommendations
  | NlgImportError | NlgRaised _ =>
      generate_rule_based_recommendations risk_level category_scores focus_categories
        personalized_features male_responses female_responses
  end.

(** ** Reasoning texts *)

Definition generate_risk_reasoning (profile : couple_profile)
  (personalized_features : gmap string Q) (risk_level : string) : string :=
  let age_gap := Z.abs (male_age profile - female_age profile) in
  let age_part :=
    if (10 <? age_gap)%Z
    then ["Significant age gap (" +:+ Text.of_Z age_gap +:+ " years) between partners"]
    else if (5 <? age_gap)%Z
    then ["Moderate age gap (" +:+ Text.of_Z age_gap +:+ " years) between partners"]
    else ["Minimal age gap (" +:+ Text.of_Z age_gap +:+ " years) between partners"] in
  let years_together := years_living_together profile in
  let status_part :=
    if String.eqb (civil_status profile) "Living In" then
      if (5 <? years_together)%Z
      then ["Long-term cohabitation (" +:+ Text.of_Z years_together
            +:+ " years) with established patterns"]
      else if (0 <? years_together)%Z
      then ["Recent cohabitation (" +:+ Text.of_Z years_together
            +:+ " years) with developing patterns"]
      else []
    else if bool_decide (civil_status profile ∈ ["Widowed"; "Separated"; "Divorced"])
    then ["Previous relationship experience (" +:+ civil_status profile
          +:+ ") affecting current dynamics"]
    else [] in
  let children_count := children profile in
  let children_part :=
    if past_children profile && (0 <? children_count)%Z
    then ["Parenting experience with " +:+ Text.of_Z children_count +:+ " child"
          +:+ (if (1 <? children_count)%Z then "ren" else "")]
    else [] in
  let alignment_score := Py.get "alignment_score" 0.5 personalized_features in
  let conflict_ratio := Py.get "conflict_ratio" 0 personalized_features in
  let alignment_part :=
    if Py.gt alignment_score 0.7
    then ["High alignment (" +:+ Text.percent alignment_score +:+ "%) in MEAI responses"]
    else if Py.lt alignment_score 0.4
    then ["Low alignment (" +:+ Text.percent alignment_score
          +:+ "%) indicating significant disagreements"]
    else ["Moderate alignment (" +:+ Text.percent alignment_score
          +:+ "%) with some areas of agreement"] in
  let conflict_part :=
    if Py.gt conflict_ratio 0.3
    then ["High conflict patterns (" +:+ Text.percent conflict_ratio +:+ "% disagreement rate)"]
    else if Py.lt conflict_ratio 0.1
    then ["Low conflict patterns (" +:+ Text.percent conflict_ratio +:+ "% disagreement rate)"]
    else [] in
  let mismatch_part :=
    if (2 <? Z.abs (education_level profile - income_level profile))%Z
    then ["Significant education-income mismatch affecting compatibility"]
    else ["Compatible education and income levels"] in
  let reasoning_parts :=
    age_part ++ status_part ++ children_part ++ alignment_part ++ conflict_part
    ++ mismatch_part in
  if String.eqb risk_level "High"
  then "High risk assessment based on: " +:+ Text.join "; " (take 4 reasoning_parts)
  else if String.eqb risk_level "Medium"
  then "Medium risk assessment based on: " +:+ Text.join "; " (take 3 reasoning_parts)
  else "Low risk assessment based on: " +:+ Text.join "; " (take 3 reasoning_parts).

Definition generate_counseling_reasoning (focus_categories : list focus_category)
  (category_scores : list Q) (ml_confidence : Q) : string :=
  let high_priority_categories :=
    filter (fun cat => Py.gt (fc_score cat) 0.6 = true) focus_categories in
  let moderate_priority_categories :=
    filter (fun cat => Py.lt 0.3 (fc_score cat) && Py.le (fc_score cat) 0.6 = true)
           focus_categories in
  let low_priority_categories :=
    filter (fun cat => Py.le (fc_score cat) 0.3 = true) focus_categories in
  let part (label : string) (cats : list focus_category) : list string :=
    if bool_decide (cats ≠ [])
    then [label +:+ Text.join ", " (take 2 (map fc_name cats))]
    else [] in
  let confidence_part :=
    if Py.gt ml_confidence 0.6
    then "High confidence (" +:+ Text.percent ml_confidence +:+ "%) in assessment accuracy"
    else if Py.gt ml_confidence 0.3
    then "Moderate confidence (" +:+ Text.percent ml_confidence +:+ "%) in assessment accuracy"
    else "Conservative confidence (" +:+ Text.percent ml_confidence
         +:+ "%) in assessment accuracy" in
  let reasoning_parts :=
    part "Critical needs in: " high_priority_categories
    ++ part "Development areas in: " moderate_priority_categories
    ++ part "Strong areas in: " low_priority_categories
    ++ [confidence_part] in
  if (3 <? length reasoning_parts)%nat
  then "Counseling recommendation based on: " +:+ Text.join "; " (take 3 reasoning_parts)
  else "Counseling recommendation based on: " +:+ Text.join "; " reasoning_parts.

(** ** The [/analyze] handler *)

(** JSON values of a response. *)
#[local] Set Warnings "-register-all".
Inductive json :=
  | JNum (x : Q)
  | JStr (s : string)
  | JArr (items : list json)
  | JObj (fields : list (string * json)).

(** The model artifacts: scikit-learn estimators, known only through the calls
    the handler makes; [inl message] is a raised exception. *)
Record risk_model_t := {
  predict : list Q -> string + nat;
  predict_proba : list Q -> string + list Q
}.

Record category_model_t := {
  category_predict : list Q -> string + list Q
}.

(** The global [ml_models]; [None] is Python's [None]. *)
Record ml_models_t := {
  risk_model : option risk_model_t;
  category_model : option category_model_t;
  risk_encoder : option unit
}.

(** Calls made to collaborators while a request is served. *)
Inductive event :=
  | RiskPredict
  | RiskPredictProba
  | CategoryPredict
  | GenerateRecommendations.

(** Computations of the handler: they log collaborator calls and may raise. *)
Module Run.

Definition t (A : Type) : Type := list event -> list event * (string + A).

Definition ret {A} (a : A) : t A := fun log => (log, inr a).

Definition bind {A B} (k : A -> t B) (m : t A) : t B :=
  fun log =>
    match m log with
    | (log', inr a) => k a log'
    | (log', inl e) => (log', inl e)
    end.

(** A call to a collaborator. *)
Definition call {A} (e : event) (r : string + A) : t A :=
  fun log => (log ++ [e], r).

(** A pure step that raises [message] when it has no value. *)
Definition try {A} (message : string) (o : option A) : t A :=
  fun log => (log, match o with Some a => inr a | None => inl message end).

End Run.

#[global] Instance run_ret : MRet Run.t := @Run.ret.
#[global] Instance run_bind : MBind Run.t := @Run.bind.

(** The JSON body of a request, field by field ([None]: key not sent). *)
Record request := {
  req_couple_id : option string;
  req_male_age : option Z;
  req_female_age : option Z;
  req_civil_status : option string;
  req_years_living_together : option Z;
  req_past_children : option bool;
  req_children : option Z;
  req_education_level : option Z;
  req_income_level : option Z;
  req_questionnaire_responses : option (list Z);
  req_personalized_features : option (gmap string Q);
  req_male_responses : option (list Z);
  req_female_responses : option (list Z)
}.

(** Lines 1067-1084. *)
Definition profile_of_request (data : request) : couple_profile :=
  let civil_status := default "Single" (req_civil_status data) in
  let past_children := default false (req_past_children data) in
  {| male_age := default 30%Z (req_male_age data);
     female_age := default 30%Z (req_female_age data);
     civil_status := civil_status;
     years_living_together :=
       if negb (String.eqb civil_status "Living In") then 0%Z
       else default 0%Z (req_years_living_together data);
     past_children := past_children;
     children := if negb past_children then 0%Z else default 0%Z (req_children data);
     education_level := default 2%Z (req_education_level data);
     income_level := default 2%Z (req_income_level data) |}.

(** [np.clip(x, 0.0, 1.0)]. *)
Definition clip01 (x : Q) : Q := Qmin (Qmax x 0) 1.

(** [np.max] of a probability vector; raises on an empty one. *)
Definition np_max (l : list Q) : option Q :=
  match l with
  | [] => None
  | x :: l' => Some (foldl Qmax x l')
  end.

Definition json_of_focus_category (c : focus_category) : json :=
  JObj [("name", JStr (fc_name c)); ("score", JNum (fc_score c));
        ("priority", JStr (fc_priority c))].

Definition risk_not_loaded : gmap string json :=
  <["status" := JStr "error"]>
  (<["message" := JStr "Risk model not loaded. Train or load models first."]> ∅).

Definition category_not_loaded : gmap string json :=
  <["status" := JStr "error"]>
  (<["message" := JStr "Category model not loaded. Train or load models first."]> ∅).

Definition analysis_error (e : string) : gmap string json :=
  <["status" := JStr "error"]>
  (<["message" := JStr ("Analysis error: " +:+ e)]> ∅).

Section Handler.

(** The catalogue globals, the model slot, the narrative engine and the
    clock read by [pd.Timestamp.now().isoformat()]. *)
Variable MEAI_CATEGORIES : list string.
Variable MEAI_QUESTION_MAPPING : gmap nat nat.
Variable ml_models : ml_models_t.
Variable nlg : nlg_args -> nlg_outcome.
Variable now : string.

(** [len(MEAI_QUESTION_MAPPING) if MEAI_QUESTION_MAPPING else 31]. *)
Definition catalog_size : nat :=
  if bool_decide (MEAI_QUESTION_MAPPING ≠ ∅) then size MEAI_QUESTION_MAPPING else 31%nat.

(** Lines 1086-1128: the feature vector of a request, with the dynamics
    dictionary it was built from and the two partner lists. *)
Definition request_features (data : request)
  : option (list Q * couple_profile * gmap string Q * list Z * list Z) :=
  let profile := profile_of_request data in
  let total_questions := catalog_size in
  let questionnaire_responses :=
    default (replicate total_questions 3%Z) (req_questionnaire_responses data) in
  let personalized_features := default ∅ (req_personalized_features data) in
  let male_responses := default [] (req_male_responses data) in
  let female_responses := default [] (req_female_responses data) in
  personalized_features ←
    (if bool_decide (personalized_features = ∅)
     then calculate_personalized_features_flask questionnaire_responses
            male_responses female_responses
     else Some personalized_features);
  Some (analyze_features profile questionnaire_responses personalized_features,
        profile, personalized_features, male_responses, female_responses).

(** The body of the [try] block. *)
Definition analyze_try (data : request) : Run.t (gmap string json) :=
  '(features, couple_profile, personalized_features, male_responses, female_responses)
    ← Run.try "float division by zero" (request_features data);
  match risk_model ml_models with
  | None => Run.ret risk_not_loaded
  | Some the_risk_model =>
    risk_prediction ← Run.call RiskPredict (predict the_risk_model features);
    risk_level ← Run.try "list index out of range"
                    (["Low"; "Medium"; "High"] !! risk_prediction);
    risk_probs ← Run.call RiskPredictProba (predict_proba the_risk_model features);
    ml_confidence ← Run.try "zero-size array to reduction operation maximum which has no identity"
                       (clip01 <$> np_max risk_probs);
    match category_model ml_models with
    | None => Run.ret category_not_loaded
    | Some the_category_model =>
      category_scores ← Run.call CategoryPredict
                           (category_predict the_category_model features);
      let category_scores := map clip01 category_scores in
      let focus_categories := display_focus_categories MEAI_CATEGORIES category_scores in
      let risk_reasoning :=
        generate_risk_reasoning couple_profile personalized_features risk_level in
      let counseling_reasoning :=
        generate_counseling_reasoning focus_categories category_scores ml_confidence in
      personalized_recommendations ←
        Run.call GenerateRecommendations
          (match generate_personalized_recommendations nlg risk_level category_scores
                   focus_categories personalized_features male_responses female_responses
                   (Some couple_profile) with
           | Some recommendations => inr recommendations
           | None => inl "float division by zero"
           end);
      Run.ret
        (<["status" := JStr "success"]>
        (<["couple_id" := JStr (default "unknown" (req_couple_id data))]>
        (<["risk_level" := JStr risk_level]>
        (<["category_scores" := JArr (map JNum category_scores)]>
        (<["focus_categories" :=
             JArr (map json_of_focus_category (sorted_desc fc_score focus_categories))]>
        (<["recommendations" := JArr (map JStr personalized_recommendations)]>
        (<["ml_confidence" := JNum ml_confidence]>
        (<["risk_reasoning" := JStr risk_reasoning]>
        (<["counseling_reasoning" := JStr counseling_reasoning]>
        (<["analysis_method" :=
             JStr "Random Forest Counseling Topics with Personalized Features"]>
        (<["generated_at" := JStr now]> ∅)))))))))))
    end
  end.

(** [analyze]: the [except Exception] clause turns a raised exception into an
    error body.  The result is the log of collaborator calls and the body. *)
Definition analyze (data : request) : list event * gmap string json :=
  match analyze_try data [] with
  | (log, inr body) => (log, body)
  | (log, inl e) => (log, analysis_error e)
  end.

End Handler.

(** ** Specification-side definitions *)

(** The agreement of the partners at one compared index, and its mean over
    the compared indices, as the specification words the alignment score. *)
Definition agreement_at (male female : list Z) (i : nat) : Q :=
  (4 - inject_Z (Z.abs (nth i male 3 - nth i female 3)%Z)) / 4.

Definition mean_agreement (male female : list Z) : Q :=
  let n := total_questions_of male female in
  Py.fsum (map (agreement_at male female) (seq 0 n)) / inject_Z (Z.of_nat n).

(** The two lists the comparison loop runs over. *)
Definition compared_male (q m f : list Z) : list Z := (split_responses q m f).1.2.
Definition compared_female (q m f : list Z) : list Z := (split_responses q m f).2.

(** A valid answer is disagree (2), neutral (3) or agree (4). *)
Definition valid_response (r : Z) : Prop := r = 2%Z \/ r = 3%Z \/ r = 4%Z.
Definition valid_responses (l : list Z) : Prop := Forall valid_response l.

(** Population variance, total on [Q] (the empty list has variance [0]). *)
Definition population_mean (l : list Z) : Q := inject_Z (Py.sum l) / Py.len l.

Definition population_variance (l : list Z) : Q :=
  Py.fsum (map (fun r => (inject_Z r - population_mean l) ^ 2) l) / Py.len l.

(** The fraction of disagree answers (value 2) of a list. *)
Definition disagree_fraction (l : list Z) : Q :=
  inject_Z (Z.of_nat (count_occ Z.eq_dec l 2%Z)) / Py.len l.

(** A label that follows the thresholds [high] and 0.15 on [ratio]. *)
Definition label_by_thresholds (high ratio : Q) (label : string) : Prop :=
  (label = "High" <-> high < ratio) /\
  (label = "Medium" <-> 0.15 < ratio /\ ratio <= high) /\
  (label = "Low" <-> ratio <= 0.15).

#[global] Instance stage_eq_dec : EqDecision stage.
Proof. solve_decision. Defined.

(** How many entries of a list of recommendations belong to a stage. *)
Definition stage_count (s : stage) (recs : list recommendation) : nat :=
  length (filter (fun x => x = s) (map stage_of recs)).

(** A couple whose partners answer oppositely, and what [analyze] would hand
    to the generator for it. *)
Definition opposed_male : list Z := [4; 4; 4; 4]%Z.
Definition opposed_female : list Z := [2; 2; 2; 2]%Z.

Definition sample_focus : list focus_category :=
  display_focus_categories
    ["Marriage And Relationship"; "Responsible Parenthood"; "Planning The Family";
     "Maternal Neonatal Child Health And Nutrition"]
    [0.8; 0.2; 0.55; 0.35].

(** A couple used in the examples. *)
Definition sample_profile : couple_profile :=
  {| male_age := 40; female_age := 25; civil_status := "Living In";
     years_living_together := 7; past_children := true; children := 2;
     education_level := 2; income_level := 3 |}.



(** Only the classifier is loaded; it always answers class 2 (High). *)
Definition classifier_only : ml_models_t :=
  {| risk_model :=
       Some {| predict := fun _ => inr 2%nat;
               predict_proba := fun _ => inr [0.1; 0.2; 0.7] |};
     category_model := None;
     risk_encoder := None |}.

Definition empty_request : request :=
  {| req_couple_id := None; req_male_age := None; req_female_age := None;
     req_civil_status := None; req_years_living_together := None;
     req_past_children := None; req_children := None;
     req_education_level := None; req_income_level := None;
     req_questionnaire_responses := None; req_personalized_features := None;
     req_male_responses := None; req_female_responses := None |}.

(** A catalogue of four questions in two categories, and a request that
    sends a single answer. *)
Definition four_questions : gmap nat nat :=
  <[1%nat := 1%nat]> (<[2%nat := 1%nat]> (<[3%nat := 2%nat]> (<[4%nat := 2%nat]> ∅))).

Definition one_answer_request : request :=
  {| req_couple_id := None; req_male_age := None; req_female_age := None;
     req_civil_status := None; req_years_living_together := None;
     req_past_children := None; req_children := None;
     req_education_level := None; req_income_level := None;
     req_questionnaire_responses := Some [4%Z]; req_personalized_features := None;
     req_male_responses := None; req_female_responses := None |}.

(** ** More specification-side definitions *)

(** The pooled list whose variance is reported. *)
Definition compared_all (q m f : list Z) : list Z := (split_responses q m f).1.1.

(** The mean conflict weight over the compared indices. *)
Definition mean_conflict_weight (male female : list Z) : Q :=
  let n := total_questions_of male female in
  Py.fsum (map (fun i => conflict_weight (nth i male 3%Z) (nth i female 3%Z)) (seq 0 n))
  / inject_Z (Z.of_nat n).

(** The compared indices at which the answers are at least two apart. *)
Definition strong_conflicts (male female : list Z) : list nat :=
  filter (fun i => (2 <= Z.abs (nth i male 3 - nth i female 3))%Z)
         (seq 0 (total_questions_of male female)).

(** The keys of the dynamics dictionary. *)
Definition dynamics_keys : gset string :=
  {[ "alignment_score"; "conflict_ratio"; "male_avg_response"; "female_avg_response";
     "male_consistency"; "female_consistency"; "power_balance"; "response_variance";
     "total_conflicts" ]}.

(** The messages that speak of critical or significant disagreement, of an
    inconsistent or uncertain partner, or of complex or varied dynamics. *)
Definition alarming (r : recommendation) : bool :=
  match r with
  | CriticalAlignment _ | SignificantDisagreement _
  | MaleInconsistency _ | MaleUncertainty _
  | FemaleInconsistency _ | FemaleUncertainty _
  | ComplexDynamics _ | VariedResponses _ => true
  | _ => false
  end.

(** ** Synthetic population: ages and answer probabilities *)

(** [max(18, min(80, age))]. *)
Definition clamp_age (age : Z) : Z := Z.max 18 (Z.min 80 age).

(** Patterned mode, lines 326-340: the two drawn ages are clamped, then a gap
    above the 90th percentile of the real gaps triggers the adjustment of the
    younger partner.  [percentile_90] is [np.percentile(age_gaps, 90)]. *)
Definition patterned_ages (male_draw female_draw : Z) (percentile_90 : Q) : Z * Z :=
  let male_age := clamp_age male_draw in
  let female_age := clamp_age female_draw in
  let real_age_gap := Z.abs (male_age - female_age) in
  if Py.gt (inject_Z real_age_gap) percentile_90 then
    if (female_age <? male_age)%Z
    then (male_age, Z.max 18 (male_age - real_age_gap))
    else (Z.max 18 (female_age - real_age_gap), female_age)
  else (male_age, female_age).

(** Generic mode, lines 533-572: the probabilities of disagree, neutral and
    agree handed to [np.random.choice([2, 3, 4], ..., p=...)]. *)
Definition response_probabilities (risk_bias : string)
  (male_age female_age education_level income_level : Z)
  (civil_status : string) (years_living_together : Z) : Q * Q * Q :=
  let '(base_disagree_prob, base_agree_prob) :=
    if String.eqb risk_bias "high" then (0.4, 0.3)
    else if String.eqb risk_bias "low" then (0.1, 0.6)
    else (0.2, 0.4) in
  let age_gap := Z.abs (male_age - female_age) in
  let '(base_disagree_prob, base_agree_prob) :=
    if (10 <? age_gap)%Z then (base_disagree_prob + 0.2, base_agree_prob - 0.1)
    else if (5 <? age_gap)%Z then (base_disagree_prob + 0.1, base_agree_prob - 0.05)
    else (base_disagree_prob, base_agree_prob) in
  let education_diff := Z.abs (education_level - income_level) in
  let '(base_disagree_prob, base_agree_prob) :=
    if (2 <? education_diff)%Z then (base_disagree_prob + 0.1, base_agree_prob - 0.05)
    else (base_disagree_prob, base_agree_prob) in
  let '(base_disagree_prob, base_agree_prob) :=
    if bool_decide (civil_status ∈ ["Separated"; "Divorced"])
    then (base_disagree_prob + 0.2, base_agree_prob - 0.1)
    else if String.eqb civil_status "Living In" && (10 <? years_living_together)%Z
    then (base_disagree_prob - 0.1, base_agree_prob + 0.1)
    else (base_disagree_prob, base_agree_prob) in
  let base_disagree_prob := Qmax 0.05 (Qmin 0.8 base_disagree_prob) in
  let base_agree_prob := Qmax 0.1 (Qmin 0.8 base_agree_prob) in
  let base_neutral_prob := 1 - base_disagree_prob - base_agree_prob in
  (base_disagree_prob, base_neutral_prob, base_agree_prob).

(** ** Category scores of a training row *)

(** [l[i]] on a Python list: a negative index counts from the end, an index
    out of range raises. *)
Definition py_index {A} (l : list A) (i : Z) : option A :=
  if (0 <=? i)%Z then l !! Z.to_nat i
  else if (- Z.of_nat (length l) <=? i)%Z then l !! Z.to_nat (Z.of_nat (length l) + i)
  else None.

(** The body of [for category_id in range(1, len(MEAI_CATEGORIES) + 1)]
    (lines 386-410, 595-619 and 732-757, three identical copies);
    [mapping_items] is [MEAI_QUESTION_MAPPING.items()]. *)
Definition category_score (mapping_items : list (Z * Z)) (questionnaire_responses : list Z)
  (category_id : Z) : option Q :=
  let category_question_ids :=
    map fst (filter (fun item => item.2 = category_id) mapping_items) in
  if bool_decide (category_question_ids = []) then Some 0.5
  else
    category_responses ←
      mapM (fun qid => py_index questionnaire_responses (qid - 1))
           (filter (fun qid => (qid <= Z.of_nat (length questionnaire_responses))%Z)
                   category_question_ids);
    if bool_decide (category_responses = []) then Some 0.5
    else
      cat_disagree_ratio ← Py.div (inject_Z (disagree_count category_responses))
                                  (Py.len category_responses);
      Some (Qmin 1 (cat_disagree_ratio * 2)).

Definition category_scores (MEAI_CATEGORIES : list string) (mapping_items : list (Z * Z))
  (questionnaire_responses : list Z) : option (list Q) :=
  mapM (category_score mapping_items questionnaire_responses)
       (map Z.of_nat (seq 1 (length MEAI_CATEGORIES))).

(** ** Rows built from real couples: [load_real_couples_for_training] *)

(** Lines 701-707. *)
Definition encode_response (response : string) : Z :=
  if String.eqb response "agree" then 4%Z
  else if String.eqb response "neutral" then 3%Z
  else 2%Z.

(** Lines 719-727, the label of a real couple. *)
Definition real_risk_level (questionnaire_responses : list Z) : option string :=
  disagree_ratio ← disagree_ratio questionnaire_responses;
  Some (if Py.gt disagree_ratio 0.3 then "High"
        else if Py.gt disagree_ratio 0.15 then "Medium"
        else "Low")%string.

(** [x or v] on a nullable integer column. *)
Definition int_or (x : option Z) (v : Z) : Z :=
  match x with
  | Some n => if (n =? 0)%Z then v else n
  | None => v
  end.

(** [x or v] on a nullable text column. *)
Definition str_or (x : option string) (v : string) : string :=
  match x with
  | Some s => if String.eqb s "" then v else s
  | None => v
  end.

(** The columns of one couple, as the query returns them. *)
Record couple_columns := {
  col_male_age : option Z;
  col_female_age : option Z;
  col_civil_status : option string;
  col_years_living_together : option Z;
  col_past_children : option Z;
  col_children : option Z;
  col_education_level : option Z;
  col_income_level : option Z
}.

(** What the loop body does with one couple. *)
Inductive row_outcome :=
  | Skipped
  | Row (row : couple_row).

(** The loop body of lines 683-771 for one couple with its textual answers;
    [total_expected_responses] is [len(MEAI_QUESTION_MAPPING)]. *)
Definition real_couple_row (total_expected_responses : nat) (columns : couple_columns)
  (responses : list string) : option row_outcome :=
  if (length responses <? 50)%nat then Some Skipped
  else
    let questionnaire_responses := map encode_response responses in
    let questionnaire_responses :=
      pad_or_truncate total_expected_responses questionnaire_responses in
    risk_level ← real_risk_level questionnaire_responses;
    Some (Row
      {| row_profile :=
           {| male_age := int_or (col_male_age columns) 30;
              female_age := int_or (col_female_age columns) 30;
              civil_status := str_or (col_civil_status columns) "Single";
              years_living_together := int_or (col_years_living_together columns) 0;
              past_children :=
                match col_past_children columns with
                | Some n => negb (n =? 0)%Z
                | None => false
                end;
              children := int_or (col_children columns) 0;
              education_level := int_or (col_education_level columns) 2;
              income_level := int_or (col_income_level columns) 2 |};
         row_questionnaire_responses := questionnaire_responses;
         row_risk_level := risk_level |}).

(** ** Risk labels at training and at inference *)

(** [risk_mapping[label]] of [train_ml_models] (line 861); raises [KeyError]
    on any other label. *)
Definition risk_mapping (risk_level : string) : option nat :=
  if String.eqb risk_level "Low" then Some 0%nat
  else if String.eqb risk_level "Medium" then Some 1%nat
  else if String.eqb risk_level "High" then Some 2%nat
  else None.

(** [risk_levels] of [analyze] (line 1134). *)
Definition risk_levels : list string := ["Low"; "Medium"; "High"].

(** Two mapped questions, and fifty textual answers of one couple. *)
Definition two_questions : gmap nat nat := <[1%nat := 1%nat]> (<[2%nat := 1%nat]> ∅).

Definition no_columns : couple_columns :=
  {| col_male_age := None; col_female_age := None; col_civil_status := None;
     col_years_living_together := None; col_past_children := None;
     col_children := None; col_education_level := None; col_income_level := None |}.

Definition fifty_answers : list string := "disagree" :: replicate 49 "agree".

(** The row these answers give on a catalogue of two questions. *)
Definition fifty_answers_row : couple_row :=
  {| row_profile :=
       {| male_age := 30; female_age := 30; civil_status := "Single";
          years_living_together := 0; past_children := false; children := 0;
          education_level := 2; income_level := 2 |};
     row_questionnaire_responses := [2; 4]%Z;
     row_risk_level := "High" |}.

(** ** Order and comparison on scores *)

#[global] Instance Qlt_decision (a b : Q) : Decision (a < b).
Proof.
  destruct (Qlt_le_dec a b) as [H | H]; [left; exact H | right].
  intros H'. exact (Qlt_not_le _ _ H' H).
Defined.

#[global] Instance Qeq_decision (a b : Q) : Decision (a == b) := Qeq_dec a b.

(** A list in descending order of [key]. *)
Definition descending {A} (key : A -> Q) (l : list A) : Prop :=
  StronglySorted (fun x y => key y <= key x) l.

(** ** The question catalogue: [load_questions_from_db] *)

(** Python dictionaries with integer keys, in insertion order. *)
Definition dict_has {V} (k : Z) (d : list (Z * V)) : bool :=
  existsb (fun kv => (kv.1 =? k)%Z) d.

Fixpoint dict_update {V} (k : Z) (f : V -> V) (d : list (Z * V)) : list (Z * V) :=
  match d with
  | [] => []
  | (k', v) :: d' =>
      if (k' =? k)%Z then (k', f v) :: d' else (k', v) :: dict_update k f d'
  end.

(** [d[k] = v]. *)
Definition dict_set {V} (k : Z) (v : V) (d : list (Z * V)) : list (Z * V) :=
  if dict_has k d then dict_update k (fun _ => v) d else d ++ [(k, v)].

(** A question of [MEAI_QUESTIONS]. *)
Record question := {
  q_text : string;
  q_sub_questions : list string
}.

(** A row of the catalogue query. *)
Record catalogue_row := {
  r_category_id : Z;
  r_question_id : Z;
  r_question_text : string;
  r_sub_question_id : option Z;
  r_sub_question_text : option string
}.

(** The body of [for row in rows] (lines 222-238). *)
Definition add_row (questions : list (Z * list (Z * question))) (row : catalogue_row)
  : list (Z * list (Z * question)) :=
  let category_id := r_category_id row in
  let question_id := r_question_id row in
  let questions :=
    if dict_has category_id questions then questions
    else dict_set category_id [] questions in
  let questions :=
    dict_update category_id
      (fun cat_questions =>
         if dict_has question_id cat_questions then cat_questions
         else dict_set question_id
                {| q_text := r_question_text row; q_sub_questions := [] |} cat_questions)
      questions in
  match r_sub_question_text row with
  | Some sub_question_text =>
      if String.eqb sub_question_text "" then questions
      else
        dict_update category_id
          (dict_update question_id
             (fun q => {| q_text := q_text q;
                          q_sub_questions := q_sub_questions q ++ [sub_question_text] |}))
          questions
  | None => questions
  end.

Definition load_questions (rows : list catalogue_row) : list (Z * list (Z * question)) :=
  fold_left add_row rows [].

(** One question of the mapping loop (lines 244-252): a slot per
    sub-question, or one slot for a standalone question. *)
Definition map_question (cat_id : Z) (st : list (Z * Z) * Z) (q_data : question)
  : list (Z * Z) * Z :=
  if bool_decide (q_sub_questions q_data <> []) then
    fold_left (fun '(mapping, question_counter) (sub_idx : nat) =>
                 (dict_set question_counter cat_id mapping, (question_counter + 1)%Z))
              (seq 0 (length (q_sub_questions q_data))) st
  else
    let '(mapping, question_counter) := st in
    (dict_set question_counter cat_id mapping, (question_counter + 1)%Z).

(** The mapping loop (lines 241-252): the items of [MEAI_QUESTION_MAPPING] and
    the final value of [question_counter]. *)
Definition build_mapping (questions : list (Z * list (Z * question))) : list (Z * Z) * Z :=
  fold_left
    (fun st '(cat_id, cat_questions) =>
       fold_left (fun st '(q_id, q_data) => map_question cat_id st q_data) cat_questions st)
    questions ([], 1%Z).

(** The counting loop (lines 257-265). *)
Definition total_answerable_questions (questions : list (Z * list (Z * question))) : Z :=
  fold_left
    (fun total '(cat_id, cat_questions) =>
       fold_left
         (fun total '(q_id, q) =>
            if bool_decide (q_sub_questions q <> [])
            then (total + Z.of_nat (length (q_sub_questions q)))%Z
            else (total + 1)%Z)
         cat_questions total)
    questions 0%Z.

(** The keys 1, 2, ..., [n]. *)
Definition keys_upto (n : nat) : list Z := map Z.of_nat (seq 1 n).

(** Four rows: a question with two sub-questions, then a standalone one. *)
Definition sample_rows : list catalogue_row :=
  [ {| r_category_id := 1; r_question_id := 10; r_question_text := "Q10";
       r_sub_question_id := Some 1%Z; r_sub_question_text := Some "a" |};
    {| r_category_id := 1; r_question_id := 10; r_question_text := "Q10";
       r_sub_question_id := Some 2%Z; r_sub_question_text := Some "b" |};
    {| r_category_id := 2; r_question_id := 11; r_question_text := "Q11";
       r_sub_question_id := None; r_sub_question_text := None |} ].

(** The loops keep: keys are 1..n, the counter is n + 1, and every value is
    the id of a category seen so far. *)
Definition numbered (cats : list Z) (n : nat) (st : list (Z * Z) * Z) : Prop :=
  map fst st.1 = keys_upto n /\ st.2 = Z.of_nat (S n) /\
  Forall (fun item => item.2 ∈ cats) st.1.

Definition question_slots (q : question) : nat :=
  if bool_decide (q_sub_questions q <> []) then length (q_sub_questions q) else 1%nat.

Definition category_slots (cat_questions : list (Z * question)) : nat :=
  foldr (fun item acc => (question_slots item.2 + acc)%nat) 0%nat cat_questions.

Definition catalogue_slots (questions : list (Z * list (Z * question))) : nat :=
  foldr (fun item acc => (category_slots item.2 + acc)%nat) 0%nat questions.

(** ** Parts of the counselling reasoning *)

Definition high_tier (focus : list focus_category) : list focus_category :=
  filter (fun cat => Py.gt (fc_score cat) 0.6 = true) focus.

Definition moderate_tier (focus : list focus_category) : list focus_category :=
  filter (fun cat => Py.lt 0.3 (fc_score cat) && Py.le (fc_score cat) 0.6 = true) focus.

Definition low_tier (focus : list focus_category) : list focus_category :=
  filter (fun cat => Py.le (fc_score cat) 0.3 = true) focus.

(** The phrase of one tier: its first two names, or nothing for an empty tier. *)
Definition tier_part (label : string) (cats : list focus_category) : list string :=
  if bool_decide (cats <> [])
  then [label +:+ Text.join ", " (take 2 (map fc_name cats))]
  else [].

Definition tier_parts (focus : list focus_category) : list string :=
  tier_part "Critical needs in: " (high_tier focus)
  ++ tier_part "Development areas in: " (moderate_tier focus)
  ++ tier_part "Strong areas in: " (low_tier focus).

Definition confidence_part (ml_confidence : Q) : string :=
  if Py.gt ml_confidence 0.6
  then "High confidence (" +:+ Text.percent ml_confidence +:+ "%) in assessment accuracy"
  else if Py.gt ml_confidence 0.3
  then "Moderate confidence (" +:+ Text.percent ml_confidence +:+ "%) in assessment accuracy"
  else "Conservative confidence (" +:+ Text.percent ml_confidence
       +:+ "%) in assessment accuracy".

(** A category name that one of the category templates matches. *)
Definition has_keyword (name : string) : bool :=
  Text.contains "Marriage" name || Text.contains "Family" name
  || Text.contains "Health" name.

(** A focus category that gets a severity entry. *)
Definition commented (c : focus_category) : bool :=
  Py.gt (fc_score c) 0.3 && has_keyword (fc_name c).

(** * Theorems *)

(** ** Arithmetic of the Python layer *)

Lemma gt_true a b : Py.gt a b = true <-> b < a.
Proof.
  unfold Py.gt. rewrite negb_true_iff, <- not_true_iff_false, Qle_bool_iff.
  split; [apply Qnot_le_lt | apply Qlt_not_le].
Qed.

Lemma gt_false a b : Py.gt a b = false <-> a <= b.
Proof. unfold Py.gt. rewrite negb_false_iff. apply Qle_bool_iff. Qed.

Lemma lt_true a b : Py.lt a b = true <-> a < b.
Proof. apply (gt_true b a). Qed.

Lemma lt_false a b : Py.lt a b = false <-> b <= a.
Proof. apply (gt_false b a). Qed.

Lemma ge_true a b : Py.ge a b = true <-> b <= a.
Proof. apply Qle_bool_iff. Qed.

Lemma ge_false a b : Py.ge a b = false <-> a < b.
Proof.
  unfold Py.ge. rewrite <- not_true_iff_false, Qle_bool_iff.
  split; [apply Qnot_le_lt | apply Qlt_not_le].
Qed.

Lemma le_true a b : Py.le a b = true <-> a <= b.
Proof. apply Qle_bool_iff. Qed.

Lemma le_false a b : Py.le a b = false <-> b < a.
Proof. apply (ge_false b a). Qed.

(** Case analysis on every comparison of the goal. *)
Ltac case_cmp :=
  repeat match goal with
         | |- context [Py.gt ?a ?b] =>
             let E := fresh "E" in
             destruct (Py.gt a b) eqn:E; [apply gt_true in E | apply gt_false in E]
         | |- context [Py.lt ?a ?b] =>
             let E := fresh "E" in
             destruct (Py.lt a b) eqn:E; [apply lt_true in E | apply lt_false in E]
         | |- context [Py.ge ?a ?b] =>
             let E := fresh "E" in
             destruct (Py.ge a b) eqn:E; [apply ge_true in E | apply ge_false in E]
         | |- context [Py.le ?a ?b] =>
             let E := fresh "E" in
             destruct (Py.le a b) eqn:E; [apply le_true in E | apply le_false in E]
         end.

Lemma div_some a b : ~ b == 0 -> Py.div a b = Some (a / b).
Proof.
  intros Hb. unfold Py.div.
  destruct (Qeq_bool b 0) eqn:E; [|reflexivity].
  apply Qeq_bool_eq in E. contradiction.
Qed.

Lemma div_none a b : b == 0 -> Py.div a b = None.
Proof. intros Hb. unfold Py.div. now rewrite (Qeq_eq_bool _ _ Hb). Qed.

Lemma of_nat_pos (n : nat) : (0 < n)%nat -> 0 < inject_Z (Z.of_nat n).
Proof. intros H. unfold Qlt. simpl. lia. Qed.

Lemma of_nat_nonzero (n : nat) : (0 < n)%nat -> ~ inject_Z (Z.of_nat n) == 0.
Proof. intros H E. apply of_nat_pos in H. rewrite E in H. now apply Qlt_irrefl in H. Qed.

Lemma len_nonzero {A} (l : list A) : l <> [] -> ~ Py.len l == 0.
Proof. intros H. apply of_nat_nonzero. destruct l; [congruence | simpl; lia]. Qed.

(** ** Consistency *)

Lemma mean_of_some (l : list Z) : l <> [] -> mean_of l = Some (population_mean l).
Proof. intros H. unfold mean_of. now rewrite div_some by now apply len_nonzero. Qed.

Lemma variance_of_some (l : list Z) :
  l <> [] -> variance_of l = Some (population_variance l).
Proof.
  intros H. unfold variance_of. rewrite (mean_of_some l H). simpl.
  now rewrite div_some by now apply len_nonzero.
Qed.

Lemma variance_singleton (x : Z) : population_variance [x] == 0.
Proof.
  unfold population_variance, population_mean, Py.len, Py.fsum, Py.sum. simpl.
  rewrite Z.add_0_r. field.
Qed.

Lemma variance_empty : population_variance [] == 0.
Proof. reflexivity. Qed.

Lemma fsum_nonneg (l : list Q) : Forall (fun x => 0 <= x) l -> 0 <= Py.fsum l.
Proof.
  induction 1 as [|x l Hx _ IH]; simpl; [apply Qle_refl|].
  change 0 with (0 + 0). now apply Qplus_le_compat.
Qed.

Lemma variance_nonneg (l : list Z) : 0 <= population_variance l.
Proof.
  unfold population_variance.
  assert (Hs : 0 <= Py.fsum (map (fun r => (inject_Z r - population_mean l) ^ 2) l)).
  { apply fsum_nonneg. apply Forall_map, Forall_forall. intros r _.
    set (a := inject_Z r - population_mean l). change (0 <= a * a). nra. }
  destruct l as [|x l]; [apply Qle_refl|].
  apply Qle_shift_div_l; [apply of_nat_pos; simpl; lia|].
  now rewrite Qmult_0_l.
Qed.

(** C9.  [calculate_consistency] never raises; its result is
    [max(0, 1 - variance/4)] for the population variance of the sequence, and
    it is exactly [1] on the empty sequence and on every singleton. *)
Theorem consistency_formula (responses : list Z) :
  exists c,
    calculate_consistency responses = Some c /\
    c == Qmax 0 (1 - population_variance responses / 4) /\
    0 <= c <= 1 /\
    ((length responses < 2)%nat -> c = 1).
Proof.
  unfold calculate_consistency.
  destruct (length responses <? 2)%nat eqn:E.
  - apply Nat.ltb_lt in E. exists 1. split; [reflexivity|].
    assert (Hv : population_variance responses == 0).
    { destruct responses as [|x [|y l]]; simpl in E;
        [apply variance_empty | apply variance_singleton | lia]. }
    split; [|split; [split; [lra|lra] | reflexivity]].
    rewrite Hv.
    assert (H : 0 <= 1 - 0 / 4) by (unfold Qle; simpl; lia).
    rewrite (Q.max_r _ _ H). field.
  - apply Nat.ltb_ge in E.
    assert (Hne : responses <> []) by (destruct responses; [simpl in E; lia | congruence]).
    rewrite (variance_of_some _ Hne). simpl. eexists. split; [reflexivity|].
    split; [reflexivity|].
    pose proof (variance_nonneg responses) as Hv.
    split; [split; [apply Q.le_max_l|] | lia].
    assert (Hq : population_variance responses / 4 == population_variance responses * (1 # 4))
      by field.
    apply Q.max_lub; lra.
Qed.

(** ** The comparison loop *)

Lemma loop_alignment (m f : list Z) (l : list nat) (st : loop_state) :
  acc_alignment (fold_left (loop_body m f) l st)
  == acc_alignment st + Py.fsum (map (agreement_at m f) l).
Proof.
  revert st. induction l as [|i l IH]; intros st; simpl.
  - lra.
  - rewrite IH. unfold loop_body, agreement_at. simpl. lra.
Qed.

Lemma loop_weighted_conflict (m f : list Z) (l : list nat) (st : loop_state) :
  acc_weighted_conflict (fold_left (loop_body m f) l st)
  == acc_weighted_conflict st
     + Py.fsum (map (fun i => conflict_weight (nth i m 3%Z) (nth i f 3%Z)) l).
Proof.
  revert st. induction l as [|i l IH]; intros st; simpl.
  - lra.
  - rewrite IH. unfold loop_body. simpl. lra.
Qed.

Lemma fsum_bounds (A : Type) (g : A -> Q) (lo hi : Q) (l : list A) :
  (forall x, In x l -> lo <= g x <= hi) ->
  inject_Z (Z.of_nat (length l)) * lo <= Py.fsum (map g l)
  /\ Py.fsum (map g l) <= inject_Z (Z.of_nat (length l)) * hi.
Proof.
  induction l as [|x l IH]; intros H.
  - unfold Py.fsum. cbn [length map foldr].
    change (inject_Z (Z.of_nat 0)) with 0. lra.
  - destruct IH as [IH1 IH2]; [intros y Hy; apply H; now right|].
    destruct (H x (or_introl eq_refl)) as [H1 H2].
    cbn [length map Py.fsum foldr].
    change (Py.fsum (map g l)) with (foldr Qplus 0 (map g l)) in *.
    rewrite Nat2Z.inj_succ, <- Z.add_1_r, inject_Z_plus. change (inject_Z 1) with 1.
    split; nra.
Qed.

Lemma fsum_const (A : Type) (g : A -> Q) (c : Q) (l : list A) :
  (forall x, In x l -> g x == c) ->
  Py.fsum (map g l) == inject_Z (Z.of_nat (length l)) * c.
Proof.
  intros H. destruct (fsum_bounds A g c c l) as [H1 H2].
  - intros x Hx. rewrite (H x Hx). split; apply Qle_refl.
  - now apply Qle_antisym.
Qed.

Lemma valid_nth (l : list Z) (i : nat) :
  valid_responses l -> valid_response (nth i l 3%Z).
Proof.
  intros H. destruct (Nat.lt_ge_cases i (length l)) as [Hi|Hi].
  - apply (proj1 (List.Forall_forall _ _) H). now apply nth_In.
  - rewrite nth_overflow by assumption. right; now left.
Qed.

Lemma agreement_valid (m f : list Z) (i : nat) :
  valid_responses m -> valid_responses f -> 1 # 2 <= agreement_at m f i <= 1.
Proof.
  intros Hm Hf. unfold agreement_at.
  pose proof (valid_nth m i Hm) as Hx. pose proof (valid_nth f i Hf) as Hy.
  set (x := nth i m 3%Z) in *. set (y := nth i f 3%Z) in *.
  destruct Hx as [ -> | [ -> | -> ] ], Hy as [ -> | [ -> | -> ] ];
    vm_compute; split; discriminate.
Qed.

Lemma agreement_same (m f : list Z) (n i : nat) :
  take n m = take n f -> (i < n)%nat -> agreement_at m f i == 1.
Proof.
  intros Hp Hi. unfold agreement_at.
  assert (E : nth i m 3%Z = nth i f 3%Z).
  { rewrite !nth_lookup.
    rewrite <- (lookup_take_lt m n i), <- (lookup_take_lt f n i) by assumption.
    now rewrite Hp. }
  rewrite E, Z.sub_diag. reflexivity.
Qed.

(** The two lists compared are valid as soon as the inputs are. *)
Lemma split_valid (q m f : list Z) :
  valid_responses q -> valid_responses m -> valid_responses f ->
  valid_responses (compared_male q m f) /\ valid_responses (compared_female q m f).
Proof.
  intros Hq Hm Hf. unfold compared_male, compared_female, split_responses.
  destruct (_ && _); [now split|].
  destruct (2 <=? length q)%nat; simpl; [|now split].
  split; [now apply Forall_take | now apply Forall_drop].
Qed.

Lemma split_both_given (q m f : list Z) :
  m <> [] -> f <> [] -> split_responses q m f = (m ++ f, m, f).
Proof.
  intros Hm Hf. unfold split_responses.
  rewrite !bool_decide_eq_true_2 by assumption.
  destruct m; [congruence|]. destruct f; [congruence|]. reflexivity.
Qed.

(** ** The dynamics calculator never raises *)

Lemma partner_avg_total (l : list Z) : is_Some (partner_avg l).
Proof.
  unfold partner_avg. case_bool_decide as H; [|by eexists].
  rewrite (mean_of_some l H). by eexists.
Qed.

Lemma consistency_total (l : list Z) : is_Some (calculate_consistency l).
Proof.
  unfold calculate_consistency. destruct (length l <? 2)%nat eqn:E; [by eexists|].
  apply Nat.ltb_ge in E.
  rewrite variance_of_some by (destruct l; [simpl in E; lia | congruence]).
  by eexists.
Qed.

Lemma power_balance_total (male_avg female_avg : Q) :
  is_Some (if Py.gt female_avg 0 then Py.div male_avg female_avg else Some 1).
Proof.
  destruct (Py.gt female_avg 0) eqn:E; [|by eexists].
  apply gt_true in E. rewrite div_some; [by eexists|].
  intros H. rewrite H in E. now apply Qlt_irrefl in E.
Qed.

Lemma response_variance_total (l : list Z) :
  is_Some (if (1 <? length l)%nat then variance_of l else Some 0).
Proof.
  destruct (1 <? length l)%nat eqn:E; [|by eexists].
  apply Nat.ltb_lt in E.
  rewrite variance_of_some by (destruct l; [simpl in E; lia | congruence]).
  by eexists.
Qed.

(** The alignment score and the conflict ratio of the returned dictionary, in
    terms of the loop accumulators. *)
Lemma dynamics_returns (q m f : list Z) :
  let male := compared_male q m f in
  let female := compared_female q m f in
  let n := total_questions_of male female in
  let st := compare_loop male female in
  exists d : gmap string Q,
    calculate_personalized_features_flask q m f = Some d /\
    d !! "alignment_score" =
      Some (if (0 <? n)%nat then acc_alignment st / inject_Z (Z.of_nat n) else 0.5) /\
    d !! "conflict_ratio" =
      Some (if (0 <? n)%nat then acc_weighted_conflict st / inject_Z (Z.of_nat n) else 0).
Proof.
  cbv zeta. unfold calculate_personalized_features_flask, compared_male, compared_female.
  destruct (split_responses q m f) as [[all male] female]. cbn [fst snd].
  set (n := total_questions_of male female). set (st := compare_loop male female).
  assert (Ha : (if (0 <? n)%nat then Py.div (acc_alignment st) (inject_Z (Z.of_nat n))
                else Some 0.5)
               = Some (if (0 <? n)%nat then acc_alignment st / inject_Z (Z.of_nat n)
                       else 0.5)).
  { destruct (0 <? n)%nat eqn:E; [|reflexivity].
    apply div_some, of_nat_nonzero. now apply Nat.ltb_lt. }
  assert (Hc : (if (0 <? n)%nat
                then Py.div (acc_weighted_conflict st) (inject_Z (Z.of_nat n))
                else Some 0)
               = Some (if (0 <? n)%nat
                       then acc_weighted_conflict st / inject_Z (Z.of_nat n) else 0)).
  { destruct (0 <? n)%nat eqn:E; [|reflexivity].
    apply div_some, of_nat_nonzero. now apply Nat.ltb_lt. }
  rewrite Ha, Hc. cbn [mbind option_bind].
  destruct (partner_avg_total male) as [ma ->].
  destruct (partner_avg_total female) as [fa ->].
  destruct (consistency_total male) as [mc ->].
  destruct (consistency_total female) as [fc ->]. cbn [mbind option_bind].
  destruct (power_balance_total ma fa) as [pb ->].
  destruct (response_variance_total all) as [rv ->]. cbn [mbind option_bind].
  eexists. split; [reflexivity|]. split.
  - apply lookup_insert_eq.
  - rewrite lookup_insert_ne by done. apply lookup_insert_eq.
Qed.

(** ** Alignment score *)

Lemma loop_alignment_total (male female : list Z) :
  acc_alignment (compare_loop male female)
  == Py.fsum (map (agreement_at male female)
                  (seq 0 (total_questions_of male female))).
Proof. unfold compare_loop. rewrite loop_alignment. simpl. lra. Qed.

Lemma mean_bounds (s lo hi : Q) (n : nat) :
  (0 < n)%nat ->
  inject_Z (Z.of_nat n) * lo <= s -> s <= inject_Z (Z.of_nat n) * hi ->
  lo <= s / inject_Z (Z.of_nat n) <= hi.
Proof.
  intros Hn H1 H2. apply of_nat_pos in Hn. split.
  - apply Qle_shift_div_l; [assumption|]. now rewrite Qmult_comm.
  - apply Qle_shift_div_r; [assumption|]. now rewrite Qmult_comm.
Qed.

(** C1.  The dynamics calculator never raises.  Its [alignment_score] is the
    mean over the compared indices of [(4 - |male[i] - female[i]|) / 4]
    whenever at least one index is compared (the compared lists are the two
    partner lists when both are given); it is 1 when the compared prefixes are
    identical, lies in [[0,1]] when every answer is 2, 3 or 4, and is 0.5
    when no index is compared. *)
Theorem alignment_score_mean (q m f : list Z) :
  let male := compared_male q m f in
  let female := compared_female q m f in
  let n := total_questions_of male female in
  exists (d : gmap string Q) (a : Q),
    calculate_personalized_features_flask q m f = Some d /\
    d !! "alignment_score" = Some a /\
    (m <> [] -> f <> [] -> male = m /\ female = f /\ (0 < n)%nat) /\
    ((0 < n)%nat -> a == mean_agreement male female) /\
    ((0 < n)%nat -> take n male = take n female -> a == 1) /\
    (valid_responses q -> valid_responses m -> valid_responses f -> 0 <= a <= 1) /\
    (n = 0%nat -> a = 0.5).
Proof.
  intros male female n.
  destruct (dynamics_returns q m f) as (d & Hd & Ha & _).
  fold male female n in Ha.
  exists d. eexists. split; [exact Hd|]. split; [exact Ha|].
  split; [|split; [|split; [|split]]].
  - intros Hm Hf. unfold n, male, female, compared_male, compared_female.
    rewrite (split_both_given q m f Hm Hf). cbn [fst snd].
    split; [reflexivity|]. split; [reflexivity|].
    unfold total_questions_of. destruct m, f; simpl; congruence || lia.
  - intros Hn. rewrite (proj2 (Nat.ltb_lt 0 n) Hn).
    rewrite loop_alignment_total. reflexivity.
  - intros Hn Hp. rewrite (proj2 (Nat.ltb_lt 0 n) Hn).
    rewrite loop_alignment_total. fold n.
    rewrite (fsum_const _ _ 1).
    + rewrite length_seq. field. now apply of_nat_nonzero.
    + intros i Hi. apply in_seq in Hi. apply (agreement_same male female n); [assumption|lia].
  - intros Hq Hm Hf.
    destruct (split_valid q m f Hq Hm Hf) as [Hvm Hvf]. fold male in Hvm. fold female in Hvf.
    destruct (0 <? n)%nat eqn:E; [|split; [lra|lra]].
    apply Nat.ltb_lt in E. rewrite loop_alignment_total. fold n.
    destruct (fsum_bounds _ (agreement_at male female) (1 # 2) 1 (seq 0 n)) as [H1 H2].
    { intros i _. now apply agreement_valid. }
    rewrite length_seq in H1, H2.
    destruct (mean_bounds _ (1 # 2) 1 n E H1 H2). split; lra.
  - intros ->. reflexivity.
Qed.

(** The theorem at work: identical answers [4; 3; 2] from both partners. *)
Lemma alignment_score_mean_witness :
  exists (d : gmap string Q) (a : Q),
    calculate_personalized_features_flask [] [4; 3; 2]%Z [4; 3; 2]%Z = Some d /\
    d !! "alignment_score" = Some a /\
    a == mean_agreement [4; 3; 2]%Z [4; 3; 2]%Z /\ a == 1 /\ 0 <= a <= 1.
Proof.
  destruct (alignment_score_mean [] [4; 3; 2]%Z [4; 3; 2]%Z)
    as (d & a & Hd & Ha & Hg & Hmean & Hsame & Hvalid & _).
  exists d, a. split; [exact Hd|]. split; [exact Ha|].
  destruct Hg as (Em & Ef & Hn); [discriminate | discriminate |].
  split; [|split].
  - rewrite <- Em at 1. rewrite <- Ef at 1. apply Hmean. exact Hn.
  - apply Hsame; [exact Hn | reflexivity].
  - apply Hvalid; unfold valid_responses, valid_response;
      repeat (apply List.Forall_cons; [lia|]); apply List.Forall_nil.
Defined.

(** No compared index: the score falls back to 0.5. *)
Example alignment_score_default :
  (d ← calculate_personalized_features_flask [] [] [2; 3]%Z; d !! "alignment_score")
  = Some 0.5.
Proof. vm_compute. reflexivity. Qed.

(** ** The opposed-partners scenario *)

(** C2, as the code has it.  For [male_responses = [4,4,4,4]] and
    [female_responses = [2,2,2,2]] every difference is 2: each index adds
    [(4 - 2) / 4] to the alignment sum and weight 1 to the conflict sum, so the
    alignment score is 0.5 and the conflict ratio is 1. *)
Theorem opposed_scenario (q : list Z) :
  exists (d : gmap string Q) (a c : Q),
    calculate_personalized_features_flask q [4; 4; 4; 4]%Z [2; 2; 2; 2]%Z = Some d /\
    d !! "alignment_score" = Some a /\ a == 0.5 /\
    d !! "conflict_ratio" = Some c /\ c == 1.
Proof.
  destruct (dynamics_returns q [4; 4; 4; 4]%Z [2; 2; 2; 2]%Z) as (d & Hd & Ha & Hc).
  exists d. eexists. eexists.
  split; [exact Hd|]. split; [exact Ha|]. split; [|split; [exact Hc|]].
  - vm_compute. reflexivity.
  - vm_compute. reflexivity.
Qed.

(** C2, as stated, fails: the alignment score of the scenario is not 0. *)
Lemma opposed_scenario_alignment_not_zero :
  exists (d : gmap string Q) (a : Q),
    calculate_personalized_features_flask [] [4; 4; 4; 4]%Z [2; 2; 2; 2]%Z = Some d /\
    d !! "alignment_score" = Some a /\ ~ a == 0.
Proof.
  destruct (dynamics_returns [] [4; 4; 4; 4]%Z [2; 2; 2; 2]%Z) as (d & Hd & Ha & _).
  exists d. eexists. split; [exact Hd|]. split; [exact Ha|].
  vm_compute. discriminate.
Qed.

(** ** Risk label of a synthetic couple *)

Lemma disagree_count_occ (l : list Z) :
  disagree_count l = Z.of_nat (count_occ Z.eq_dec l 2%Z).
Proof.
  unfold disagree_count. induction l as [|r l IH]; [reflexivity|].
  rewrite filter_cons. cbn [count_occ].
  destruct (decide (r = 2%Z)) as [->|Hr].
  - destruct (Z.eq_dec 2 2)%Z as [_|]; [|congruence].
    cbn [map Py.sum foldr]. unfold Py.sum in IH. rewrite IH. lia.
  - destruct (Z.eq_dec r 2)%Z as [|_]; [congruence|]. exact IH.
Qed.

Lemma disagree_ratio_some (l : list Z) :
  l <> [] -> disagree_ratio l = Some (disagree_fraction l).
Proof.
  intros H. unfold disagree_ratio, disagree_fraction.
  rewrite div_some by now apply len_nonzero. now rewrite disagree_count_occ.
Qed.

Lemma label_thresholds (high ratio : Q) :
  0.15 <= high ->
  label_by_thresholds high ratio
    (if Py.gt ratio high then "High" else if Py.gt ratio 0.15 then "Medium" else "Low").
Proof.
  intros Hh. unfold label_by_thresholds.
  destruct (Py.gt ratio high) eqn:E1.
  - apply gt_true in E1. repeat split; try discriminate; try reflexivity; intros; try lra.
  - apply gt_false in E1. destruct (Py.gt ratio 0.15) eqn:E2.
    + apply gt_true in E2. repeat split; try discriminate; try reflexivity; intros; try lra.
    + apply gt_false in E2. repeat split; try discriminate; try reflexivity; intros; try lra.
Qed.

Lemma perturb_nonempty (base : list Z) (variation : nat -> Z) :
  base <> [] -> perturb_responses base variation <> [].
Proof. destruct base; [congruence | discriminate]. Qed.

(** C6.  Every generated couple carries the label its own answers give: with
    [ratio] the fraction of answers equal to 2, generic mode labels High above
    0.35, Medium in (0.15, 0.35], Low up to 0.15; patterned mode does the same
    with 0.3 in place of 0.35, on the perturbed answers. *)
Theorem synthetic_risk_label (profile : couple_profile) (responses base : list Z)
  (variation : nat -> Z) :
  responses <> [] -> base <> [] ->
  (exists row,
      generic_couple profile responses = Some row /\
      row_questionnaire_responses row = responses /\
      label_by_thresholds 0.35 (disagree_fraction responses) (row_risk_level row)) /\
  (exists row,
      patterned_couple profile base variation = Some row /\
      row_questionnaire_responses row = perturb_responses base variation /\
      label_by_thresholds 0.3 (disagree_fraction (perturb_responses base variation))
        (row_risk_level row)).
Proof.
  intros Hr Hb. split.
  - unfold generic_couple, generic_risk_level.
    rewrite (disagree_ratio_some _ Hr). cbn [mbind option_bind].
    eexists. split; [reflexivity|]. split; [reflexivity|].
    cbn [row_risk_level]. apply label_thresholds. lra.
  - unfold patterned_couple, patterned_risk_level.
    rewrite (disagree_ratio_some _ (perturb_nonempty base variation Hb)).
    cbn [mbind option_bind].
    eexists. split; [reflexivity|]. split; [reflexivity|].
    cbn [row_risk_level]. apply label_thresholds. lra.
Qed.

(** The theorem at work: one disagreement out of three answers (ratio 1/3,
    between the two High thresholds) is Medium in generic mode and High in
    patterned mode, the variation being zero. *)
Lemma synthetic_risk_label_witness :
  (exists row,
      generic_couple sample_profile [2; 3; 4]%Z = Some row /\
      row_risk_level row = "Medium") /\
  (exists row,
      patterned_couple sample_profile [2; 3; 4]%Z (fun _ => 0%Z) = Some row /\
      row_risk_level row = "High").
Proof.
  destruct (synthetic_risk_label sample_profile [2; 3; 4]%Z [2; 3; 4]%Z (fun _ => 0%Z))
    as [(r1 & E1 & _ & _ & H1 & _) (r2 & E2 & _ & H2 & _)];
    [discriminate | discriminate |].
  split.
  - exists r1. split; [exact E1|]. apply H1. vm_compute. split; [reflexivity | discriminate].
  - exists r2. split; [exact E2|]. apply H2. vm_compute. reflexivity.
Defined.

(** ** Feature vector *)

Lemma pad_or_truncate_length (N : nat) (l : list Z) : length (pad_or_truncate N l) = N.
Proof.
  unfold pad_or_truncate. rewrite length_take, length_app, length_replicate. lia.
Qed.

Lemma perturb_length (base : list Z) (variation : nat -> Z) :
  length (perturb_responses base variation) = length base.
Proof. apply length_imap. Qed.

Lemma analyze_features_length (p : couple_profile) (q : list Z) (pf : gmap string Q) :
  length (analyze_features p q pf) = (length q + 14)%nat.
Proof.
  unfold analyze_features. rewrite !length_app, length_map. simpl. lia.
Qed.

Lemma train_features_length (row : couple_row) (drawn : synthetic_features) :
  length (train_features row drawn) = (length (row_questionnaire_responses row) + 14)%nat.
Proof.
  unfold train_features. rewrite !length_app, length_map. simpl. lia.
Qed.

(** A request that sends no answers is analysed on a vector of the catalogue
    size plus 14. *)
Lemma request_features_default_length (mapping : gmap nat nat) (data : request) :
  req_questionnaire_responses data = None ->
  exists features profile pf male female,
    request_features mapping data = Some (features, profile, pf, male, female) /\
    length features = (catalog_size mapping + 14)%nat.
Proof.
  intros Hq. unfold request_features. rewrite Hq. cbn [default].
  set (q := replicate (catalog_size mapping) 3%Z).
  assert (Hpf : exists pf,
    (if bool_decide (default ∅ (req_personalized_features data) = ∅)
     then calculate_personalized_features_flask q
            (default [] (req_male_responses data)) (default [] (req_female_responses data))
     else Some (default ∅ (req_personalized_features data))) = Some pf).
  { case_bool_decide; [|by eexists].
    destruct (dynamics_returns q (default [] (req_male_responses data))
                (default [] (req_female_responses data))) as (d & Hd & _).
    by exists d. }
  destruct Hpf as [pf ->]. cbn [mbind option_bind].
  do 5 eexists. split; [reflexivity|].
  rewrite analyze_features_length. unfold q. now rewrite length_replicate.
Qed.

(** Whatever the request, the vector of [analyze] is built on the answers the
    request sends, or on the neutral default when it sends none. *)
Lemma request_features_returns (mapping : gmap nat nat) (data : request) :
  exists features profile pf male female,
    request_features mapping data = Some (features, profile, pf, male, female) /\
    features
    = analyze_features profile
        (default (replicate (catalog_size mapping) 3%Z) (req_questionnaire_responses data))
        pf.
Proof.
  unfold request_features.
  set (q := default (replicate (catalog_size mapping) 3%Z) (req_questionnaire_responses data)).
  assert (Hpf : exists pf,
    (if bool_decide (default ∅ (req_personalized_features data) = ∅)
     then calculate_personalized_features_flask q
            (default [] (req_male_responses data)) (default [] (req_female_responses data))
     else Some (default ∅ (req_personalized_features data))) = Some pf).
  { case_bool_decide; [|by eexists].
    destruct (dynamics_returns q (default [] (req_male_responses data))
                (default [] (req_female_responses data))) as (d & Hd & _).
    by exists d. }
  destruct Hpf as [pf ->]. cbn [mbind option_bind].
  do 5 eexists. split; reflexivity.
Qed.

(** C7, as the code has it.  At training time and at inference time the
    vector is the six demographic fields, then the answers in order, then the
    eight dynamics values in the fixed order, so its length is the number of
    answers plus 14.  This is the catalogue size [N] plus 14 on answers in
    catalogue number: a training row of the loader is padded or cut to the
    catalogue, and a request that sends no answers is given [N] neutral ones.
    But [analyze] neither pads nor cuts the answers a request does send: the
    vector then has as many entries as answers were sent, plus 14, whatever
    the catalogue. *)
Theorem feature_vector_layout (mapping : gmap nat nat) (p : couple_profile) (q : list Z)
  (label : string) (drawn : synthetic_features) (pf : gmap string Q) (data : request) :
  train_features {| row_profile := p; row_questionnaire_responses := q;
                    row_risk_level := label |} drawn
  = [ inject_Z (male_age p); inject_Z (female_age p); inject_Z (years_living_together p);
      inject_Z (children p); inject_Z (education_level p); inject_Z (income_level p) ]
    ++ map inject_Z q
    ++ [ syn_alignment_score drawn; syn_conflict_ratio drawn;
         syn_male_avg_response drawn; syn_female_avg_response drawn;
         syn_male_consistency drawn; syn_female_consistency drawn;
         syn_power_balance drawn; syn_response_variance drawn ]
  /\ analyze_features p q pf
  = [ inject_Z (male_age p); inject_Z (female_age p); inject_Z (years_living_together p);
      inject_Z (children p); inject_Z (education_level p); inject_Z (income_level p) ]
    ++ map inject_Z q
    ++ [ Py.get "alignment_score" 0.5 pf; Py.get "conflict_ratio" 0 pf;
         Py.get "male_avg_response" 3 pf; Py.get "female_avg_response" 3 pf;
         Py.get "male_consistency" 0.5 pf; Py.get "female_consistency" 0.5 pf;
         Py.get "power_balance" 0 pf; Py.get "response_variance" 0 pf ]
  /\ length (train_features {| row_profile := p; row_questionnaire_responses := q;
                               row_risk_level := label |} drawn) = (6 + length q + 8)%nat
  /\ length (analyze_features p q pf) = (6 + length q + 8)%nat
  /\ (length q = catalog_size mapping ->
      length (train_features {| row_profile := p; row_questionnaire_responses := q;
                                row_risk_level := label |} drawn)
      = (catalog_size mapping + 14)%nat
      /\ length (analyze_features p q pf) = (catalog_size mapping + 14)%nat)
  /\ (mapping <> ∅ ->
      length (train_features
                {| row_profile := p;
                   row_questionnaire_responses := pad_or_truncate (size mapping) q;
                   row_risk_level := label |} drawn)
      = (catalog_size mapping + 14)%nat)
  /\ exists features profile pf' male female,
      request_features mapping data = Some (features, profile, pf', male, female) /\
      features
      = analyze_features profile
          (default (replicate (catalog_size mapping) 3%Z) (req_questionnaire_responses data))
          pf' /\
      (req_questionnaire_responses data = None ->
       length features = (catalog_size mapping + 14)%nat) /\
      (forall sent : list Z,
         req_questionnaire_responses data = Some sent ->
         length features = (length sent + 14)%nat /\
         (length features = (catalog_size mapping + 14)%nat
          <-> length sent = catalog_size mapping)).
Proof.
  split; [|split; [|split; [|split; [|split; [|split]]]]].
  - unfold train_features, demographic_features. cbn [row_profile row_questionnaire_responses].
    now rewrite <- app_assoc.
  - unfold analyze_features, demographic_features, personalized_feature_values.
    now rewrite <- app_assoc.
  - rewrite train_features_length. cbn [row_questionnaire_responses]. lia.
  - rewrite analyze_features_length. lia.
  - intros HN. rewrite train_features_length, analyze_features_length.
    cbn [row_questionnaire_responses]. lia.
  - intros Hne. rewrite train_features_length. cbn [row_questionnaire_responses].
    rewrite pad_or_truncate_length. unfold catalog_size.
    now rewrite bool_decide_eq_true_2.
  - destruct (request_features_returns mapping data)
      as (features & profile & pf' & male & female & Hr & Hf).
    exists features, profile, pf', male, female.
    split; [exact Hr|]. split; [exact Hf|]. split.
    + intros Hq. rewrite Hf, Hq, analyze_features_length. cbn [default].
      now rewrite length_replicate.
    + intros sent Hq. rewrite Hf, Hq, analyze_features_length.
      change (default (replicate (catalog_size mapping) 3%Z) (Some sent)) with sent.
      generalize (catalog_size mapping). intros N. split; [reflexivity | lia].
Qed.

(** C7, as stated, fails at inference time: on a catalogue of four questions
    a request that sends one answer is analysed on a vector of 15 entries,
    not 18. *)
Lemma short_request_vector :
  catalog_size four_questions = 4%nat /\
  (fun r => length r.1.1.1.1) <$> request_features four_questions one_answer_request
  = Some 15%nat.
Proof. split; vm_compute; reflexivity. Qed.

(** ** Priority tiers *)

Lemma display_focus_priority (cats : list string) (scores : list Q) :
  Forall (fun c => fc_priority c = display_priority (fc_score c))
         (display_focus_categories cats scores).
Proof.
  unfold display_focus_categories. apply Forall_map, Forall_forall.
  now intros [cat score] _.
Qed.

Lemma ml_step_priority (has_children : bool) (n : Z) (category : string) (score : Q) :
  Forall (fun c => narrative_priority (fc_score c) = Some (fc_priority c))
         (ml_category_step has_children n category score).1.
Proof.
  unfold ml_category_step. destruct (narrative_priority score) eqn:E; cbn [fst].
  - apply List.Forall_cons; [exact E | apply List.Forall_nil].
  - apply List.Forall_nil.
Qed.

Lemma ml_focus_priority (cats : list string) (p : couple_profile) (risk : string)
  (scores : list Q) :
  Forall (fun c => narrative_priority (fc_score c) = Some (fc_priority c))
         (ml_focus_categories (generate_ml_recommendations cats p risk scores)).
Proof.
  unfold generate_ml_recommendations. cbn [ml_focus_categories].
  induction (sorted_desc snd (zip cats scores)) as [|[category score] l IH];
    [apply List.Forall_nil|].
  cbn [map concat]. apply Forall_app. split; [apply ml_step_priority | exact IH].
Qed.

Lemma display_priority_tiers (s : Q) :
  (display_priority s = "High" <-> 0.6 < s) /\
  (display_priority s = "Moderate" <-> 0.3 < s /\ s <= 0.6) /\
  (display_priority s = "Low" <-> s <= 0.3).
Proof.
  unfold display_priority. case_cmp;
    repeat split; try discriminate; try reflexivity; intros; lra.
Qed.

Lemma narrative_priority_tiers (s : Q) :
  (narrative_priority s = Some "Critical" <-> 0.7 < s) /\
  (narrative_priority s = Some "High" <-> 0.4 < s /\ s <= 0.7) /\
  (narrative_priority s = Some "Moderate" <-> 0.2 < s /\ s <= 0.4) /\
  (narrative_priority s = None <-> s <= 0.2).
Proof.
  unfold narrative_priority. case_cmp; try lra;
    repeat split; try discriminate; try reflexivity; intros; lra.
Qed.

(** C5.  The three-level scheme of [analyze] is High above 0.6, Moderate in
    (0.3, 0.6], Low up to 0.3; the four-level scheme of
    [generate_ml_recommendations] is Critical above 0.7, High in (0.4, 0.7],
    Moderate in (0.2, 0.4], with no entry up to 0.2.  Every focus entry carries
    the tier of its scheme, and the schemes disagree, at 0.3, 0.5 and 0.75
    for instance. *)
Theorem priority_tiers (s : Q) :
  (display_priority s = "High" <-> 0.6 < s) /\
  (display_priority s = "Moderate" <-> 0.3 < s /\ s <= 0.6) /\
  (display_priority s = "Low" <-> s <= 0.3) /\
  (narrative_priority s = Some "Critical" <-> 0.7 < s) /\
  (narrative_priority s = Some "High" <-> 0.4 < s /\ s <= 0.7) /\
  (narrative_priority s = Some "Moderate" <-> 0.2 < s /\ s <= 0.4) /\
  (narrative_priority s = None <-> s <= 0.2) /\
  (forall cats scores,
      Forall (fun c => fc_priority c = display_priority (fc_score c))
             (display_focus_categories cats scores)) /\
  (forall cats p risk scores,
      Forall (fun c => narrative_priority (fc_score c) = Some (fc_priority c))
             (ml_focus_categories (generate_ml_recommendations cats p risk scores))) /\
  display_priority 0.3 = "Low" /\
  narrative_priority 0.3 = Some "Moderate" /\
  display_priority 0.5 = "Moderate" /\
  narrative_priority 0.5 = Some "High" /\
  display_priority 0.75 = "High" /\
  narrative_priority 0.75 = Some "Critical".
Proof.
  destruct (display_priority_tiers s) as (D1 & D2 & D3).
  destruct (narrative_priority_tiers s) as (N1 & N2 & N3 & N4).
  repeat (split; [assumption|]).
  split; [exact display_focus_priority|]. split; [exact ml_focus_priority|].
  repeat split; reflexivity.
Qed.

(** ** The rule-based generator, block by block *)

Lemma alignment_block_stage (a : Q) : map stage_of (alignment_block a) = [Alignment].
Proof. unfold alignment_block. case_cmp; reflexivity. Qed.

Lemma optimism_block_stage (o : Q) : map stage_of (optimism_block o) = [Harmony].
Proof. unfold optimism_block. case_cmp; reflexivity. Qed.

Lemma conflict_block_stage (c : Q) : map stage_of (conflict_block c) = [Conflict].
Proof. unfold conflict_block. case_cmp; reflexivity. Qed.

Lemma male_consistency_block_stage (c : Q) :
  map stage_of (male_consistency_block c) = [MaleConsistency].
Proof. unfold male_consistency_block. case_cmp; reflexivity. Qed.

Lemma female_consistency_block_stage (c : Q) :
  map stage_of (female_consistency_block c) = [FemaleConsistency].
Proof. unfold female_consistency_block. case_cmp; reflexivity. Qed.

Lemma variance_block_stage (v : Q) : map stage_of (variance_block v) = [ResponseVariance].
Proof. unfold variance_block. case_cmp; reflexivity. Qed.

Lemma power_block_stage (pb a ma fa : Q) :
  let b := power_block pb a ma fa in
  map stage_of b = replicate (length b) PowerBalance /\
  (length b <= 1)%nat /\
  (length b = 1%nat <->
   ((1.5 < pb \/ pb < 0.3) /\ a < 0.8) \/ (0.7 <= pb /\ pb <= 1.3)).
Proof.
  unfold power_block. case_cmp; cbn;
    (split; [reflexivity|]; split; [lia|]; split; intros H; try lra; try lia;
     exfalso; lra).
Qed.

Lemma male_positivity_block_stage (r : Q) :
  let b := male_positivity_block r in
  map stage_of b = replicate (length b) MalePositivity /\
  (length b <= 1)%nat /\
  (length b = 1%nat <-> 0.7 < r \/ r < 0.3).
Proof.
  unfold male_positivity_block. case_cmp; cbn;
    (split; [reflexivity|]; split; [lia|]; split; intros H; try lra; try lia;
     exfalso; lra).
Qed.

Lemma female_positivity_block_stage (r : Q) :
  let b := female_positivity_block r in
  map stage_of b = replicate (length b) FemalePositivity /\
  (length b <= 1)%nat /\
  (length b = 1%nat <-> 0.7 < r \/ r < 0.3).
Proof.
  unfold female_positivity_block. case_cmp; cbn;
    (split; [reflexivity|]; split; [lia|]; split; intros H; try lra; try lia;
     exfalso; lra).
Qed.

Lemma risk_block_stage (risk : string) (c : Q) :
  exists crisis,
    map stage_of (risk_block risk c) = RiskHeadline :: replicate crisis Crisis /\
    (crisis <= 1)%nat /\
    (crisis = 1%nat <-> risk = "High" /\ 0.4 < c).
Proof.
  unfold risk_block. destruct (String.eqb risk "High") eqn:E.
  - apply String.eqb_eq in E. case_cmp.
    + exists 1%nat. split; [reflexivity|]. split; [lia|]. split; [now split | reflexivity].
    + exists 0%nat. split; [reflexivity|]. split; [lia|].
      split; [lia | intros [_ H]; exfalso; lra].
  - apply String.eqb_neq in E. exists 0%nat.
    split; [destruct (String.eqb risk "Medium"); reflexivity|]. split; [lia|].
    split; [lia | intros [H _]; contradiction].
Qed.

Lemma category_block_stage (c : focus_category) :
  let b := category_block c in
  map stage_of b = replicate (length b) CategorySeverity /\ (length b <= 1)%nat.
Proof.
  unfold category_block. case_cmp;
    destruct (Text.contains "Marriage" (fc_name c));
    destruct (Text.contains "Family" (fc_name c));
    destruct (Text.contains "Health" (fc_name c)); cbn; split; reflexivity || lia.
Qed.

Lemma category_blocks_stage (focus : list focus_category) :
  let b := concat (map category_block focus) in
  map stage_of b = replicate (length b) CategorySeverity /\
  (length b <= length focus)%nat.
Proof.
  induction focus as [|c focus [IH1 IH2]]; [split; [reflexivity | cbn; lia]|].
  destruct (category_block_stage c) as [H1 H2].
  cbn [map concat]. rewrite map_app, length_app, replicate_add, H1, IH1.
  split; [reflexivity | cbn [length]; lia].
Qed.

Lemma positive_ratio_total (count : Z) (total : nat) :
  is_Some (positive_ratio count total).
Proof.
  unfold positive_ratio. destruct (0 <? total)%nat eqn:E; [|by eexists].
  apply Nat.ltb_lt in E. rewrite div_some by now apply of_nat_nonzero. by eexists.
Qed.

(** The generator never raises, and the stages of its list come in the order
    of the source, the optional entries being counted by [p] (power balance),
    [mp], [fp] (positivity), [cr] (crisis) and [k] (categories). *)
Lemma rule_based_stages (risk : string) (scores : list Q) (focus : list focus_category)
  (pf : gmap string Q) (m f : list Z) :
  exists (recs : list recommendation) (mr fr : Q) (p mp fp cr k : nat),
    rule_based_recommendations risk scores focus pf m f = Some recs /\
    positive_ratio (agree_count m) (length m) = Some mr /\
    positive_ratio (agree_count f) (length m) = Some fr /\
    map stage_of recs
    = [Alignment; Harmony; Conflict] ++ replicate p PowerBalance
      ++ [MaleConsistency; FemaleConsistency]
      ++ replicate mp MalePositivity ++ replicate fp FemalePositivity
      ++ [RiskHeadline] ++ replicate cr Crisis
      ++ replicate k CategorySeverity ++ [ResponseVariance] /\
    (p <= 1 /\ mp <= 1 /\ fp <= 1 /\ cr <= 1 /\ k <= length focus)%nat /\
    (p = 1%nat <->
     ((1.5 < Py.get "power_balance" 0 pf \/ Py.get "power_balance" 0 pf < 0.3)
      /\ Py.get "alignment_score" 0.5 pf < 0.8)
     \/ (0.7 <= Py.get "power_balance" 0 pf /\ Py.get "power_balance" 0 pf <= 1.3)) /\
    (mp = 1%nat <-> 0.7 < mr \/ mr < 0.3) /\
    (fp = 1%nat <-> 0.7 < fr \/ fr < 0.3) /\
    (cr = 1%nat <-> risk = "High" /\ 0.4 < Py.get "conflict_ratio" 0 pf).
Proof.
  unfold rule_based_recommendations.
  destruct (positive_ratio_total (agree_count m) (length m)) as [mr Hmr].
  destruct (positive_ratio_total (agree_count f) (length m)) as [fr Hfr].
  rewrite Hmr, Hfr. cbn [mbind option_bind].
  destruct (power_block_stage (Py.get "power_balance" 0 pf)
              (Py.get "alignment_score" 0.5 pf) (Py.get "male_avg_response" 3 pf)
              (Py.get "female_avg_response" 3 pf)) as (Hp1 & Hp2 & Hp3).
  destruct (male_positivity_block_stage mr) as (Hm1 & Hm2 & Hm3).
  destruct (female_positivity_block_stage fr) as (Hf1 & Hf2 & Hf3).
  destruct (risk_block_stage risk (Py.get "conflict_ratio" 0 pf)) as (cr & Hr1 & Hr2 & Hr3).
  destruct (category_blocks_stage focus) as (Hc1 & Hc2).
  eexists. exists mr, fr. eexists. eexists. eexists. exists cr. eexists.
  split; [reflexivity|]. split; [reflexivity|]. split; [reflexivity|].
  split.
  { rewrite !map_app, alignment_block_stage, optimism_block_stage, conflict_block_stage,
      male_consistency_block_stage, female_consistency_block_stage, variance_block_stage,
      Hp1, Hm1, Hf1, Hr1, Hc1.
    reflexivity. }
  split; [repeat split; assumption|].
  repeat split; (apply Hp3 || apply Hm3 || apply Hf3 || apply Hr3); assumption.
Qed.

(** ** Length of the recommendation lists *)

Lemma rule_based_rendered (risk : string) (scores : list Q) (focus : list focus_category)
  (pf : gmap string Q) (m f : list Z) (recs : list recommendation) :
  rule_based_recommendations risk scores focus pf m f = Some recs ->
  generate_rule_based_recommendations risk scores focus pf m f = Some (map render recs).
Proof. intros H. unfold generate_rule_based_recommendations. now rewrite H. Qed.

Lemma rule_based_length (risk : string) (scores : list Q) (focus : list focus_category)
  (pf : gmap string Q) (m f : list Z) :
  exists recs,
    rule_based_recommendations risk scores focus pf m f = Some recs /\
    (7 <= length recs <= 11 + length focus)%nat.
Proof.
  destruct (rule_based_stages risk scores focus pf m f)
    as (recs & mr & fr & p & mp & fp & cr & k & H & _ & _ & Hs & Hb & _).
  exists recs. split; [exact H|].
  apply (f_equal length) in Hs.
  rewrite length_map, !length_app, !length_replicate in Hs. cbn [length] in Hs. lia.
Qed.

(** C3, as the code has it.  [generate_ml_recommendations] keeps at most 8
    recommendations.  The rule-based generator never raises and returns
    between 7 and 11 + (number of focus categories) strings, with no cap; and
    [generate_personalized_recommendations] returns the list of the external
    engine unchanged, or else the rule-based list. *)
Theorem recommendation_list_lengths (cats : list string) (p : couple_profile)
  (risk : string) (scores : list Q) (focus : list focus_category)
  (pf : gmap string Q) (m f : list Z) (nlg : nlg_args -> nlg_outcome)
  (profile : option couple_profile) :
  (length (ml_recs (generate_ml_recommendations cats p risk scores)) <= 8)%nat /\
  (exists l,
      generate_rule_based_recommendations risk scores focus pf m f = Some l /\
      (7 <= length l <= 11 + length focus)%nat) /\
  match nlg {| nlg_risk_level := risk; nlg_category_scores := scores;
               nlg_focus_categories := focus; nlg_personalized_features := pf;
               nlg_male_responses := m; nlg_female_responses := f;
               nlg_couple_profile := profile |} with
  | NlgReturned out =>
      generate_personalized_recommendations nlg risk scores focus pf m f profile = Some out
  | NlgImportError | NlgRaised _ =>
      generate_personalized_recommendations nlg risk scores focus pf m f profile
      = generate_rule_based_recommendations risk scores focus pf m f
  end.
Proof.
  split; [|split].
  - unfold generate_ml_recommendations. cbn [ml_recs]. rewrite length_take. lia.
  - destruct (rule_based_length risk scores focus pf m f) as (recs & H & Hl).
    exists (map render recs). split; [now apply rule_based_rendered|].
    now rewrite length_map.
  - unfold generate_personalized_recommendations.
    destruct (nlg _); reflexivity.
Qed.

(** C3, as stated, fails on the fallback path: for the opposed couple at High
    risk, with the dynamics computed by the service, the list has 14 entries. *)
Lemma fallback_list_longer_than_eight :
  (pf ← calculate_personalized_features_flask [] opposed_male opposed_female;
   l ← generate_personalized_recommendations (fun _ => NlgImportError) "High"
         [0.8; 0.2; 0.55; 0.35] sample_focus pf opposed_male opposed_female None;
   Some (length l, bool_decide (length l ≤ 8)%nat))
  = Some (14%nat, false).
Proof. vm_compute. reflexivity. Qed.

(** ** Order of the rule-based list *)

(** C8, as the code has it.  The rule-based list is, in this order: one
    alignment entry, one harmony entry, one conflict entry, a power-balance
    entry only when the balance is outside [0.3, 1.5] with alignment below 0.8
    or else inside [0.7, 1.3], the male and the female consistency entries
    (always), a positivity entry per partner only when the positive ratio is
    above 0.7 or below 0.3, then the risk-level headline (followed by a crisis
    entry only at High risk with conflict above 0.4), the category entries, and
    the response-variance entry last.  The headline therefore sits at index
    [5 + p + mp + fp], never first. *)
Theorem rule_based_order (risk : string) (scores : list Q) (focus : list focus_category)
  (pf : gmap string Q) (m f : list Z) :
  exists (recs : list recommendation) (mr fr : Q) (p mp fp cr k : nat),
    rule_based_recommendations risk scores focus pf m f = Some recs /\
    generate_rule_based_recommendations risk scores focus pf m f = Some (map render recs) /\
    positive_ratio (agree_count m) (length m) = Some mr /\
    positive_ratio (agree_count f) (length m) = Some fr /\
    map stage_of recs
    = [Alignment; Harmony; Conflict] ++ replicate p PowerBalance
      ++ [MaleConsistency; FemaleConsistency]
      ++ replicate mp MalePositivity ++ replicate fp FemalePositivity
      ++ [RiskHeadline] ++ replicate cr Crisis
      ++ replicate k CategorySeverity ++ [ResponseVariance] /\
    (p <= 1 /\ mp <= 1 /\ fp <= 1 /\ cr <= 1 /\ k <= length focus)%nat /\
    (p = 1%nat <->
     ((1.5 < Py.get "power_balance" 0 pf \/ Py.get "power_balance" 0 pf < 0.3)
      /\ Py.get "alignment_score" 0.5 pf < 0.8)
     \/ (0.7 <= Py.get "power_balance" 0 pf /\ Py.get "power_balance" 0 pf <= 1.3)) /\
    (mp = 1%nat <-> 0.7 < mr \/ mr < 0.3) /\
    (fp = 1%nat <-> 0.7 < fr \/ fr < 0.3) /\
    (cr = 1%nat <-> risk = "High" /\ 0.4 < Py.get "conflict_ratio" 0 pf) /\
    map stage_of recs !! 0%nat = Some Alignment /\
    map stage_of recs !! (5 + p + mp + fp)%nat = Some RiskHeadline.
Proof.
  destruct (rule_based_stages risk scores focus pf m f)
    as (recs & mr & fr & p & mp & fp & cr & k & H & Hmr & Hfr & Hs & Hb & Hp & Hmp & Hfp & Hcr).
  exists recs, mr, fr, p, mp, fp, cr, k.
  split; [exact H|]. split; [now apply rule_based_rendered|].
  split; [exact Hmr|]. split; [exact Hfr|]. split; [exact Hs|]. split; [exact Hb|].
  split; [exact Hp|]. split; [exact Hmp|]. split; [exact Hfp|]. split; [exact Hcr|].
  rewrite Hs. split; [reflexivity|].
  destruct Hb as (Bp & Bmp & Bfp & _).
  assert (Ep : p = 0%nat \/ p = 1%nat) by lia.
  assert (Emp : mp = 0%nat \/ mp = 1%nat) by lia.
  assert (Efp : fp = 0%nat \/ fp = 1%nat) by lia.
  destruct Ep as [-> | ->], Emp as [-> | ->], Efp as [-> | ->]; reflexivity.
Qed.

(** C8, as stated, fails: for the opposed couple at High risk the first entry
    is the alignment commentary, and the risk-level headline is the ninth. *)
Lemma headline_is_not_first :
  (pf ← calculate_personalized_features_flask [] opposed_male opposed_female;
   recs ← rule_based_recommendations "High" [0.8; 0.2; 0.55; 0.35] sample_focus pf
            opposed_male opposed_female;
   l ← generate_rule_based_recommendations "High" [0.8; 0.2; 0.55; 0.35] sample_focus pf
         opposed_male opposed_female;
   Some (stage_of <$> recs !! 0%nat, l !! 0%nat, l !! 8%nat))
  = Some (Some Alignment,
          Some " MODERATE ALIGNMENT: 50% agreement - focus on understanding different perspectives",
          Some " HIGH RISK PROFILE: Intensive counseling required - focus on core relationship issues, communication, and conflict resolution").
Proof. vm_compute. reflexivity. Qed.

(** ** The entries that are always there *)

Lemma filter_replicate_other (s s' : stage) (n : nat) :
  s' <> s -> filter (fun x => x = s) (replicate n s') = [].
Proof.
  intros H. induction n as [|n IH]; [reflexivity|].
  cbn [replicate]. rewrite filter_cons, IH. now destruct (decide (s' = s)).
Qed.



(** ** Serving without models *)

Lemma request_features_total (mapping : gmap nat nat) (data : request) :
  is_Some (request_features mapping data).
Proof.
  unfold request_features.
  case_bool_decide; [|by eexists].
  destruct (dynamics_returns
              (default (replicate (catalog_size mapping) 3%Z)
                       (req_questionnaire_responses data))
              (default [] (req_male_responses data))
              (default [] (req_female_responses data))) as (d & -> & _).
  by eexists.
Qed.







(** With the classifier loaded and the regressor absent, the classifier is
    consulted, then the handler refuses. *)
Example category_model_missing :
  analyze [] ∅ classifier_only (fun _ => NlgImportError) "" empty_request
  = ([RiskPredict; RiskPredictProba], category_not_loaded).
Proof. vm_compute. reflexivity. Qed.

(** * Further properties of the service *)

(** ** The dynamics dictionary, entry by entry *)

Lemma partner_avg_value (l : list Z) :
  partner_avg l = Some (if bool_decide (l <> []) then population_mean l else 3).
Proof.
  unfold partner_avg. case_bool_decide as H; [|reflexivity]. now apply mean_of_some.
Qed.

Lemma consistency_value (l : list Z) :
  calculate_consistency l
  = Some (if (length l <? 2)%nat then 1 else Qmax 0 (1 - population_variance l / 4)).
Proof.
  unfold calculate_consistency. destruct (length l <? 2)%nat eqn:E; [reflexivity|].
  apply Nat.ltb_ge in E.
  now rewrite variance_of_some by (destruct l; [simpl in E; lia | congruence]).
Qed.

Lemma power_balance_value (ma fa : Q) :
  (if Py.gt fa 0 then Py.div ma fa else Some 1)
  = Some (if Py.gt fa 0 then ma / fa else 1).
Proof.
  destruct (Py.gt fa 0) eqn:E; [|reflexivity].
  apply gt_true in E. apply div_some. intros H. rewrite H in E. now apply Qlt_irrefl in E.
Qed.

Lemma response_variance_value (l : list Z) :
  (if (1 <? length l)%nat then variance_of l else Some 0)
  = Some (if (1 <? length l)%nat then population_variance l else 0).
Proof.
  destruct (1 <? length l)%nat eqn:E; [|reflexivity].
  apply Nat.ltb_lt in E.
  now rewrite variance_of_some by (destruct l; [simpl in E; lia | congruence]).
Qed.

Lemma ratio_value (s : Q) (n : nat) (d : Q) :
  (if (0 <? n)%nat then Py.div s (inject_Z (Z.of_nat n)) else Some d)
  = Some (if (0 <? n)%nat then s / inject_Z (Z.of_nat n) else d).
Proof.
  destruct (0 <? n)%nat eqn:E; [|reflexivity].
  apply div_some, of_nat_nonzero. now apply Nat.ltb_lt.
Qed.

(** The dictionary the calculator returns, spelled out. *)
Lemma dynamics_dict (q m f : list Z) :
  let male := compared_male q m f in
  let female := compared_female q m f in
  let all := compared_all q m f in
  let n := total_questions_of male female in
  let st := compare_loop male female in
  let ma := if bool_decide (male <> []) then population_mean male else 3 in
  let fa := if bool_decide (female <> []) then population_mean female else 3 in
  calculate_personalized_features_flask q m f
  = Some (<["alignment_score" :=
              if (0 <? n)%nat then acc_alignment st / inject_Z (Z.of_nat n) else 0.5]>
         (<["conflict_ratio" :=
              if (0 <? n)%nat then acc_weighted_conflict st / inject_Z (Z.of_nat n) else 0]>
         (<["male_avg_response" := ma]>
         (<["female_avg_response" := fa]>
         (<["male_consistency" :=
              if (length male <? 2)%nat then 1
              else Qmax 0 (1 - population_variance male / 4)]>
         (<["female_consistency" :=
              if (length female <? 2)%nat then 1
              else Qmax 0 (1 - population_variance female / 4)]>
         (<["power_balance" := if Py.gt fa 0 then ma / fa else 1]>
         (<["response_variance" :=
              if (1 <? length all)%nat then population_variance all else 0]>
         (<["total_conflicts" := inject_Z (acc_conflict_count st)]> ∅))))))))).
Proof.
  cbv zeta.
  unfold calculate_personalized_features_flask, compared_male, compared_female, compared_all.
  destruct (split_responses q m f) as [[all male] female]. cbn [fst snd].
  rewrite !ratio_value. cbn [mbind option_bind].
  rewrite !partner_avg_value. cbn [mbind option_bind].
  rewrite !consistency_value. cbn [mbind option_bind].
  rewrite power_balance_value. cbn [mbind option_bind].
  rewrite response_variance_value. cbn [mbind option_bind].
  reflexivity.
Qed.

(** Reading one key of a dictionary literal. *)
Ltac read_key :=
  repeat (rewrite lookup_insert_ne by done); apply lookup_insert_eq.

(** X1.  The dictionary returned by the calculator has exactly the nine keys
    [alignment_score], [conflict_ratio], [male_avg_response],
    [female_avg_response], [male_consistency], [female_consistency],
    [power_balance], [response_variance] and [total_conflicts], for every
    input; so none of the defaults of [analyze] or of the rule-based generator
    is ever used on computed dynamics. *)
Theorem dynamics_keys_present (q m f : list Z) :
  exists d : gmap string Q,
    calculate_personalized_features_flask q m f = Some d /\
    dom d = dynamics_keys /\
    size d = 9%nat /\
    forall (k : string) (v v' : Q), k ∈ dynamics_keys -> Py.get k v d = Py.get k v' d.
Proof.
  pose proof (dynamics_dict q m f) as H. cbv zeta in H.
  assert (Hdom : forall a1 a2 a3 a4 a5 a6 a7 a8 a9 : Q,
    dom (<["alignment_score" := a1]> (<["conflict_ratio" := a2]>
         (<["male_avg_response" := a3]> (<["female_avg_response" := a4]>
         (<["male_consistency" := a5]> (<["female_consistency" := a6]>
         (<["power_balance" := a7]> (<["response_variance" := a8]>
         (<["total_conflicts" := a9]> (∅ : gmap string Q)))))))))) = dynamics_keys).
  { intros. rewrite !dom_insert_L, dom_empty_L. unfold dynamics_keys. set_solver. }
  match type of H with
  | _ = Some ?d => set (dd := d) in H; assert (Hd : dom dd = dynamics_keys) by apply Hdom
  end.
  clearbody dd. exists dd. split; [exact H|]. split; [exact Hd|]. split.
  - rewrite <- size_dom, Hd. reflexivity.
  - intros k v v' Hk. unfold Py.get.
    rewrite <- Hd in Hk. apply elem_of_dom in Hk as [x Hx]. rewrite Hx. reflexivity.
Qed.

(** ** Ranges of the dynamics on valid answers *)

Lemma sum_bounds_valid (l : list Z) :
  valid_responses l -> (2 * Z.of_nat (length l) <= Py.sum l <= 4 * Z.of_nat (length l))%Z.
Proof.
  induction 1 as [|r l Hr _ IH]; [simpl; lia|].
  cbn [Py.sum foldr length]. unfold Py.sum in IH.
  destruct Hr as [ -> | [ -> | -> ] ]; lia.
Qed.

Lemma mean_valid (l : list Z) :
  valid_responses l -> l <> [] -> 2 <= population_mean l <= 4.
Proof.
  intros Hv Hne. unfold population_mean, Py.len.
  assert (Hn : (0 < length l)%nat) by (destruct l; [congruence | simpl; lia]).
  destruct (sum_bounds_valid l Hv) as [H1 H2].
  apply mean_bounds; [assumption | |].
  - change 2 with (inject_Z 2). rewrite <- inject_Z_mult, <- Zle_Qle. lia.
  - change 4 with (inject_Z 4). rewrite <- inject_Z_mult, <- Zle_Qle. lia.
Qed.

Lemma partner_avg_valid (l : list Z) :
  valid_responses l ->
  2 <= (if bool_decide (l <> []) then population_mean l else 3) <= 4.
Proof.
  intros Hv. case_bool_decide; [now apply mean_valid | split; lra].
Qed.

Lemma sq_nonneg (t : Q) : 0 <= t ^ 2.
Proof. change (0 <= t * t). nra. Qed.

(** Sum of squared deviations around [a], re-centred at [c]. *)
Lemma sum_sq_shift (l : list Z) (a c : Q) :
  Py.fsum (map (fun r => (inject_Z r - a) ^ 2) l)
  == Py.fsum (map (fun r => (inject_Z r - c) ^ 2) l)
     - 2 * (a - c) * (inject_Z (Py.sum l) - Py.len l * c)
     + Py.len l * (a - c) ^ 2.
Proof.
  induction l as [|r l IH].
  - unfold Py.len. simpl. ring.
  - cbn [map Py.fsum foldr Py.sum]. unfold Py.fsum, Py.sum in IH. rewrite IH.
    unfold Py.len. cbn [length]. rewrite Nat2Z.inj_succ, <- Z.add_1_r, !inject_Z_plus.
    change (inject_Z 1) with 1. ring.
Qed.

Lemma variance_valid (l : list Z) : valid_responses l -> population_variance l <= 1.
Proof.
  intros Hv. destruct l as [|x l']; [vm_compute; discriminate|].
  set (l := x :: l') in *.
  assert (Hn : (0 < length l)%nat) by (simpl; lia).
  pose proof (of_nat_pos _ Hn) as Hpos. fold (Py.len l) in Hpos.
  unfold population_variance.
  apply Qle_shift_div_r; [exact Hpos|]. rewrite Qmult_1_l.
  rewrite (sum_sq_shift l (population_mean l) 3).
  assert (Hs : inject_Z (Py.sum l) == Py.len l * population_mean l).
  { unfold population_mean. field. intros E. rewrite E in Hpos. now apply Qlt_irrefl in Hpos. }
  rewrite Hs.
  destruct (fsum_bounds Z (fun r => (inject_Z r - 3) ^ 2) 0 1 l) as [_ Hub].
  { intros r Hr. apply (proj1 (List.Forall_forall _ _) Hv) in Hr.
    destruct Hr as [ -> | [ -> | -> ] ]; vm_compute; split; discriminate. }
  fold (Py.len l) in Hub.
  set (S3 := Py.fsum (map (fun r => (inject_Z r - 3) ^ 2) l)) in *.
  set (a := population_mean l) in *. set (n := Py.len l) in *.
  assert (Hsq : 0 <= n * (a - 3) ^ 2).
  { apply Qmult_le_0_compat; [lra | apply sq_nonneg]. }
  assert (E : S3 - 2 * (a - 3) * (n * a - n * 3) + n * (a - 3) ^ 2
              == S3 - n * (a - 3) ^ 2) by ring.
  rewrite E. lra.
Qed.

Lemma consistency_valid (l : list Z) :
  valid_responses l ->
  3 # 4 <= (if (length l <? 2)%nat then 1 else Qmax 0 (1 - population_variance l / 4)) <= 1.
Proof.
  intros Hv. destruct (length l <? 2)%nat; [split; lra|].
  pose proof (variance_valid l Hv) as H1. pose proof (variance_nonneg l) as H0.
  assert (Hq : population_variance l / 4 == population_variance l * (1 # 4)) by field.
  split.
  - eapply Qle_trans; [|apply Q.le_max_r]. lra.
  - apply Q.max_lub; lra.
Qed.

Lemma conflict_weight_range (x y : Z) : 0 <= conflict_weight x y <= 1.
Proof.
  unfold conflict_weight.
  destruct (2 <=? Z.abs (x - y))%Z; [split; lra|].
  destruct (Z.abs (x - y) =? 1)%Z; [|split; lra].
  destruct (_ || _); [split; lra|]. destruct (_ || _); split; lra.
Qed.

Lemma loop_conflict_total (male female : list Z) :
  acc_weighted_conflict (compare_loop male female)
  == Py.fsum (map (fun i => conflict_weight (nth i male 3%Z) (nth i female 3%Z))
                  (seq 0 (total_questions_of male female))).
Proof. unfold compare_loop. rewrite loop_weighted_conflict. simpl. lra. Qed.

Lemma conflict_ratio_range (male female : list Z) :
  let n := total_questions_of male female in
  0 <= (if (0 <? n)%nat
        then acc_weighted_conflict (compare_loop male female) / inject_Z (Z.of_nat n)
        else 0) <= 1.
Proof.
  intros n. destruct (0 <? n)%nat eqn:E; [|split; lra].
  apply Nat.ltb_lt in E. rewrite loop_conflict_total. fold n.
  destruct (fsum_bounds nat
              (fun i => conflict_weight (nth i male 3%Z) (nth i female 3%Z)) 0 1 (seq 0 n))
    as [H1 H2]; [intros i _; apply conflict_weight_range|].
  rewrite length_seq in H1, H2. now apply mean_bounds.
Qed.

Lemma alignment_range_valid (male female : list Z) :
  valid_responses male -> valid_responses female ->
  let n := total_questions_of male female in
  1 # 2 <= (if (0 <? n)%nat
            then acc_alignment (compare_loop male female) / inject_Z (Z.of_nat n)
            else 0.5) <= 1.
Proof.
  intros Hm Hf n. destruct (0 <? n)%nat eqn:E; [|split; lra].
  apply Nat.ltb_lt in E. rewrite loop_alignment_total. fold n.
  destruct (fsum_bounds _ (agreement_at male female) (1 # 2) 1 (seq 0 n)) as [H1 H2];
    [intros i _; now apply agreement_valid|].
  rewrite length_seq in H1, H2. now apply mean_bounds.
Qed.

Lemma power_balance_valid (ma fa : Q) :
  2 <= ma <= 4 -> 2 <= fa <= 4 ->
  1 # 2 <= (if Py.gt fa 0 then ma / fa else 1) <= 2.
Proof.
  intros [Ha1 Ha2] [Hf1 Hf2]. destruct (Py.gt fa 0); [|split; lra].
  split.
  - apply Qle_shift_div_l; [lra|]. lra.
  - apply Qle_shift_div_r; [lra|]. lra.
Qed.

Lemma compared_all_valid (q m f : list Z) :
  valid_responses q -> valid_responses m -> valid_responses f ->
  valid_responses (compared_all q m f).
Proof.
  intros Hq Hm Hf. unfold compared_all, split_responses.
  destruct (_ && _); [now apply Forall_app|].
  now destruct (2 <=? length q)%nat.
Qed.

(** X2.  On answers that are all 2, 3 or 4 the computed dynamics stay in
    narrow ranges: alignment in [[1/2, 1]], conflict ratio in [[0, 1]], both
    averages in [[2, 4]], both consistencies in [[3/4, 1]], power balance in
    [[1/2, 2]] and response variance in [[0, 1]]. *)
Theorem dynamics_ranges (q m f : list Z) :
  valid_responses q -> valid_responses m -> valid_responses f ->
  exists (d : gmap string Q) (a c ma fa mc fc pb rv : Q),
    calculate_personalized_features_flask q m f = Some d /\
    d !! "alignment_score" = Some a /\ 1 # 2 <= a <= 1 /\
    d !! "conflict_ratio" = Some c /\ 0 <= c <= 1 /\
    d !! "male_avg_response" = Some ma /\ 2 <= ma <= 4 /\
    d !! "female_avg_response" = Some fa /\ 2 <= fa <= 4 /\
    d !! "male_consistency" = Some mc /\ 3 # 4 <= mc <= 1 /\
    d !! "female_consistency" = Some fc /\ 3 # 4 <= fc <= 1 /\
    d !! "power_balance" = Some pb /\ 1 # 2 <= pb <= 2 /\
    d !! "response_variance" = Some rv /\ 0 <= rv <= 1.
Proof.
  intros Hq Hm Hf.
  destruct (split_valid q m f Hq Hm Hf) as [Hvm Hvf].
  pose proof (compared_all_valid q m f Hq Hm Hf) as Hva.
  pose proof (dynamics_dict q m f) as H. cbv zeta in H.
  eexists. do 8 eexists. split; [exact H|].
  split; [read_key|]. split; [now apply alignment_range_valid|].
  split; [read_key|]. split; [apply conflict_ratio_range|].
  split; [read_key|]. split; [now apply partner_avg_valid|].
  split; [read_key|]. split; [now apply partner_avg_valid|].
  split; [read_key|]. split; [now apply consistency_valid|].
  split; [read_key|]. split; [now apply consistency_valid|].
  split; [read_key|].
  split; [apply power_balance_valid; now apply partner_avg_valid|].
  split; [read_key|].
  destruct (1 <? length (compared_all q m f))%nat; [|split; lra].
  split; [apply variance_nonneg | now apply variance_valid].
Qed.

Lemma valid_432 : valid_responses [4; 3; 2]%Z.
Proof.
  unfold valid_responses, valid_response.
  repeat (apply List.Forall_cons; [lia|]). apply List.Forall_nil.
Qed.

(** The theorem at work on the answers [4; 3; 2] and [2; 3; 4]. *)
Lemma dynamics_ranges_witness :
  exists (d : gmap string Q) (a mc : Q),
    calculate_personalized_features_flask [] [4; 3; 2]%Z [2; 3; 4]%Z = Some d /\
    d !! "alignment_score" = Some a /\ 1 # 2 <= a <= 1 /\
    d !! "male_consistency" = Some mc /\ 3 # 4 <= mc <= 1.
Proof.
  assert (Hv : valid_responses [2; 3; 4]%Z).
  { unfold valid_responses, valid_response.
    repeat (apply List.Forall_cons; [lia|]). apply List.Forall_nil. }
  destruct (dynamics_ranges [] [4; 3; 2]%Z [2; 3; 4]%Z (List.Forall_nil _) valid_432 Hv)
    as (d & a & c & ma & fa & mc & fc & pb & rv & Hd & Ha & Ra & _ & _ & _ & _ & _ & _
        & Hmc & Rmc & _).
  exists d, a, mc. repeat split; assumption || apply Ra || apply Rmc.
Defined.

(** ** Conflict ratio and conflict count *)

Lemma conflict_weight_zero (x y : Z) : conflict_weight x y == 0 <-> x = y.
Proof.
  unfold conflict_weight. split.
  - destruct (2 <=? Z.abs (x - y))%Z eqn:E2; [intros H; exfalso; revert H; vm_compute; discriminate|].
    destruct (Z.abs (x - y) =? 1)%Z eqn:E1.
    + intros H. exfalso. revert H.
      destruct (_ || _); [vm_compute; discriminate|].
      destruct (_ || _); vm_compute; discriminate.
    + intros _. apply Z.leb_gt in E2. apply Z.eqb_neq in E1. lia.
  - intros ->. rewrite Z.sub_diag. reflexivity.
Qed.

Lemma conflict_weight_strong (x y : Z) :
  (2 <= Z.abs (x - y))%Z -> conflict_weight x y = 1.
Proof. intros H. unfold conflict_weight. now rewrite (proj2 (Z.leb_le _ _) H). Qed.

Lemma conflict_weight_sym (x y : Z) : conflict_weight x y = conflict_weight y x.
Proof.
  unfold conflict_weight.
  replace (Z.abs (y - x)) with (Z.abs (x - y)) by lia.
  destruct (2 <=? Z.abs (x - y))%Z; [reflexivity|].
  destruct (Z.abs (x - y) =? 1)%Z; [|reflexivity].
  destruct (x =? 3)%Z, (y =? 2)%Z, (x =? 2)%Z, (y =? 3)%Z, (x =? 4)%Z, (y =? 4)%Z;
    reflexivity.
Qed.

Lemma fsum_zero (A : Type) (g : A -> Q) (l : list A) :
  (forall x, In x l -> 0 <= g x) ->
  Py.fsum (map g l) == 0 -> forall x, In x l -> g x == 0.
Proof.
  induction l as [|y l IH]; intros Hpos Hs x Hx; [destruct Hx|].
  cbn [map Py.fsum foldr] in Hs.
  assert (H0 : 0 <= Py.fsum (map g l)).
  { apply fsum_nonneg, Forall_map, List.Forall_forall. intros z Hz. apply Hpos. now right. }
  unfold Py.fsum in H0.
  pose proof (Hpos y (or_introl eq_refl)) as Hy.
  destruct Hx as [<- | Hx]; [lra|].
  apply IH; [intros z Hz; apply Hpos; now right | unfold Py.fsum; lra | exact Hx].
Qed.

Lemma take_eq_nth (male female : list Z) (n : nat) :
  (n <= length male)%nat -> (n <= length female)%nat ->
  (take n male = take n female
   <-> forall i, (i < n)%nat -> nth i male 3%Z = nth i female 3%Z).
Proof.
  intros Hm Hf. split.
  - intros Hp i Hi. rewrite !nth_lookup.
    rewrite <- (lookup_take_lt male n i), <- (lookup_take_lt female n i) by assumption.
    now rewrite Hp.
  - intros H. apply list_eq. intros i.
    destruct (Nat.lt_ge_cases i n) as [Hi | Hi].
    + rewrite !lookup_take_lt by assumption.
      destruct (lookup_lt_is_Some_2 male i) as [x Hx]; [lia|].
      destruct (lookup_lt_is_Some_2 female i) as [y Hy]; [lia|].
      specialize (H i Hi). rewrite !nth_lookup, Hx, Hy in H. simpl in H.
      now rewrite Hx, Hy, H.
    + now rewrite !lookup_take_ge by assumption.
Qed.

(** X3.  The conflict ratio is the mean conflict weight over the compared
    indices (0 when none is compared); it lies in [[0, 1]] for every input,
    and it is 0 exactly when the compared prefixes are identical.  On answers
    that are 2, 3 or 4 the weight of a pair is 1 for 4 against 2, 0.6 for 3
    against 2, 0.4 for 4 against 3 and 0 for equal answers, in either
    order. *)
Theorem conflict_ratio_mean (q m f : list Z) :
  let male := compared_male q m f in
  let female := compared_female q m f in
  let n := total_questions_of male female in
  exists (d : gmap string Q) (c : Q),
    calculate_personalized_features_flask q m f = Some d /\
    d !! "conflict_ratio" = Some c /\
    0 <= c <= 1 /\
    ((0 < n)%nat -> c == mean_conflict_weight male female) /\
    (n = 0%nat -> c = 0) /\
    ((0 < n)%nat -> (c == 0 <-> take n male = take n female)) /\
    (forall a b : Z,
       valid_response a -> valid_response b ->
       conflict_weight a b
       = if (Z.abs (a - b) =? 2)%Z then 1
         else if (a =? b)%Z then 0
         else if (Z.min a b =? 2)%Z then 0.6 else 0.4).
Proof.
  intros male female n.
  pose proof (dynamics_dict q m f) as H. cbv zeta in H. fold male female n in H.
  eexists. eexists. split; [exact H|]. split; [read_key|].
  split; [apply conflict_ratio_range|].
  split; [|split; [|split]];
    [| | | intros a b [-> | [-> | ->]] [-> | [-> | ->]]; reflexivity].
  - intros Hn. rewrite (proj2 (Nat.ltb_lt 0 n) Hn), loop_conflict_total. reflexivity.
  - intros ->. reflexivity.
  - intros Hn. rewrite (proj2 (Nat.ltb_lt 0 n) Hn), loop_conflict_total. fold n.
    pose proof (of_nat_pos n Hn) as Hpos.
    rewrite (take_eq_nth male female n) by (unfold n, total_questions_of; lia).
    set (g := fun i => conflict_weight (nth i male 3%Z) (nth i female 3%Z)).
    split.
    + intros Hz i Hi. apply conflict_weight_zero.
      apply (fsum_zero nat g (seq 0 n)).
      * intros j _. apply conflict_weight_range.
      * assert (E : Py.fsum (map g (seq 0 n))
                    == Py.fsum (map g (seq 0 n)) / inject_Z (Z.of_nat n)
                       * inject_Z (Z.of_nat n)) by (field; lra).
        rewrite E, Hz. ring.
      * apply in_seq. lia.
    + intros Hall. rewrite (fsum_const nat g 0).
      * field. lra.
      * intros i Hi. apply in_seq in Hi. apply conflict_weight_zero. apply Hall. lia.
Qed.

(** The theorem at work: [4; 3] against [4; 3; 2] compares two equal pairs. *)
Lemma conflict_ratio_mean_witness :
  exists (d : gmap string Q) (c : Q),
    calculate_personalized_features_flask [] [4; 3]%Z [4; 3; 2]%Z = Some d /\
    d !! "conflict_ratio" = Some c /\ c == 0.
Proof.
  destruct (conflict_ratio_mean [] [4; 3]%Z [4; 3; 2]%Z)
    as (d & c & Hd & Hc & _ & _ & _ & Hz & _).
  exists d, c. split; [exact Hd|]. split; [exact Hc|].
  apply Hz; [vm_compute; lia | reflexivity].
Defined.

Lemma loop_conflict_count (m f : list Z) (l : list nat) (st : loop_state) :
  acc_conflict_count (fold_left (loop_body m f) l st)
  = (acc_conflict_count st
     + Z.of_nat (length (filter (fun i => (2 <= Z.abs (nth i m 3 - nth i f 3))%Z) l)))%Z.
Proof.
  revert st. induction l as [|i l IH]; intros st; [simpl; lia|].
  cbn [fold_left]. rewrite IH, filter_cons. unfold loop_body. cbn [acc_conflict_count].
  destruct (decide (2 <= Z.abs (nth i m 3 - nth i f 3))%Z) as [Hd | Hd].
  - rewrite (proj2 (Z.leb_le _ _) Hd). cbn [length]. lia.
  - rewrite (proj2 (Z.leb_gt _ _)) by lia. lia.
Qed.

Lemma strong_weight_sum (m f : list Z) (l : list nat) :
  inject_Z (Z.of_nat (length (filter (fun i => (2 <= Z.abs (nth i m 3 - nth i f 3))%Z) l)))
  <= Py.fsum (map (fun i => conflict_weight (nth i m 3%Z) (nth i f 3%Z)) l).
Proof.
  induction l as [|i l IH]; [vm_compute; discriminate|].
  rewrite filter_cons. cbn [map Py.fsum foldr]. unfold Py.fsum in IH.
  destruct (decide (2 <= Z.abs (nth i m 3 - nth i f 3))%Z) as [Hd | Hd].
  - rewrite (conflict_weight_strong _ _ Hd). cbn [length].
    rewrite Nat2Z.inj_succ, <- Z.add_1_r, inject_Z_plus. change (inject_Z 1) with 1. lra.
  - pose proof (conflict_weight_range (nth i m 3%Z) (nth i f 3%Z)). lra.
Qed.

(** X4.  [total_conflicts] counts the compared indices whose answers are at
    least two apart; it never exceeds the number of compared indices, and it
    is at most the weighted conflict sum (conflict ratio times the compared
    count). *)
Theorem total_conflicts_count (q m f : list Z) :
  let male := compared_male q m f in
  let female := compared_female q m f in
  let n := total_questions_of male female in
  exists (d : gmap string Q) (t c : Q),
    calculate_personalized_features_flask q m f = Some d /\
    d !! "total_conflicts" = Some t /\
    d !! "conflict_ratio" = Some c /\
    t = inject_Z (Z.of_nat (length (strong_conflicts male female))) /\
    (length (strong_conflicts male female) <= n)%nat /\
    t <= c * inject_Z (Z.of_nat n).
Proof.
  intros male female n.
  pose proof (dynamics_dict q m f) as H. cbv zeta in H. fold male female n in H.
  eexists. eexists. eexists. split; [exact H|]. split; [read_key|]. split; [read_key|].
  assert (Hc : acc_conflict_count (compare_loop male female)
               = Z.of_nat (length (strong_conflicts male female))).
  { unfold compare_loop. rewrite loop_conflict_count. reflexivity. }
  split; [now rewrite Hc|]. split.
  - unfold strong_conflicts. fold n.
    etransitivity; [apply length_filter|]. now rewrite length_seq.
  - rewrite Hc. destruct (0 <? n)%nat eqn:E.
    + apply Nat.ltb_lt in E. pose proof (of_nat_pos n E) as Hpos.
      rewrite loop_conflict_total. fold n.
      pose proof (strong_weight_sum male female (seq 0 n)) as Hs.
      fold n in Hs. unfold strong_conflicts. fold n.
      set (S := Py.fsum _) in *.
      assert (E' : S / inject_Z (Z.of_nat n) * inject_Z (Z.of_nat n) == S) by (field; lra).
      rewrite E'. exact Hs.
    + apply Nat.ltb_ge in E. assert (n = 0%nat) as Hn by lia.
      unfold strong_conflicts. fold n. rewrite Hn. vm_compute. discriminate.
Qed.

(** ** Symmetry between the partners *)

Lemma loop_body_swap (m f : list Z) (st : loop_state) (i : nat) :
  loop_body m f st i = loop_body f m st i.
Proof.
  unfold loop_body. rewrite (conflict_weight_sym (nth i m 3%Z) (nth i f 3%Z)).
  replace (Z.abs (nth i f 3 - nth i m 3))%Z with (Z.abs (nth i m 3 - nth i f 3))%Z by lia.
  reflexivity.
Qed.

Lemma compare_loop_swap (m f : list Z) : compare_loop m f = compare_loop f m.
Proof.
  unfold compare_loop, total_questions_of. rewrite (Nat.min_comm (length f)).
  generalize (seq 0 (length m `min` length f)) loop_init.
  induction l as [|i l IH]; intros st; [reflexivity|].
  cbn [fold_left]. now rewrite IH, loop_body_swap.
Qed.

Lemma split_swap (q m f : list Z) :
  (m <> [] /\ f <> [] /\
   split_responses q m f = (m ++ f, m, f) /\ split_responses q f m = (f ++ m, f, m))
  \/ ((m = [] \/ f = []) /\ split_responses q f m = split_responses q m f).
Proof.
  destruct m as [|x m], f as [|y f].
  - right. split; [now left | reflexivity].
  - right. split; [now left | reflexivity].
  - right. split; [now right | reflexivity].
  - left. split; [discriminate|]. split; [discriminate|]. split; reflexivity.
Qed.

(** X5.  Exchanging the two partner lists changes neither the alignment
    score, nor the conflict ratio, nor the conflict count; when both lists are
    given, the two averages and the two consistencies are exchanged. *)
Theorem dynamics_symmetric (q m f : list Z) :
  exists d d' : gmap string Q,
    calculate_personalized_features_flask q m f = Some d /\
    calculate_personalized_features_flask q f m = Some d' /\
    d !! "alignment_score" = d' !! "alignment_score" /\
    d !! "conflict_ratio" = d' !! "conflict_ratio" /\
    d !! "total_conflicts" = d' !! "total_conflicts" /\
    (m <> [] -> f <> [] ->
     d !! "male_avg_response" = d' !! "female_avg_response" /\
     d !! "female_avg_response" = d' !! "male_avg_response" /\
     d !! "male_consistency" = d' !! "female_consistency" /\
     d !! "female_consistency" = d' !! "male_consistency").
Proof.
  pose proof (dynamics_dict q m f) as H. pose proof (dynamics_dict q f m) as H'.
  cbv zeta in H, H'. unfold compared_male, compared_female, compared_all in H, H'.
  destruct (split_swap q m f) as [(Hm & Hf & E & E') | ([Hm | Hf] & E')].
  - rewrite E in H. rewrite E' in H'. cbn [fst snd] in H, H'.
    rewrite (compare_loop_swap f m) in H'.
    unfold total_questions_of in H'. rewrite (Nat.min_comm (length f)) in H'.
    fold (total_questions_of m f) in H'.
    eexists. eexists. split; [exact H|]. split; [exact H'|].
    split; [now rewrite !lookup_insert_eq|].
    split; [now rewrite !(lookup_insert_ne _ "alignment_score") by done|].
    split; [etransitivity; [read_key | symmetry; read_key]|].
    intros _ _.
    split; [etransitivity; [read_key | symmetry; read_key]|].
    split; [etransitivity; [read_key | symmetry; read_key]|].
    split; etransitivity; [read_key | symmetry; read_key | read_key | symmetry; read_key].
  - rewrite E' in H'. eexists. eexists.
    split; [exact H|]. split; [exact H'|].
    split; [reflexivity|]. split; [reflexivity|]. split; [reflexivity|].
    intros Hm' _. contradiction.
  - rewrite E' in H'. eexists. eexists.
    split; [exact H|]. split; [exact H'|].
    split; [reflexivity|]. split; [reflexivity|]. split; [reflexivity|].
    intros _ Hf'. contradiction.
Qed.

(** ** The fallback split of a combined questionnaire *)

(** X6.  When a partner list is missing, the combined questionnaire is what
    gets pooled; with two answers or more it is cut in the middle, the male
    part taking the first [len // 2] answers and the female part the rest, so
    that only [len // 2] pairs are compared; with fewer than two answers both
    partners get the whole list. *)
Theorem fallback_split (q m f : list Z) :
  m = [] \/ f = [] ->
  compared_all q m f = q /\
  ((2 <= length q)%nat ->
   compared_male q m f ++ compared_female q m f = q /\
   length (compared_male q m f) = (length q / 2)%nat /\
   length (compared_female q m f) = (length q - length q / 2)%nat /\
   total_questions_of (compared_male q m f) (compared_female q m f) = (length q / 2)%nat) /\
  ((length q < 2)%nat -> compared_male q m f = q /\ compared_female q m f = q).
Proof.
  intros Hmf. unfold compared_all, compared_male, compared_female, split_responses.
  assert (E : bool_decide (m <> []) && bool_decide (f <> [])
              && (0 <? length m)%nat && (0 <? length f)%nat = false).
  { destruct Hmf as [-> | ->]; [reflexivity|]. now rewrite !andb_false_r. }
  rewrite E. destruct (2 <=? length q)%nat eqn:E2; cbn [fst snd].
  - apply Nat.leb_le in E2. split; [reflexivity|]. split; [|lia]. intros _.
    pose proof (Nat.Div0.mul_div_le (length q) 2) as Hd.
    split; [apply take_drop|]. unfold total_questions_of.
    rewrite length_take, length_drop.
    generalize dependent (length q / 2)%nat. intros h Hd. lia.
  - apply Nat.leb_gt in E2. split; [reflexivity|]. split; [lia | now intros _].
Qed.

(** The theorem at work: five combined answers, no partner list. *)
Lemma fallback_split_witness :
  compared_male [2; 3; 4; 4; 2]%Z [] [] = [2; 3]%Z /\
  compared_female [2; 3; 4; 4; 2]%Z [] [] = [4; 4; 2]%Z /\
  total_questions_of (compared_male [2; 3; 4; 4; 2]%Z [] [])
                     (compared_female [2; 3; 4; 4; 2]%Z [] []) = 2%nat.
Proof.
  destruct (fallback_split [2; 3; 4; 4; 2]%Z [] [] (or_introl eq_refl)) as (_ & H & _).
  destruct H as (_ & _ & _ & Hn); [simpl; lia|].
  split; [reflexivity|]. split; [reflexivity | exact Hn].
Defined.

(** ** Messages that valid answers never produce *)

Lemma get_read (k : string) (v x : Q) (d : gmap string Q) :
  d !! k = Some x -> Py.get k v d = x.
Proof. intros H. unfold Py.get. now rewrite H. Qed.

Lemma alignment_block_calm (a : Q) :
  1 # 2 <= a -> Forall (fun r => alarming r = false) (alignment_block a).
Proof.
  intros H. unfold alignment_block. case_cmp; try lra;
    (apply List.Forall_cons; [reflexivity | apply List.Forall_nil]).
Qed.

Lemma male_consistency_block_calm (c : Q) :
  3 # 4 <= c -> Forall (fun r => alarming r = false) (male_consistency_block c).
Proof.
  intros H. unfold male_consistency_block. case_cmp; try lra;
    (apply List.Forall_cons; [reflexivity | apply List.Forall_nil]).
Qed.

Lemma female_consistency_block_calm (c : Q) :
  3 # 4 <= c -> Forall (fun r => alarming r = false) (female_consistency_block c).
Proof.
  intros H. unfold female_consistency_block. case_cmp; try lra;
    (apply List.Forall_cons; [reflexivity | apply List.Forall_nil]).
Qed.

Lemma variance_block_calm (v : Q) :
  v <= 1 -> Forall (fun r => alarming r = false) (variance_block v).
Proof.
  intros H. unfold variance_block. case_cmp; try lra;
    (apply List.Forall_cons; [reflexivity | apply List.Forall_nil]).
Qed.

(** The blocks that hold no alarming template at all. *)
Ltac calm_block :=
  repeat first
    [ apply List.Forall_nil
    | apply List.Forall_cons; [reflexivity|]
    | match goal with
      | |- context [if ?b then _ else _] => destruct b
      end ].

Lemma other_blocks_calm (o c pb a ma fa mr fr : Q) (risk : string)
  (focus : list focus_category) :
  Forall (fun r => alarming r = false) (optimism_block o) /\
  Forall (fun r => alarming r = false) (conflict_block c) /\
  Forall (fun r => alarming r = false) (power_block pb a ma fa) /\
  Forall (fun r => alarming r = false) (male_positivity_block mr) /\
  Forall (fun r => alarming r = false) (female_positivity_block fr) /\
  Forall (fun r => alarming r = false) (risk_block risk c) /\
  Forall (fun r => alarming r = false) (concat (map category_block focus)).
Proof.
  repeat split.
  - unfold optimism_block. calm_block.
  - unfold conflict_block. calm_block.
  - unfold power_block. calm_block.
  - unfold male_positivity_block. calm_block.
  - unfold female_positivity_block. calm_block.
  - unfold risk_block. calm_block.
  - induction focus as [|x focus IH]; [apply List.Forall_nil|].
    cbn [map concat]. apply Forall_app. split; [|exact IH].
    unfold category_block. calm_block.
Qed.

(** X7.  On dynamics computed from answers that are all 2, 3 or 4, the
    rule-based generator never emits the critical-alignment or
    significant-disagreement message, never calls a partner inconsistent or
    uncertain, and never reports complex or varied dynamics: alignment is at
    least 1/2, consistency at least 3/4 and variance at most 1. *)
Theorem valid_answers_never_alarm (q m f : list Z) (risk : string) (scores : list Q)
  (focus : list focus_category) :
  valid_responses q -> valid_responses m -> valid_responses f ->
  exists (d : gmap string Q) (recs : list recommendation),
    calculate_personalized_features_flask q m f = Some d /\
    rule_based_recommendations risk scores focus d m f = Some recs /\
    Forall (fun r => alarming r = false) recs.
Proof.
  intros Hq Hm Hf.
  destruct (split_valid q m f Hq Hm Hf) as [Hvm Hvf].
  pose proof (compared_all_valid q m f Hq Hm Hf) as Hva.
  pose proof (dynamics_dict q m f) as H. cbv zeta in H.
  match type of H with _ = Some ?dd => set (d := dd) in H end.
  assert (Ha : 1 # 2 <= Py.get "alignment_score" 0.5 d).
  { erewrite get_read; [|unfold d; read_key].
    now apply alignment_range_valid. }
  assert (Hmc : 3 # 4 <= Py.get "male_consistency" 0.5 d).
  { erewrite get_read; [|unfold d; read_key]. now apply consistency_valid. }
  assert (Hfc : 3 # 4 <= Py.get "female_consistency" 0.5 d).
  { erewrite get_read; [|unfold d; read_key]. now apply consistency_valid. }
  assert (Hrv : Py.get "response_variance" 0 d <= 1).
  { erewrite get_read; [|unfold d; read_key].
    destruct (1 <? length (compared_all q m f))%nat; [now apply variance_valid | lra]. }
  clearbody d. exists d.
  unfold rule_based_recommendations.
  destruct (positive_ratio_total (agree_count m) (length m)) as [mr ->].
  destruct (positive_ratio_total (agree_count f) (length m)) as [fr ->].
  cbn [mbind option_bind]. eexists. split; [exact H|]. split; [reflexivity|].
  destruct (other_blocks_calm
              ((mr + fr) / 2) (Py.get "conflict_ratio" 0 d)
              (Py.get "power_balance" 0 d) (Py.get "alignment_score" 0.5 d)
              (Py.get "male_avg_response" 3 d) (Py.get "female_avg_response" 3 d)
              mr fr risk focus) as (Ho & Hc & Hp & Hmp & Hfp & Hr & Hcat).
  rewrite !Forall_app.
  repeat split; try assumption.
  - now apply alignment_block_calm.
  - now apply male_consistency_block_calm.
  - now apply female_consistency_block_calm.
  - now apply variance_block_calm.
Qed.

(** The theorem at work on the opposed couple. *)
Lemma valid_answers_never_alarm_witness :
  exists (d : gmap string Q) (recs : list recommendation),
    calculate_personalized_features_flask [] [4; 4; 4; 4]%Z [2; 2; 2; 2]%Z = Some d /\
    rule_based_recommendations "High" [] sample_focus d [4; 4; 4; 4]%Z [2; 2; 2; 2]%Z
    = Some recs /\
    Forall (fun r => alarming r = false) recs.
Proof.
  apply (valid_answers_never_alarm [] [4; 4; 4; 4]%Z [2; 2; 2; 2]%Z "High" [] sample_focus);
    unfold valid_responses, valid_response;
    repeat (apply List.Forall_cons; [lia|]); apply List.Forall_nil.
Defined.

(** ** Synthetic couples: answers, ages, probabilities *)

Lemma clamp_response_valid (z : Z) : valid_response (Z.max 2 (Z.min 4 z)).
Proof. unfold valid_response. lia. Qed.

(** X8.  Whatever the real answers and the variation draws, the perturbed
    answers of patterned mode are all 2, 3 or 4, as many as the real answers;
    an answer already valid moves by at most the variation drawn for it, and
    not at all under a zero variation. *)
Theorem perturbed_answers_valid (base : list Z) (variation : nat -> Z) :
  valid_responses (perturb_responses base variation) /\
  length (perturb_responses base variation) = length base /\
  forall (j : nat) (b : Z),
    base !! j = Some b -> valid_response b ->
    exists b',
      perturb_responses base variation !! j = Some b' /\
      (Z.abs (b' - b) <= Z.abs (variation j))%Z /\
      (variation j = 0%Z -> b' = b).
Proof.
  unfold perturb_responses. split; [|split].
  - apply Forall_lookup. intros i x Hx. rewrite list_lookup_imap in Hx.
    destruct (base !! i) as [b|]; [|discriminate]. injection Hx as <-.
    apply clamp_response_valid.
  - apply length_imap.
  - intros j b Hb Hv. rewrite list_lookup_imap, Hb. cbn [fmap option_fmap option_map].
    eexists. split; [reflexivity|]. unfold valid_response in Hv.
    generalize (variation j). intros v. lia.
Qed.

(** X9.  In patterned mode both ages end in [[18, 80]], and the large-gap
    adjustment changes nothing: whatever the 90th percentile of the real
    gaps, the ages returned are the two clamped draws. *)
Theorem patterned_ages_clamped (male_draw female_draw : Z) (percentile_90 : Q) :
  patterned_ages male_draw female_draw percentile_90
  = (clamp_age male_draw, clamp_age female_draw) /\
  (18 <= (patterned_ages male_draw female_draw percentile_90).1 <= 80)%Z /\
  (18 <= (patterned_ages male_draw female_draw percentile_90).2 <= 80)%Z.
Proof.
  assert (E : patterned_ages male_draw female_draw percentile_90
              = (clamp_age male_draw, clamp_age female_draw)).
  { unfold patterned_ages.
    destruct (Py.gt _ _); [|reflexivity].
    destruct (clamp_age female_draw <? clamp_age male_draw)%Z eqn:El.
    - apply Z.ltb_lt in El. f_equal. unfold clamp_age in *. lia.
    - apply Z.ltb_ge in El. f_equal. unfold clamp_age in *. lia. }
  rewrite E. cbn [fst snd]. split; [reflexivity|]. unfold clamp_age. lia.
Qed.

(** X10.  The three probabilities handed to the multinomial draw of generic
    mode always form a distribution: disagree in [[0.05, 0.8]], agree in
    [[0.1, 0.8]], neutral at least 0.05, and the three sum to 1, for every
    risk bias, ages, levels, civil status and years together. *)
Theorem response_probabilities_valid (risk_bias : string)
  (male_age female_age education_level income_level : Z)
  (civil_status : string) (years_living_together : Z) :
  let '(disagree, neutral, agree) :=
    response_probabilities risk_bias male_age female_age education_level income_level
      civil_status years_living_together in
  0.05 <= disagree <= 0.8 /\ 0.05 <= neutral /\ 0.1 <= agree <= 0.8 /\
  disagree + neutral + agree == 1.
Proof.
  unfold response_probabilities.
  destruct (String.eqb risk_bias "high"); [|destruct (String.eqb risk_bias "low")];
    (destruct (10 <? Z.abs (male_age - female_age))%Z;
       [|destruct (5 <? Z.abs (male_age - female_age))%Z]);
    destruct (2 <? Z.abs (education_level - income_level))%Z;
    (destruct (bool_decide (civil_status ∈ ["Separated"; "Divorced"]));
       [|destruct (String.eqb civil_status "Living In" && (10 <? years_living_together)%Z)]);
    vm_compute; repeat split; discriminate.
Qed.

(** ** Category scores *)

Lemma py_index_in_range {A} (l : list A) (qid : Z) :
  (1 <= qid <= Z.of_nat (length l))%Z -> is_Some (py_index l (qid - 1)).
Proof.
  intros H. unfold py_index. rewrite (proj2 (Z.leb_le 0 (qid - 1))) by lia.
  apply lookup_lt_is_Some. lia.
Qed.

Lemma disagree_count_bounds (l : list Z) :
  (0 <= disagree_count l <= Z.of_nat (length l))%Z.
Proof.
  rewrite disagree_count_occ. pose proof (count_occ_bound Z.eq_dec 2%Z l). lia.
Qed.

Lemma category_score_range (mapping_items : list (Z * Z)) (responses : list Z)
  (category_id : Z) :
  Forall (fun item => (1 <= item.1)%Z) mapping_items ->
  exists s, category_score mapping_items responses category_id = Some s /\ 0 <= s <= 1.
Proof.
  intros Hids. unfold category_score.
  case_bool_decide; [exists 0.5; split; [reflexivity | split; lra]|].
  set (ids := filter _ (map fst _)).
  assert (Hm : is_Some (mapM (fun qid => py_index responses (qid - 1)) ids)).
  { apply mapM_is_Some, Forall_forall. intros qid Hq.
    apply list_elem_of_filter in Hq as [Hle Hq].
    apply list_elem_of_fmap in Hq as [[qid' cid] [-> Hq]].
    apply list_elem_of_filter in Hq as [_ Hq].
    apply (proj1 (Forall_forall _ _) Hids) in Hq. cbn in *.
    apply py_index_in_range. lia. }
  destruct Hm as [rs ->]. cbn [mbind option_bind].
  case_bool_decide as Hne; [exists 0.5; split; [reflexivity | split; lra]|].
  rewrite div_some by now apply len_nonzero. cbn [mbind option_bind].
  eexists. split; [reflexivity|].
  destruct (disagree_count_bounds rs) as [H0 H1].
  assert (Hpos : 0 < Py.len rs).
  { apply of_nat_pos. destruct rs; [congruence | simpl; lia]. }
  assert (Hr : 0 <= inject_Z (disagree_count rs) / Py.len rs).
  { apply Qle_shift_div_l; [exact Hpos|]. rewrite Qmult_0_l.
    change 0 with (inject_Z 0). now rewrite <- Zle_Qle. }
  split; [apply Q.min_glb; lra | apply Q.le_min_l].
Qed.

(** X11.  When every mapped question id is at least 1, the category scores of
    a row are computed without raising: one score per category, each in
    [[0, 1]], and 0.5 for a category that no question is mapped to. *)
Theorem category_scores_range (cats : list string) (mapping_items : list (Z * Z))
  (responses : list Z) :
  Forall (fun item => (1 <= item.1)%Z) mapping_items ->
  exists scores,
    category_scores cats mapping_items responses = Some scores /\
    length scores = length cats /\
    Forall (fun s => 0 <= s <= 1) scores /\
    forall i : nat,
      (i < length cats)%nat ->
      Forall (fun item => item.2 <> Z.of_nat (S i)) mapping_items ->
      scores !! i = Some 0.5.
Proof.
  intros Hids. unfold category_scores.
  set (ids := map Z.of_nat (seq 1 (length cats))).
  assert (Hs : is_Some (mapM (category_score mapping_items responses) ids)).
  { apply mapM_is_Some, Forall_forall. intros c _.
    destruct (category_score_range mapping_items responses c Hids) as (s & Hs & _).
    now exists s. }
  destruct Hs as [scores Hs]. exists scores. split; [exact Hs|].
  apply mapM_Some in Hs.
  assert (Hlen : length scores = length cats).
  { apply Forall2_length in Hs. unfold ids in Hs.
    now rewrite length_map, length_seq in Hs. }
  split; [exact Hlen|]. split.
  - apply Forall_lookup. intros i s Hi.
    destruct (Forall2_lookup_r _ _ _ _ _ Hs Hi) as (c & _ & Hc).
    destruct (category_score_range mapping_items responses c Hids) as (s' & Hs' & Hr).
    rewrite Hs' in Hc. now injection Hc as <-.
  - intros i Hi Hnone.
    assert (Hc : ids !! i = Some (Z.of_nat (S i))).
    { unfold ids. rewrite list_lookup_fmap, lookup_seq_lt by assumption. reflexivity. }
    destruct (Forall2_lookup_l _ _ _ _ _ Hs Hc) as (s & Hsi & Hcs).
    rewrite Hsi. f_equal. unfold category_score in Hcs.
    rewrite bool_decide_eq_true_2 in Hcs; [now injection Hcs as <-|].
    assert (E : filter (fun item : Z * Z => item.2 = Z.of_nat (S i)) mapping_items = []).
    { clear -Hnone. induction Hnone as [|x l Hx _ IH]; [reflexivity|].
      rewrite filter_cons. now destruct (decide (x.2 = Z.of_nat (S i))). }
    now rewrite E.
Qed.

(** The theorem at work: four questions, three categories, the third one
    without questions. *)
Lemma category_scores_range_witness :
  exists scores,
    category_scores ["A"; "B"; "C"] [(1, 1); (2, 1); (3, 2); (4, 2)]%Z [2; 2; 3; 4]%Z
    = Some scores /\
    length scores = 3%nat /\
    scores !! 2%nat = Some 0.5.
Proof.
  destruct (category_scores_range ["A"; "B"; "C"] [(1, 1); (2, 1); (3, 2); (4, 2)]%Z
              [2; 2; 3; 4]%Z) as (scores & Hs & Hl & _ & Hd).
  { repeat (apply List.Forall_cons; [cbn; lia|]). apply List.Forall_nil. }
  exists scores. split; [exact Hs|]. split; [exact Hl|].
  apply Hd; [cbn; lia|].
  repeat (apply List.Forall_cons; [cbn; lia|]). apply List.Forall_nil.
Defined.

(** ** Padding and truncation to the catalogue size *)

(** X12.  Padding and truncation give exactly the catalogue size: the first
    [N] given answers, followed by neutral answers (3) when fewer than [N]
    were given.  Valid answers stay valid, and doing it twice changes
    nothing. *)
Theorem pad_or_truncate_shape (N : nat) (l : list Z) :
  pad_or_truncate N l = take N l ++ replicate (N - length l) 3%Z /\
  length (pad_or_truncate N l) = N /\
  (valid_responses l -> valid_responses (pad_or_truncate N l)) /\
  pad_or_truncate N (pad_or_truncate N l) = pad_or_truncate N l.
Proof.
  assert (E : pad_or_truncate N l = take N l ++ replicate (N - length l) 3%Z).
  { unfold pad_or_truncate. rewrite take_app, take_replicate. f_equal. f_equal. lia. }
  assert (L : length (pad_or_truncate N l) = N).
  { rewrite E, length_app, length_take, length_replicate. lia. }
  split; [exact E|]. split; [exact L|]. split.
  - intros Hv. rewrite E. apply Forall_app. split; [now apply Forall_take|].
    apply Forall_replicate. right; now left.
  - unfold pad_or_truncate at 1. rewrite L, Nat.sub_diag. cbn [replicate].
    rewrite app_nil_r. apply take_ge. lia.
Qed.

(** ** Rows built from real couples *)

Lemma encode_response_valid (response : string) : valid_response (encode_response response).
Proof.
  unfold encode_response, valid_response.
  destruct (String.eqb response "agree"); [now right; right|].
  destruct (String.eqb response "neutral"); [right; now left | now left].
Qed.

Lemma padded_encoded_valid (N : nat) (responses : list string) :
  valid_responses (pad_or_truncate N (map encode_response responses)).
Proof.
  unfold pad_or_truncate. apply Forall_take, Forall_app. split.
  - apply Forall_map, Forall_forall. intros r _. apply encode_response_valid.
  - apply Forall_replicate. right; now left.
Qed.

(** X13.  A couple with fewer than 50 recorded answers gives no training row.
    With 50 answers or more and a catalogue of [N > 0] questions the row holds
    exactly [N] answers, all of them 2, 3 or 4, labelled High above a
    disagreement fraction of 0.3, Medium in (0.15, 0.3], Low otherwise; with
    an empty catalogue the loop body raises (division by zero). *)
Theorem real_couple_rows (N : nat) (columns : couple_columns) (responses : list string) :
  ((length responses < 50)%nat -> real_couple_row N columns responses = Some Skipped) /\
  ((50 <= length responses)%nat -> N = 0%nat -> real_couple_row N columns responses = None) /\
  ((50 <= length responses)%nat -> (0 < N)%nat ->
   exists row,
     real_couple_row N columns responses = Some (Row row) /\
     length (row_questionnaire_responses row) = N /\
     valid_responses (row_questionnaire_responses row) /\
     label_by_thresholds 0.3 (disagree_fraction (row_questionnaire_responses row))
       (row_risk_level row)).
Proof.
  unfold real_couple_row. split; [|split].
  - intros H. now rewrite (proj2 (Nat.ltb_lt _ _) H).
  - intros H ->. rewrite (proj2 (Nat.ltb_ge _ _) H). reflexivity.
  - intros H HN. rewrite (proj2 (Nat.ltb_ge _ _) H).
    set (qs := pad_or_truncate N (map encode_response responses)).
    assert (Hl : length qs = N) by apply pad_or_truncate_length.
    assert (Hne : qs <> []) by (intros E; rewrite E in Hl; simpl in Hl; lia).
    unfold real_risk_level. rewrite (disagree_ratio_some qs Hne). cbn [mbind option_bind].
    eexists. split; [reflexivity|]. cbn [row_questionnaire_responses row_risk_level].
    split; [exact Hl|]. split; [apply padded_encoded_valid|].
    apply label_thresholds. lra.
Qed.

(** The theorem at work: one disagreement among fifty answers, two questions
    in the catalogue. *)
Lemma real_couple_rows_witness :
  real_couple_row 2 no_columns ["agree"; "neutral"] = Some Skipped /\
  real_couple_row 0 no_columns fifty_answers = None /\
  exists row,
    real_couple_row 2 no_columns fifty_answers = Some (Row row) /\
    length (row_questionnaire_responses row) = 2%nat.
Proof.
  destruct (real_couple_rows 2 no_columns ["agree"; "neutral"]) as (H1 & _ & _).
  destruct (real_couple_rows 0 no_columns fifty_answers) as (_ & H2 & _).
  destruct (real_couple_rows 2 no_columns fifty_answers) as (_ & _ & H3).
  split; [apply H1; simpl; lia|].
  split; [apply H2; [simpl; lia | reflexivity]|].
  destruct H3 as (row & Hr & Hl & _); [simpl; lia | lia |].
  exists row. split; [exact Hr | exact Hl].
Defined.

(** ** Training and inference agree on the vector length *)

Lemma catalog_size_nonempty (mapping : gmap nat nat) :
  (0 < size mapping)%nat -> catalog_size mapping = size mapping.
Proof.
  intros H. unfold catalog_size. rewrite bool_decide_eq_true_2; [reflexivity|].
  intros ->. rewrite map_size_empty in H. lia.
Qed.

Lemma catalog_size_pos (mapping : gmap nat nat) : (0 < catalog_size mapping)%nat.
Proof.
  unfold catalog_size. case_bool_decide as H; [|lia].
  destruct (Nat.eq_dec (size mapping) 0%nat) as [E | E]; [|lia].
  apply map_size_empty_iff in E. contradiction.
Qed.

(** X14.  Training and inference build vectors of the same length, the
    catalogue size (31 when no question is mapped) plus 14: in generic mode
    for answers drawn in catalogue number, in patterned mode for a couple
    patterned on a real couple's row, and in [analyze] for a request that
    sends no answers. *)
Theorem training_matches_inference (mapping : gmap nat nat) (columns : couple_columns)
  (responses : list string) (base : couple_row) (profile : couple_profile)
  (variation : nat -> Z) (drawn : synthetic_features) (generic_answers : list Z)
  (data : request) :
  (length generic_answers = catalog_size mapping ->
   exists row,
     generic_couple profile generic_answers = Some row /\
     length (train_features row drawn) = (catalog_size mapping + 14)%nat) /\
  (real_couple_row (size mapping) columns responses = Some (Row base) ->
   exists row,
     patterned_couple profile (row_questionnaire_responses base) variation = Some row /\
     length (train_features row drawn) = (catalog_size mapping + 14)%nat) /\
  (req_questionnaire_responses data = None ->
   exists features p pf male female,
     request_features mapping data = Some (features, p, pf, male, female) /\
     length features = (catalog_size mapping + 14)%nat).
Proof.
  split; [|split].
  - intros Hg.
    assert (Hgne : generic_answers <> []).
    { intros E. rewrite E in Hg. simpl in Hg. pose proof (catalog_size_pos mapping). lia. }
    unfold generic_couple, generic_risk_level.
    rewrite (disagree_ratio_some _ Hgne). cbn [mbind option_bind].
    eexists. split; [reflexivity|].
    rewrite train_features_length. cbn [row_questionnaire_responses]. now rewrite Hg.
  - intros Hbase.
    assert (HN : (0 < size mapping)%nat).
    { destruct (Nat.eq_dec (size mapping) 0%nat) as [E | E]; [|lia].
      unfold real_couple_row in Hbase. rewrite E in Hbase.
      destruct (length responses <? 50)%nat; [discriminate|].
      unfold real_risk_level, disagree_ratio, pad_or_truncate in Hbase.
      cbn [take] in Hbase. rewrite div_none in Hbase by reflexivity. discriminate. }
    assert (Hb : length (row_questionnaire_responses base) = size mapping).
    { unfold real_couple_row in Hbase.
      destruct (length responses <? 50)%nat; [discriminate|].
      destruct (real_risk_level _); [|discriminate].
      injection Hbase as <-. apply pad_or_truncate_length. }
    assert (Hne : row_questionnaire_responses base <> []).
    { intros E. rewrite E in Hb. simpl in Hb. lia. }
    unfold patterned_couple, patterned_risk_level.
    rewrite (disagree_ratio_some _ (perturb_nonempty _ variation Hne)).
    cbn [mbind option_bind]. eexists. split; [reflexivity|].
    rewrite train_features_length. cbn [row_questionnaire_responses].
    now rewrite perturb_length, Hb, (catalog_size_nonempty mapping HN).
  - apply request_features_default_length.
Qed.

(** The theorem at work: a catalogue of two questions, a real couple with
    fifty answers. *)
Lemma training_matches_inference_witness :
  exists row,
    real_couple_row 2 no_columns fifty_answers = Some (Row fifty_answers_row) /\
    patterned_couple sample_profile (row_questionnaire_responses fifty_answers_row)
      (fun _ => 0%Z) = Some row /\
    length (train_features row
              {| syn_alignment_score := 0.5; syn_conflict_ratio := 0.2;
                 syn_male_avg_response := 3; syn_female_avg_response := 3;
                 syn_male_consistency := 0.5; syn_female_consistency := 0.5;
                 syn_power_balance := 1; syn_response_variance := 1 |}) = 16%nat.
Proof.
  destruct (training_matches_inference two_questions no_columns fifty_answers
              fifty_answers_row sample_profile (fun _ => 0%Z)
              {| syn_alignment_score := 0.5; syn_conflict_ratio := 0.2;
                 syn_male_avg_response := 3; syn_female_avg_response := 3;
                 syn_male_consistency := 0.5; syn_female_consistency := 0.5;
                 syn_power_balance := 1; syn_response_variance := 1 |} [] empty_request)
    as (_ & H & _).
  destruct H as (row & Hr & Hl); [vm_compute; reflexivity|].
  exists row. split; [vm_compute; reflexivity|]. split; [exact Hr | exact Hl].
Defined.

(** ** Risk labels from training to inference *)

Lemma label_is_known (high ratio : Q) :
  (if Py.gt ratio high then "High" else if Py.gt ratio 0.15 then "Medium" else "Low")%string
  ∈ risk_levels.
Proof.
  unfold risk_levels. destruct (Py.gt ratio high); [set_solver|].
  destruct (Py.gt ratio 0.15); set_solver.
Qed.

Lemma known_label_round_trip (label : string) :
  label ∈ risk_levels ->
  exists idx, risk_mapping label = Some idx /\ risk_levels !! idx = Some label.
Proof.
  unfold risk_levels. intros H.
  repeat (apply elem_of_cons in H; destruct H as [-> | H]);
    [exists 0%nat | exists 1%nat | exists 2%nat | now apply elem_of_nil in H];
    split; reflexivity.
Qed.

(** X15.  Every label the generators and the real-couple loader produce is
    one of Low, Medium, High, so [risk_mapping] never raises on it, and the
    class index it gives decodes back to the same label through the
    [risk_levels] list of [analyze]; conversely each index of that list
    encodes back to itself. *)
Theorem risk_label_round_trip (responses : list Z) (label : string) :
  generic_risk_level responses = Some label \/
  patterned_risk_level responses = Some label \/
  real_risk_level responses = Some label ->
  (exists idx, risk_mapping label = Some idx /\ risk_levels !! idx = Some label) /\
  (forall idx label', risk_levels !! idx = Some label' -> risk_mapping label' = Some idx).
Proof.
  intros H. split.
  - apply known_label_round_trip.
    unfold generic_risk_level, patterned_risk_level, real_risk_level in H.
    destruct (disagree_ratio responses) as [r|]; cbn [mbind option_bind] in H;
      [|destruct H as [H | [H | H]]; discriminate].
    destruct H as [H | [H | H]]; injection H as <-; apply label_is_known.
  - intros [|[|[|idx]]] label' Hl; cbn in Hl; try discriminate;
      injection Hl as <-; reflexivity.
Qed.

(** The theorem at work on a couple with one disagreement in three answers. *)
Lemma risk_label_round_trip_witness :
  exists idx, risk_mapping "Medium" = Some idx /\ risk_levels !! idx = Some "Medium".
Proof.
  destruct (risk_label_round_trip [2; 3; 4]%Z "Medium") as [H _].
  - left. vm_compute. reflexivity.
  - exact H.
Defined.

(** ** The descending stable sort *)

Lemma insert_desc_perm {A} (key : A -> Q) (x : A) (l : list A) :
  insert_desc key x l ≡ₚ x :: l.
Proof.
  induction l as [|y l IH]; [reflexivity|]. cbn [insert_desc].
  destruct (Py.le (key y) (key x)); [reflexivity|].
  rewrite IH. apply Permutation_swap.
Qed.

Lemma insert_desc_sorted {A} (key : A -> Q) (x : A) (l : list A) :
  descending key l -> descending key (insert_desc key x l).
Proof.
  unfold descending. induction 1 as [|y l Hs IH Hy]; cbn [insert_desc].
  - repeat constructor.
  - destruct (Py.le (key y) (key x)) eqn:E.
    + apply le_true in E. constructor; [now constructor|].
      constructor; [exact E|].
      eapply Forall_impl; [exact Hy|]. cbn. intros z Hz. now apply Qle_trans with (key y).
    + apply le_false in E. constructor; [exact IH|].
      rewrite (insert_desc_perm key x l). constructor; [now apply Qlt_le_weak | exact Hy].
Qed.

Lemma insert_desc_stable {A} (key : A -> Q) (v : Q) (x : A) (l : list A) :
  filter (fun y => key y == v) (insert_desc key x l)
  = filter (fun y => key y == v) (x :: l).
Proof.
  induction l as [|y l IH]; [reflexivity|]. cbn [insert_desc].
  destruct (Py.le (key y) (key x)) eqn:E; [reflexivity|].
  apply le_false in E.
  rewrite (filter_cons _ y), IH, !(filter_cons _ x), (filter_cons _ y).
  destruct (decide (key x == v)) as [Hx | Hx]; [|reflexivity].
  destruct (decide (key y == v)) as [Hy | Hy]; [|reflexivity].
  exfalso. rewrite Hx, Hy in E. now apply Qlt_irrefl in E.
Qed.

(** X16.  [sorted(..., reverse=True)] as the service uses it on scored lists:
    the result holds the same entries, in descending order of score, and
    entries of equal score keep the order they had. *)
Theorem sorted_desc_stable {A} (key : A -> Q) (l : list A) :
  sorted_desc key l ≡ₚ l /\
  descending key (sorted_desc key l) /\
  forall v : Q,
    filter (fun y => key y == v) (sorted_desc key l) = filter (fun y => key y == v) l.
Proof.
  unfold sorted_desc. induction l as [|x l (IHp & IHs & IHf)].
  - split; [reflexivity|]. split; [constructor | reflexivity].
  - cbn [foldr]. split; [|split].
    + now rewrite insert_desc_perm, IHp.
    + now apply insert_desc_sorted.
    + intros v. rewrite insert_desc_stable, !(filter_cons _ x), IHf. reflexivity.
Qed.

(** ** Shape of the ML recommendations *)

Lemma sorted_desc_perm {A} (key : A -> Q) (l : list A) : sorted_desc key l ≡ₚ l.
Proof.
  unfold sorted_desc. induction l as [|x l IH]; [reflexivity|].
  cbn [foldr]. now rewrite insert_desc_perm, IH.
Qed.

Lemma ml_step_focus (has_children : bool) (n : Z) (category : string) (score : Q) :
  map (fun c => (fc_name c, fc_score c)) (ml_category_step has_children n category score).1
  = if decide (0.2 < score) then [(category, score)] else [].
Proof.
  unfold ml_category_step, narrative_priority.
  destruct (Py.gt score 0.2) eqn:E.
  - apply gt_true in E. destruct (decide (0.2 < score)); [reflexivity | contradiction].
  - apply gt_false in E. destruct (decide (0.2 < score)) as [H|]; [|reflexivity].
    exfalso. exact (Qlt_not_le _ _ H E).
Qed.

(** X17.  [generate_ml_recommendations] always puts the risk headline first
    and keeps between 1 and 8 recommendations; its focus categories are
    exactly the categories scoring above 0.2, in descending order of score;
    and its prediction confidence is undefined exactly when there is no
    scored category. *)
Theorem ml_recommendations_shape (cats : list string) (p : couple_profile)
  (risk : string) (scores : list Q) :
  let r := generate_ml_recommendations cats p risk scores in
  head (ml_recs r) = Some (ml_risk_headline risk) /\
  (1 <= length (ml_recs r) <= 8)%nat /\
  map (fun c => (fc_name c, fc_score c)) (ml_focus_categories r)
  = filter (fun cs => 0.2 < cs.2) (sorted_desc snd (zip cats scores)) /\
  (ml_prediction_confidence r = None <-> zip cats scores = []).
Proof.
  cbv zeta. unfold generate_ml_recommendations.
  cbn [ml_recs ml_focus_categories ml_prediction_confidence].
  set (l := sorted_desc snd (zip cats scores)).
  split; [reflexivity|]. split; [|split].
  - rewrite length_take, !length_app. cbn [length]. lia.
  - induction l as [|[category score] l IH]; [reflexivity|].
    cbn [map concat]. rewrite map_app, IH, ml_step_focus, filter_cons. cbn [snd].
    now destruct (decide (0.2 < score)).
  - assert (Hl : l = [] <-> zip cats scores = []).
    { unfold l. split; intros E.
      - apply Permutation_nil_r. rewrite <- E. symmetry. apply sorted_desc_perm.
      - rewrite E. reflexivity. }
    rewrite <- Hl. destruct l as [|x l']; [split; reflexivity|].
    split; [|discriminate]. intros E. exfalso. revert E.
    rewrite div_some; [discriminate|].
    apply len_nonzero. destruct l' as [|y [|z l'']]; discriminate.
Qed.

(** ** A served request *)

Lemma personalized_recommendations_total (nlg : nlg_args -> nlg_outcome) (risk : string)
  (scores : list Q) (focus : list focus_category) (pf : gmap string Q) (m f : list Z)
  (profile : option couple_profile) :
  is_Some (generate_personalized_recommendations nlg risk scores focus pf m f profile).
Proof.
  unfold generate_personalized_recommendations.
  destruct (rule_based_length risk scores focus pf m f) as (recs & H & _).
  destruct (nlg _); [| |by eexists];
    rewrite (rule_based_rendered _ _ _ _ _ _ _ H); by eexists.
Qed.

Lemma clip01_range (x : Q) : 0 <= clip01 x <= 1.
Proof.
  unfold clip01. split; [|apply Q.le_min_r].
  apply Q.min_glb; [apply Q.le_max_r | lra].
Qed.

Lemma display_focus_length (cats : list string) (scores : list Q) :
  length (display_focus_categories cats scores) = Nat.min (length cats) (length scores).
Proof. unfold display_focus_categories. now rewrite length_map, length_zip_with. Qed.

(** X18.  With both models loaded and answering (a class index below 3, a
    non-empty probability vector, a score vector), [analyze] succeeds whatever
    the narrative engine does: the four collaborators are called in order, the
    risk level is Low, Medium or High, the confidence and every category score
    lie in [[0, 1]], the focus categories come in descending order of score,
    and recommendations are present. *)
Theorem analyze_success (cats : list string) (mapping : gmap nat nat)
  (models : ml_models_t) (nlg : nlg_args -> nlg_outcome) (now : string) (data : request)
  (rm : risk_model_t) (cm : category_model_t) :
  risk_model models = Some rm ->
  category_model models = Some cm ->
  (forall x, exists idx, predict rm x = inr idx /\ (idx < 3)%nat) ->
  (forall x, exists probs, predict_proba rm x = inr probs /\ probs <> []) ->
  (forall x, exists scores, category_predict cm x = inr scores) ->
  let log := (analyze cats mapping models nlg now data).1 in
  let body := (analyze cats mapping models nlg now data).2 in
  log = [RiskPredict; RiskPredictProba; CategoryPredict; GenerateRecommendations] /\
  body !! "status" = Some (JStr "success") /\
  (exists label, label ∈ risk_levels /\ body !! "risk_level" = Some (JStr label)) /\
  (exists c, body !! "ml_confidence" = Some (JNum c) /\ 0 <= c <= 1) /\
  (exists cs fcs,
      body !! "category_scores" = Some (JArr (map JNum cs)) /\
      Forall (fun s => 0 <= s <= 1) cs /\
      body !! "focus_categories" = Some (JArr (map json_of_focus_category fcs)) /\
      descending fc_score fcs /\
      length fcs = Nat.min (length cats) (length cs)) /\
  (exists recs, body !! "recommendations" = Some (JArr (map JStr recs))).
Proof.
  intros Hrm Hcm Hp Hpp Hcp. cbv zeta. unfold analyze, analyze_try.
  unfold mbind, run_bind, Run.bind, Run.try, Run.call, Run.ret.
  destruct (request_features_total mapping data)
    as [[[[[features profile] pf] male] female] ->].
  rewrite Hrm, Hcm.
  destruct (Hp features) as (idx & -> & Hidx).
  assert (Hl : exists label, ["Low"; "Medium"; "High"] !! idx = Some label
                             /\ label ∈ risk_levels).
  { unfold risk_levels. destruct idx as [|[|[|idx]]]; [| | |lia];
      eexists; (split; [reflexivity | set_solver]). }
  destruct Hl as (label & -> & Hlabel).
  destruct (Hpp features) as (probs & -> & Hprobs).
  destruct probs as [|pr probs]; [congruence|]. cbn [np_max fmap option_fmap option_map].
  destruct (Hcp features) as (scores & ->).
  set (cs := map clip01 scores).
  destruct (personalized_recommendations_total nlg label cs
              (display_focus_categories cats cs) pf male female (Some profile))
    as [recs ->].
  cbn [fst snd app].
  split; [reflexivity|]. split; [read_key|].
  split; [exists label; split; [exact Hlabel | read_key]|].
  split; [eexists; split; [read_key | apply clip01_range]|].
  split.
  - exists cs, (sorted_desc fc_score (display_focus_categories cats cs)).
    split; [read_key|]. split.
    { unfold cs. apply Forall_map, Forall_forall. intros x _. apply clip01_range. }
    split; [read_key|]. split.
    + unfold sorted_desc. induction (display_focus_categories cats cs) as [|x l IH];
        [constructor | now apply insert_desc_sorted].
    + rewrite (Permutation_length (sorted_desc_perm fc_score _)).
      apply display_focus_length.
  - exists recs. read_key.
Qed.

(** Both models loaded, each answering with constants. *)
Lemma analyze_success_witness :
  (analyze ["Marriage And Relationship"; "Planning The Family"] ∅
     {| risk_model :=
          Some {| predict := fun _ => inr 2%nat;
                  predict_proba := fun _ => inr [0.1; 0.2; 0.7] |};
        category_model := Some {| category_predict := fun _ => inr [0.9; 1.5] |};
        risk_encoder := None |}
     (fun _ => NlgImportError) "" empty_request).1
  = [RiskPredict; RiskPredictProba; CategoryPredict; GenerateRecommendations].
Proof.
  destruct (analyze_success ["Marriage And Relationship"; "Planning The Family"] ∅
     {| risk_model :=
          Some {| predict := fun _ => inr 2%nat;
                  predict_proba := fun _ => inr [0.1; 0.2; 0.7] |};
        category_model := Some {| category_predict := fun _ => inr [0.9; 1.5] |};
        risk_encoder := None |}
     (fun _ => NlgImportError) "" empty_request
     {| predict := fun _ => inr 2%nat; predict_proba := fun _ => inr [0.1; 0.2; 0.7] |}
     {| category_predict := fun _ => inr [0.9; 1.5] |} eq_refl eq_refl) as (H & _).
  - intros x. exists 2%nat. split; [reflexivity | lia].
  - intros x. eexists. split; [reflexivity | discriminate].
  - intros x. eexists. reflexivity.
  - exact H.
Defined.

(** ** Profile fields in the feature vector *)

(** X19.  In the vector [analyze] builds, the years-together entry (index 2)
    is 0 unless the civil status sent is "Living In", and the children entry
    (index 3) is 0 unless [past_children] was sent true, whatever numbers the
    request carries; absent ages default to 30 and absent levels to 2. *)
Theorem request_profile_entries (mapping : gmap nat nat) (data : request) :
  exists features profile pf male female,
    request_features mapping data = Some (features, profile, pf, male, female) /\
    profile = profile_of_request data /\
    features !! 2%nat = Some (inject_Z (years_living_together profile)) /\
    features !! 3%nat = Some (inject_Z (children profile)) /\
    (req_civil_status data <> Some "Living In" -> features !! 2%nat = Some 0) /\
    (req_past_children data <> Some true -> features !! 3%nat = Some 0) /\
    (req_male_age data = None -> features !! 0%nat = Some 30) /\
    (req_education_level data = None -> features !! 4%nat = Some 2).
Proof.
  destruct (request_features_total mapping data) as [x Hx].
  unfold request_features in Hx |- *.
  destruct (if bool_decide (default ∅ (req_personalized_features data) = ∅)
            then _ else _) as [pf|]; [|discriminate].
  cbn [mbind option_bind]. do 5 eexists. split; [reflexivity|].
  split; [reflexivity|]. split; [reflexivity|]. split; [reflexivity|].
  unfold analyze_features, demographic_features, profile_of_request.
  cbn [male_age female_age years_living_together children education_level income_level
       civil_status past_children app lookup list_lookup].
  repeat split.
  - intros Hc. destruct (req_civil_status data) as [s|]; [|reflexivity].
    unfold default, from_option, id.
    destruct (String.eqb s "Living In") eqn:E; [|reflexivity].
    apply String.eqb_eq in E. congruence.
  - intros Hc. destruct (req_past_children data) as [[|]|];
      [congruence | reflexivity | reflexivity].
  - intros ->. reflexivity.
  - intros ->. reflexivity.
Qed.

(** ** Numbering of the answerable questions *)

Lemma keys_upto_succ (n : nat) : keys_upto (S n) = keys_upto n ++ [Z.of_nat (S n)].
Proof. unfold keys_upto. now rewrite seq_S, map_app. Qed.

Lemma dict_has_fresh (n : nat) (mapping : list (Z * Z)) :
  map fst mapping = keys_upto n -> dict_has (Z.of_nat (S n)) mapping = false.
Proof.
  intros H. unfold dict_has. apply not_true_iff_false. intros E.
  apply existsb_exists in E as ([k v] & Hin & Hk). cbn in Hk. apply Z.eqb_eq in Hk.
  apply (in_map fst) in Hin. rewrite H in Hin. unfold keys_upto in Hin.
  apply in_map_iff in Hin as (i & Hi & Hs). apply in_seq in Hs. cbn in Hi. lia.
Qed.

Lemma numbered_set (cats : list Z) (n : nat) (mapping : list (Z * Z)) (c cat_id : Z) :
  numbered cats n (mapping, c) -> cat_id ∈ cats ->
  numbered cats (S n) (dict_set c cat_id mapping, (c + 1)%Z).
Proof.
  intros (Hk & Hc & Hv) Hin. cbn [fst snd] in *. subst c.
  unfold dict_set. rewrite (dict_has_fresh n mapping Hk).
  split; [|split]; cbn [fst snd].
  - now rewrite map_app, Hk, keys_upto_succ.
  - lia.
  - apply Forall_app. split; [exact Hv|]. now apply List.Forall_cons.
Qed.

Lemma numbered_slots (cats : list Z) (cat_id : Z) (slots : list nat) (n : nat)
  (st : list (Z * Z) * Z) :
  numbered cats n st -> cat_id ∈ cats ->
  numbered cats (n + length slots)
    (fold_left (fun '(mapping, question_counter) (sub_idx : nat) =>
                  (dict_set question_counter cat_id mapping, (question_counter + 1)%Z))
               slots st).
Proof.
  revert n st. induction slots as [|i slots IH]; intros n [mapping c] Hst Hin.
  - cbn. now rewrite Nat.add_0_r.
  - cbn [fold_left length]. replace (n + S (length slots))%nat with (S n + length slots)%nat by lia.
    apply IH; [now apply numbered_set | exact Hin].
Qed.

Lemma numbered_question (cats : list Z) (cat_id : Z) (q : question) (n : nat)
  (st : list (Z * Z) * Z) :
  numbered cats n st -> cat_id ∈ cats ->
  numbered cats (n + question_slots q) (map_question cat_id st q).
Proof.
  intros Hst Hin. unfold map_question, question_slots. case_bool_decide.
  - pose proof (numbered_slots cats cat_id (seq 0 (length (q_sub_questions q))) n st Hst Hin)
      as H'. now rewrite length_seq in H'.
  - destruct st as [mapping c]. rewrite Nat.add_1_r. now apply numbered_set.
Qed.

Lemma numbered_category (cats : list Z) (cat_id : Z) (cat_questions : list (Z * question))
  (n : nat) (st : list (Z * Z) * Z) :
  numbered cats n st -> cat_id ∈ cats ->
  numbered cats (n + category_slots cat_questions)
    (fold_left (fun st '(q_id, q_data) => map_question cat_id st q_data) cat_questions st).
Proof.
  revert n st. induction cat_questions as [|[q_id q] qs IH]; intros n st Hst Hin.
  - cbn. now rewrite Nat.add_0_r.
  - change (category_slots ((q_id, q) :: qs))
      with (question_slots q + category_slots qs)%nat.
    rewrite Nat.add_assoc. cbn [fold_left].
    apply IH; [now apply numbered_question | exact Hin].
Qed.

Lemma numbered_catalogue (cats : list Z) (questions : list (Z * list (Z * question)))
  (n : nat) (st : list (Z * Z) * Z) :
  numbered cats n st -> Forall (fun item => item.1 ∈ cats) questions ->
  numbered cats (n + catalogue_slots questions)
    (fold_left
       (fun st '(cat_id, cat_questions) =>
          fold_left (fun st '(q_id, q_data) => map_question cat_id st q_data)
                    cat_questions st)
       questions st).
Proof.
  revert n st. induction questions as [|[cat_id qs] rest IH]; intros n st Hst Hcats.
  - cbn. now rewrite Nat.add_0_r.
  - change (catalogue_slots ((cat_id, qs) :: rest))
      with (category_slots qs + catalogue_slots rest)%nat.
    rewrite Nat.add_assoc. cbn [fold_left].
    apply Forall_cons in Hcats as [Hc Hrest].
    apply IH; [now apply numbered_category | exact Hrest].
Qed.

Lemma counted_category (cat_questions : list (Z * question)) (total : Z) :
  fold_left
    (fun total '(q_id, q) =>
       if bool_decide (q_sub_questions q <> [])
       then (total + Z.of_nat (length (q_sub_questions q)))%Z
       else (total + 1)%Z)
    cat_questions total
  = (total + Z.of_nat (category_slots cat_questions))%Z.
Proof.
  revert total. induction cat_questions as [|[q_id q] qs IH]; intros total.
  - cbn. lia.
  - change (category_slots ((q_id, q) :: qs))
      with (question_slots q + category_slots qs)%nat.
    cbn [fold_left]. rewrite IH. unfold question_slots.
    case_bool_decide; lia.
Qed.

Lemma counted_catalogue (questions : list (Z * list (Z * question))) (total : Z) :
  fold_left
    (fun total '(cat_id, cat_questions) =>
       fold_left
         (fun total '(q_id, q) =>
            if bool_decide (q_sub_questions q <> [])
            then (total + Z.of_nat (length (q_sub_questions q)))%Z
            else (total + 1)%Z)
         cat_questions total)
    questions total
  = (total + Z.of_nat (catalogue_slots questions))%Z.
Proof.
  revert total. induction questions as [|[cat_id qs] rest IH]; intros total.
  - cbn. lia.
  - change (catalogue_slots ((cat_id, qs) :: rest))
      with (category_slots qs + catalogue_slots rest)%nat.
    cbn [fold_left]. rewrite IH, counted_category. lia.
Qed.

(** X20.  Whatever the loaded questions, the answerable questions are numbered
    without gap or repetition: the keys of the mapping are 1, 2, ..., N in
    this order, where N is the count reported by the loader, the counter ends
    at N + 1, and every key is mapped to the id of a loaded category. *)
Theorem mapping_keys_contiguous (questions : list (Z * list (Z * question))) :
  let mapping := (build_mapping questions).1 in
  let N := total_answerable_questions questions in
  (0 <= N)%Z /\
  map fst mapping = keys_upto (Z.to_nat N) /\
  Z.of_nat (length mapping) = N /\
  (build_mapping questions).2 = (N + 1)%Z /\
  Forall (fun item => (1 <= item.1)%Z) mapping /\
  Forall (fun item => item.2 ∈ map fst questions) mapping.
Proof.
  cbv zeta. unfold build_mapping, total_answerable_questions.
  rewrite counted_catalogue, Z.add_0_l, Nat2Z.id.
  assert (H0 : numbered (map fst questions) 0 ([], 1%Z)).
  { split; [reflexivity|]. split; [reflexivity | apply List.Forall_nil]. }
  pose proof (numbered_catalogue (map fst questions) questions 0 ([], 1%Z) H0) as H.
  cbn [Nat.add] in H. destruct H as (Hk & Hc & Hv).
  { apply Forall_forall. intros item Hin. now apply list_elem_of_fmap_2. }
  split; [lia|]. split; [exact Hk|]. split; [|split; [|split]].
  - apply (f_equal length) in Hk. unfold keys_upto in Hk.
    rewrite !length_map, length_seq in Hk. now rewrite Hk.
  - rewrite Hc. lia.
  - apply Forall_forall. intros item Hin.
    assert (Hin' : item.1 ∈ keys_upto (catalogue_slots questions)).
    { rewrite <- Hk. now apply (list_elem_of_fmap_2 fst). }
    unfold keys_upto in Hin'.
    apply list_elem_of_fmap in Hin' as (i & -> & Hi). apply elem_of_seq in Hi. lia.
  - exact Hv.
Qed.

(** The sample rows give three answerable questions, numbered 1 to 3. *)
Example sample_mapping :
  build_mapping (load_questions sample_rows) = ([(1, 1); (2, 1); (3, 2)]%Z, 4%Z)
  /\ total_answerable_questions (load_questions sample_rows) = 3%Z.
Proof. split; reflexivity. Qed.

(** ** The counselling reasoning *)

Lemma one_tier (score : Q) :
  let h := Py.gt score 0.6 in
  let m := Py.lt 0.3 score && Py.le score 0.6 in
  let l := Py.le score 0.3 in
  (h = true /\ m <> true /\ l <> true) \/
  (h <> true /\ m = true /\ l <> true) \/
  (h <> true /\ m <> true /\ l = true).
Proof.
  cbv zeta. case_cmp; try (exfalso; lra); cbn [andb];
    first [ left; repeat split; congruence
          | right; left; repeat split; congruence
          | right; right; repeat split; congruence ].
Qed.

Lemma tiers_partition (focus : list focus_category) :
  high_tier focus ++ moderate_tier focus ++ low_tier focus ≡ₚ focus.
Proof.
  unfold high_tier, moderate_tier, low_tier.
  induction focus as [|c focus IH]; [reflexivity|].
  rewrite !(filter_cons _ c).
  destruct (one_tier (fc_score c)) as [(H & M & L) | [(H & M & L) | (H & M & L)]].
  - rewrite (decide_True _ _ H), (decide_False _ _ M), (decide_False _ _ L).
    cbn [app]. now rewrite IH.
  - rewrite (decide_False _ _ H), (decide_True _ _ M), (decide_False _ _ L).
    cbn [app]. rewrite <- Permutation_middle. now rewrite IH.
  - rewrite (decide_False _ _ H), (decide_False _ _ M), (decide_True _ _ L).
    rewrite <- !Permutation_middle. now rewrite IH.
Qed.

Lemma tier_part_length (label : string) (cats : list focus_category) :
  length (tier_part label cats) = if bool_decide (cats <> []) then 1%nat else 0%nat.
Proof. unfold tier_part. now case_bool_decide. Qed.

(** X21.  The counselling reasoning joins at most three phrases: the phrases
    of the non-empty tiers (score above 0.6, in (0.3, 0.6], up to 0.3), then
    the confidence phrase.  The three tiers split the focus categories, each
    category falling in exactly one; when all three are non-empty the
    confidence phrase is left out of the text. *)
Theorem counseling_reasoning_parts (focus : list focus_category) (scores : list Q)
  (ml_confidence : Q) :
  generate_counseling_reasoning focus scores ml_confidence
  = "Counseling recommendation based on: "
    +:+ Text.join "; " (take 3 (tier_parts focus ++ [confidence_part ml_confidence])) /\
  high_tier focus ++ moderate_tier focus ++ low_tier focus ≡ₚ focus /\
  (high_tier focus <> [] -> moderate_tier focus <> [] -> low_tier focus <> [] ->
   take 3 (tier_parts focus ++ [confidence_part ml_confidence]) = tier_parts focus) /\
  (high_tier focus = [] \/ moderate_tier focus = [] \/ low_tier focus = [] ->
   take 3 (tier_parts focus ++ [confidence_part ml_confidence])
   = tier_parts focus ++ [confidence_part ml_confidence]).
Proof.
  assert (Hlen : length (tier_parts focus)
                 = ((if bool_decide (high_tier focus <> []) then 1 else 0)
                    + (if bool_decide (moderate_tier focus <> []) then 1 else 0)
                    + (if bool_decide (low_tier focus <> []) then 1 else 0))%nat).
  { unfold tier_parts. rewrite !length_app, !tier_part_length. lia. }
  split; [|split; [apply tiers_partition|split]].
  - unfold tier_parts. rewrite <- !app_assoc.
    unfold generate_counseling_reasoning, tier_part, high_tier, moderate_tier, low_tier,
      confidence_part. cbv zeta.
    destruct (3 <? length _)%nat eqn:E; [reflexivity|].
    apply Nat.ltb_ge in E. rewrite (take_ge _ 3 E). reflexivity.
  - intros H1 H2 H3. rewrite !bool_decide_eq_true_2 in Hlen by assumption.
    rewrite take_app_length'; [reflexivity | now rewrite Hlen].
  - intros H. apply take_ge. rewrite length_app, Hlen. cbn [length].
    destruct H as [H | [H | H]]; rewrite H;
      rewrite (bool_decide_eq_false_2 ([] <> [])) by (intros Hn; now apply Hn);
      repeat case_bool_decide; lia.
Qed.

(** ** Which categories get a severity entry *)

Lemma category_block_commented (c : focus_category) :
  length (category_block c) = if commented c then 1%nat else 0%nat.
Proof.
  unfold category_block, commented, has_keyword.
  destruct (Py.gt (fc_score c) 0.7) eqn:E7; [apply gt_true in E7 | apply gt_false in E7];
  destruct (Py.gt (fc_score c) 0.5) eqn:E5; [apply gt_true in E5 | apply gt_false in E5
                                            |apply gt_true in E5 | apply gt_false in E5];
  destruct (Py.gt (fc_score c) 0.3) eqn:E3; try apply gt_true in E3;
    try apply gt_false in E3; try lra;
  destruct (Text.contains "Marriage" (fc_name c));
  destruct (Text.contains "Family" (fc_name c));
  destruct (Text.contains "Health" (fc_name c)); reflexivity.
Qed.

(** X22.  The rule-based generator writes one severity entry for each focus
    category that scores above 0.3 and whose name contains "Marriage",
    "Family" or "Health" (matching case), and none for any other category:
    a category named "Responsible Parenthood" is never commented. *)
Theorem category_commentary (risk : string) (scores : list Q)
  (focus : list focus_category) (pf : gmap string Q) (m f : list Z) :
  exists recs,
    rule_based_recommendations risk scores focus pf m f = Some recs /\
    stage_count CategorySeverity recs = length (filter (fun c => commented c = true) focus) /\
    (forall c, fc_name c = "Responsible Parenthood" -> commented c = false).
Proof.
  unfold rule_based_recommendations.
  destruct (positive_ratio_total (agree_count m) (length m)) as [mr' ->].
  destruct (positive_ratio_total (agree_count f) (length m)) as [fr' ->].
  cbn [mbind option_bind]. eexists. split; [reflexivity|]. split.
  - unfold stage_count. rewrite !map_app, !filter_app, !length_app.
    rewrite alignment_block_stage, optimism_block_stage, conflict_block_stage,
      male_consistency_block_stage, female_consistency_block_stage, variance_block_stage.
    destruct (power_block_stage (Py.get "power_balance" 0 pf)
                (Py.get "alignment_score" 0.5 pf) (Py.get "male_avg_response" 3 pf)
                (Py.get "female_avg_response" 3 pf)) as (-> & _).
    destruct (male_positivity_block_stage mr') as (-> & _).
    destruct (female_positivity_block_stage fr') as (-> & _).
    destruct (risk_block_stage risk (Py.get "conflict_ratio" 0 pf)) as (cr' & -> & _).
    rewrite !filter_cons, !filter_nil.
    repeat (rewrite decide_False by discriminate).
    rewrite !filter_replicate_other by discriminate.
    cbn [length Nat.add]. rewrite Nat.add_0_r.
    clear. induction focus as [|c focus IH]; [reflexivity|].
    cbn [map concat]. rewrite map_app, filter_app, length_app, IH, (filter_cons _ c).
    destruct (category_block_stage c) as (-> & _).
    rewrite category_block_commented.
    destruct (commented c); cbn; [reflexivity|].
    destruct (decide (false = true)); [discriminate | reflexivity].
  - intros c Hn. unfold commented, has_keyword. rewrite Hn.
    apply andb_false_r.
Qed.

(** ** A generator called without the male answers *)

Lemma single_stage_block (l : list recommendation) (s : stage) :
  map stage_of l = [s] -> exists r, l = [r].
Proof. destruct l as [|r [|r' l]]; [discriminate | by eexists | discriminate]. Qed.

(** X23.  With an empty male list (what [analyze] passes when the request
    sends only the combined questionnaire) both positive ratios are 0 whatever
    the female answers: the harmony entry is "CONCERNING HARMONY" and both
    partners get the "CONCERNS" entry at 0%. *)
Theorem no_male_answers (risk : string) (scores : list Q) (focus : list focus_category)
  (pf : gmap string Q) (f : list Z) :
  exists recs c,
    rule_based_recommendations risk scores focus pf [] f = Some recs /\
    recs !! 1%nat = Some (ConcerningHarmony c) /\ c == 0 /\
    MaleConcerns 0 ∈ recs /\ FemaleConcerns 0 ∈ recs /\
    render (MaleConcerns 0)
    = " MALE CONCERNS: Male partner shows only 0% positive responses - individual counseling recommended".
Proof.
  unfold rule_based_recommendations, positive_ratio. cbn [length Nat.ltb Nat.leb].
  cbn [mbind option_bind].
  destruct (single_stage_block _ _ (alignment_block_stage (Py.get "alignment_score" 0.5 pf)))
    as [a ->].
  eexists. exists ((0 + 0) / 2). split; [reflexivity|].
  split; [reflexivity|]. split; [reflexivity|].
  split; [|split; [|reflexivity]].
  - apply elem_of_app. right. apply elem_of_app. right. apply elem_of_app. right.
    apply elem_of_app. right. apply elem_of_app. right. apply elem_of_app. right.
    apply elem_of_app. left. set_solver.
  - do 7 (apply elem_of_app; right). apply elem_of_app. left. set_solver.
Qed.


(** ** Risk reasoning of a cohabiting couple with children *)

(** X24.  For a couple recorded as "Living In" for at least one year with at
    least one child, the cohabitation and parenting phrases take the second
    and third place of the risk reasoning, so the cut to three phrases (to
    four at High risk) leaves no room for the questionnaire: at any risk
    level other than "High" the text is the same whatever the personalised
    features are, and at every risk level the conflict ratio has no effect
    on it. *)
Theorem cohabiting_parents_reasoning (profile : couple_profile)
  (pf pf' : gmap string Q) (c : Q) (risk : string) :
  civil_status profile = "Living In" ->
  (0 < years_living_together profile)%Z ->
  past_children profile = true ->
  (0 < children profile)%Z ->
  (risk <> "High" ->
   generate_risk_reasoning profile pf risk = generate_risk_reasoning profile pf' risk) /\
  generate_risk_reasoning profile (<["conflict_ratio" := c]> pf) risk
  = generate_risk_reasoning profile pf risk.
Proof.
  intros Hs Hy Hp Hc. unfold generate_risk_reasoning. cbv zeta.
  rewrite Hs, Hp. change (String.eqb "Living In" "Living In") with true.
  replace (0 <? years_living_together profile)%Z with true
    by (symmetry; apply Z.ltb_lt; exact Hy).
  replace (0 <? children profile)%Z with true by (symmetry; apply Z.ltb_lt; exact Hc).
  cbn [andb].
  assert (Ha : Py.get "alignment_score" 0.5 (<["conflict_ratio" := c]> pf)
               = Py.get "alignment_score" 0.5 pf).
  { unfold Py.get. now rewrite lookup_insert_ne. }
  rewrite Ha.
  split.
  - intros Hr. destruct (String.eqb risk "High") eqn:E.
    + apply String.eqb_eq in E. contradiction.
    + destruct (10 <? Z.abs (male_age profile - female_age profile))%Z,
        (5 <? Z.abs (male_age profile - female_age profile))%Z,
        (5 <? years_living_together profile)%Z;
        cbn [app firstn]; reflexivity.
  - destruct (10 <? Z.abs (male_age profile - female_age profile))%Z,
      (5 <? Z.abs (male_age profile - female_age profile))%Z,
      (5 <? years_living_together profile)%Z,
      (Py.gt (Py.get "alignment_score" 0.5 pf) 0.7),
      (Py.lt (Py.get "alignment_score" 0.5 pf) 0.4);
      cbn [app firstn]; reflexivity.
Qed.

(** The theorem at work: seven years together, two children, Medium risk. *)
Lemma cohabiting_parents_reasoning_witness :
  generate_risk_reasoning sample_profile ∅ "Medium"
  = generate_risk_reasoning sample_profile
      (<["alignment_score" := 0.1]> (<["conflict_ratio" := 0.9]> ∅)) "Medium" /\
  generate_risk_reasoning sample_profile ∅ "Medium"
  = "Medium risk assessment based on: Significant age gap (15 years) between partners; Long-term cohabitation (7 years) with established patterns; Parenting experience with 2 children".
Proof.
  split.
  - apply (cohabiting_parents_reasoning sample_profile ∅
             (<["alignment_score" := 0.1]> (<["conflict_ratio" := 0.9]> ∅)) 0 "Medium");
      first [reflexivity | discriminate].
  - vm_compute. reflexivity.
Defined.
